(** * The Node.js binding of the gzh engine: [bindings/nodejs/src/native/addon.cc]

    The addon exposes six callbacks to JavaScript.  Each one validates its
    arguments, marshals them into the C records of the engine's interface,
    performs one blocking engine call, releases what it allocated and turns
    the engine's [gzh_result_t] into a JavaScript object.

    The development embeds the six callbacks and their three helpers as
    functions of a state-and-outcome monad.  The state holds the bridge's C
    heap, the JavaScript exception pending on the [Napi::Env], the engine's
    own state and a chronological trace of allocations, frees, property
    reads and engine calls.

    Three things the callbacks depend on are not in [addon.cc].  The
    engine is a parameter: the theorems hold for every engine.  The build
    mode of node-addon-api, with or without C++ exceptions, decides what a
    failed Node-API call does, and is a parameter as well: with exceptions
    the failure leaves the callback at once, without them the call yields
    a default value, the error stays pending and the callback goes on.
    The longest string the JavaScript engine accepts,
    [v8::String::kMaxLength], differs between platforms and is the third
    parameter: [Napi::String::New] fails on a longer one. *)

From Stdlib Require Import ZArith QArith_base String Ascii List Lia.
From stdpp Require Import base option gmap.

Local Open Scope Z_scope.
Local Open Scope string_scope.

(** ** JavaScript values *)

(** A JavaScript number is an IEEE double: not-a-number, an infinity, or a
    finite value, which is a rational. *)
Inductive number :=
| NaN
| Infinity (negative : bool)
| Finite (q : Q).

(** A JavaScript string is represented by the bytes of its UTF-8 encoding,
    which is what [Napi::String::Utf8Value] hands to the addon.  The bytes
    may include NUL.  An object is the insertion-ordered list of its
    properties; accessors and proxies are not modelled. *)
#[warnings="-register-all"]
Inductive value :=
| VUndefined
| VNull
| VBoolean (b : bool)
| VNumber (n : number)
| VString (s : string)
| VSymbol (description : string)
| VBigInt (z : Z)
| VObject (props : list (string * value)).

Definition object := list (string * value).

Inductive js_error :=
| TypeError (message : string)
| Error (message : string).

Fixpoint get_property (o : object) (k : string) : option value :=
  match o with
  | [] => None
  | (k', v) :: o' => if String.eqb k' k then Some v else get_property o' k
  end.

Fixpoint set_property (o : object) (k : string) (v : value) : object :=
  match o with
  | [] => [(k, v)]
  | (k', v') :: o' =>
      if String.eqb k' k then (k, v) :: o' else (k', v') :: set_property o' k v
  end.

Definition has_property (o : object) (k : string) : bool :=
  match get_property o k with Some _ => true | None => false end.

(** ** Number conversions of Node-API *)

Definition truncate (q : Q) : Z := Z.quot (Qnum q) (Z.pos (Qden q)).

(** [int] of the C side: two's-complement wrap to 32 bits. *)
Definition wrap32 (z : Z) : Z := (z + 2 ^ 31) mod 2 ^ 32 - 2 ^ 31.

(** [int64_t]: values beyond the range saturate, as V8 converts them. *)
Definition saturate64 (z : Z) : Z := Z.max (- 2 ^ 63) (Z.min (2 ^ 63 - 1) z).

(** [napi_get_value_int32]: non-finite numbers give 0, finite ones are
    truncated toward zero and reduced to their low 32 bits. *)
Definition to_int32 (n : number) : Z :=
  match n with
  | Finite q => wrap32 (truncate q)
  | _ => 0
  end.

(** [napi_get_value_int64]: non-finite numbers give 0. *)
Definition to_int64 (n : number) : Z :=
  match n with
  | Finite q => saturate64 (truncate q)
  | _ => 0
  end.

(** [Napi::Number::New(env, int)]. *)
Definition Number_New (z : Z) : value := VNumber (Finite (inject_Z z)).

(** ** C strings *)

(** [std::string::c_str()] read as a C string: the bytes before the first
    NUL.  This is what [strdup] copies and what a [char*] parameter of the
    engine denotes. *)
Fixpoint c_str (s : string) : string :=
  match s with
  | EmptyString => EmptyString
  | String c r => if Ascii.eqb c zero then EmptyString else String c (c_str r)
  end.

(** [std::strlen]: the number of bytes before the first NUL. *)
Fixpoint strlen (s : string) : N :=
  match s with
  | EmptyString => 0%N
  | String c r => if Ascii.eqb c zero then 0%N else N.succ (strlen r)
  end.

(** ** UTF-8 *)

(** A host string is represented by its UTF-8 bytes, so what the
    JavaScript engine makes of the bytes handed to
    [napi_create_string_utf8] is again a byte string: V8's decoder copies
    every well-formed sequence and puts U+FFFD, the bytes [EF BF BD], in
    place of every maximal ill-formed one. *)
Definition replacement_character : string :=
  String (ascii_of_N 239) (String (ascii_of_N 191) (String (ascii_of_N 189) "")).

(** What a byte starts: a one-byte character, a sequence that needs a
    next byte in the range from [lo] to [hi] and [more] continuation
    bytes after it, or nothing. *)
Inductive utf8_lead :=
| Single
| Lead (more : nat) (lo hi : N)
| Invalid.

Definition utf8_lead_of (b : N) : utf8_lead :=
  if (b <? 128)%N then Single
  else if ((194 <=? b) && (b <=? 223))%N then Lead 0 128 191
  else if (b =? 224)%N then Lead 1 160 191
  else if (b =? 237)%N then Lead 1 128 159
  else if ((225 <=? b) && (b <=? 239))%N then Lead 1 128 191
  else if (b =? 240)%N then Lead 2 144 191
  else if ((241 <=? b) && (b <=? 243))%N then Lead 2 128 191
  else if (b =? 244)%N then Lead 2 128 143
  else Invalid.

(** The decoder, in the middle of a sequence when [st] holds what is
    still needed and the bytes read so far.  A byte that cannot continue
    the sequence ends it with a replacement character and is read again as
    the start of the next one; so does the end of the input. *)
Fixpoint utf8_decode_from (st : option (nat * N * N * string)) (s : string)
  : string :=
  match s with
  | EmptyString =>
      match st with Some _ => replacement_character | None => EmptyString end
  | String c r =>
      let start :=
        match utf8_lead_of (N_of_ascii c) with
        | Single => String c (utf8_decode_from None r)
        | Lead more lo hi =>
            utf8_decode_from (Some (more, lo, hi, String c EmptyString)) r
        | Invalid => replacement_character ++ utf8_decode_from None r
        end in
      match st with
      | None => start
      | Some (more, lo, hi, seen) =>
          let b := N_of_ascii c in
          if ((lo <=? b) && (b <=? hi))%N then
            match more with
            | O => seen ++ String c (utf8_decode_from None r)
            | S more' =>
                utf8_decode_from
                  (Some (more', 128%N, 191%N, seen ++ String c EmptyString)) r
            end
          else replacement_character ++ start
      end
  end.

Definition utf8_decode (s : string) : string := utf8_decode_from None s.

Fixpoint ascii_only (s : string) : bool :=
  match s with
  | EmptyString => true
  | String c r => (N_of_ascii c <? 128)%N && ascii_only r
  end.

(** ** The C records of the engine interface *)

Definition addr := positive.

(** A C pointer: [None] is the null pointer. *)
Definition ptr := option addr.

Record gzh_client_config_t := {
  timeout : Z;
  retry_count : Z;
  enable_plugins : Z;
  plugin_dir : ptr;
  log_level : ptr;
  log_file : ptr
}.

Record gzh_bulk_clone_request_t := {
  platforms_json : ptr;
  output_dir : ptr;
  concurrency : Z;
  strategy : ptr;
  include_private : Z;
  filters_json : ptr
}.

(** The engine's result record lives in engine memory.  Its two [char*]
    fields are given by the C string they point to, [None] for a null
    pointer. *)
Record gzh_result_t := {
  success : Z;
  error_msg : option string;
  data_json : option string
}.

(** [memset(&x, 0, sizeof x)]. *)
Definition zero_config : gzh_client_config_t :=
  {| timeout := 0; retry_count := 0; enable_plugins := 0;
     plugin_dir := None; log_level := None; log_file := None |}.

Definition zero_request : gzh_bulk_clone_request_t :=
  {| platforms_json := None; output_dir := None; concurrency := 0;
     strategy := None; include_private := 0; filters_json := None |}.

(** ** The bridge's heap *)

Inductive cell :=
| CString (s : string)
| CConfig (c : gzh_client_config_t).

Abbreviation heap_t := (gmap addr cell).

(** The C string a [char*] of the bridge denotes in a heap. *)
Definition read_string (h : heap_t) (p : ptr) : option string :=
  match p with
  | None => None
  | Some a => match h !! a with Some (CString s) => Some s | _ => None end
  end.

(** ** Events *)

(** Engine calls record their arguments as the engine receives them: raw
    records and pointers together with the bridge heap at the time of the
    call, and the value the engine returned. *)
Inductive event :=
| EvGet (key : string)
| EvAlloc (a : addr) (c : cell)
| EvFree (a : addr)
| EvClientCreate (config : option gzh_client_config_t) (mem : heap_t) (ret : Z)
| EvClientDestroy (clientID : Z)
| EvBulkClone (clientID : Z) (request : gzh_bulk_clone_request_t)
    (mem : heap_t) (ret : ptr)
| EvListPlugins (clientID : Z) (ret : ptr)
| EvExecutePlugin (clientID : Z) (plugin_name method args_json : string)
    (timeout_seconds : Z) (ret : ptr)
| EvHealth (clientID : Z) (ret : ptr)
| EvFreeResult (result : ptr).

(** ** The engine *)

(** The Go library behind the [extern "C"] declarations.  It is an external
    collaborator: any deterministic state machine with these entry points.
    An entry point that takes a record reads the bridge's heap as it is at
    the time of the call and cannot change it.  [eng_load] reads a result
    record of engine memory; it is [None] at an address that holds no live
    record. *)
Record Engine := {
  eng_state : Type;
  gzh_node_client_create :
    option gzh_client_config_t -> heap_t -> eng_state -> Z * eng_state;
  gzh_node_client_destroy : Z -> eng_state -> eng_state;
  gzh_node_bulk_clone :
    Z -> gzh_bulk_clone_request_t -> heap_t -> eng_state -> ptr * eng_state;
  gzh_node_list_plugins : Z -> eng_state -> ptr * eng_state;
  gzh_node_execute_plugin :
    Z -> string -> string -> string -> Z -> eng_state -> ptr * eng_state;
  gzh_node_health : Z -> eng_state -> ptr * eng_state;
  gzh_node_free_result : ptr -> eng_state -> eng_state;
  eng_load : eng_state -> addr -> option gzh_result_t
}.

(** An instrumented fake engine for concrete runs: session creation
    answers [create_ret]; every envelope-returning entry point answers a
    freshly allocated copy of [reply], or the null pointer when [reply] is
    [None]; [gzh_node_free_result] releases the record. *)
Definition fake_alloc (reply : option gzh_result_t)
    (s : gmap addr gzh_result_t) : ptr * gmap addr gzh_result_t :=
  match reply with
  | Some r => let a := fresh (dom s) in (Some a, <[a := r]> s)
  | None => (None, s)
  end.

Definition fake_engine (create_ret : Z) (reply : option gzh_result_t) : Engine :=
  {| eng_state := gmap addr gzh_result_t;
     gzh_node_client_create := fun _ _ s => (create_ret, s);
     gzh_node_client_destroy := fun _ s => s;
     gzh_node_bulk_clone := fun _ _ _ s => fake_alloc reply s;
     gzh_node_list_plugins := fun _ s => fake_alloc reply s;
     gzh_node_execute_plugin := fun _ _ _ _ _ s => fake_alloc reply s;
     gzh_node_health := fun _ s => fake_alloc reply s;
     gzh_node_free_result := fun p s =>
       match p with Some a => delete a s | None => s end;
     eng_load := fun s a => s !! a |}.

(** Sample data for concrete runs: a success envelope with a payload, a
    failure envelope with a message, and the bulk-clone request of the
    end-to-end scenario. *)
Definition quoted (s : string) : string :=
  String (ascii_of_nat 34) (s ++ String (ascii_of_nat 34) "").

Definition reply_cloned : gzh_result_t :=
  {| success := 1; error_msg := None;
     data_json := Some ("{" ++ quoted "cloned" ++ ":3}") |}.

Definition reply_failed : gzh_result_t :=
  {| success := 0; error_msg := Some "no such client"; data_json := None |}.

Definition request_mirror : object :=
  [("platforms", VString ("[" ++ quoted "github" ++ "]"));
   ("outputDir", VString "/tmp/x");
   ("concurrency", Number_New 4); ("strategy", VString "mirror");
   ("includePrivate", VBoolean false)].

(** The longest string V8 creates on a 64-bit platform,
    [v8::String::kMaxLength]; an envelope with a payload of 2^29 bytes,
    which is longer; and an envelope whose payload is the single byte FF,
    which is not UTF-8. *)
Definition kMaxLength_64bit : N := 2 ^ 29 - 24.

Definition oversized_payload : string := N.iter (2 ^ 29) (String "a") "".

Definition reply_oversized : gzh_result_t :=
  {| success := 1; error_msg := None; data_json := Some oversized_payload |}.

Definition reply_ill_formed : gzh_result_t :=
  {| success := 1; error_msg := None;
     data_json := Some (String (ascii_of_N 255) "") |}.

(** ** State, outcomes and the monad of the addon *)

(** How a piece of C++ ends: it yields a value, a [Napi::Error] propagates
    as a C++ exception, the process is aborted by [Napi::Error::Fatal], or
    the behaviour is undefined. *)
Inductive outcome (A : Type) :=
| Ok (a : A)
| Thrown (e : js_error)
| Fatal
| Undef.

Arguments Ok {A} a.
Arguments Thrown {A} e.
Arguments Fatal {A}.
Arguments Undef {A}.

Section Bridge.

(** Whether node-addon-api is built with C++ exceptions
    ([NAPI_CPP_EXCEPTIONS]) or without ([NAPI_DISABLE_CPP_EXCEPTIONS]).
    The build configuration is not part of [addon.cc]; every definition
    below is parametric in it. *)
Variable cpp_exceptions : bool.

(** [v8::String::kMaxLength], the length in bytes beyond which V8 makes no
    string: 2^29 - 24 on 64-bit platforms, 2^28 - 16 on 32-bit ones. *)
Variable kMaxLength : N.

Variable E : Engine.

Record world := {
  pending : option js_error;
  heap : heap_t;
  trace : list event;
  engine : eng_state E
}.

Definition with_pending (p : option js_error) (w : world) : world :=
  {| pending := p; heap := heap w; trace := trace w; engine := engine w |}.

Definition with_heap (h : heap_t) (w : world) : world :=
  {| pending := pending w; heap := h; trace := trace w; engine := engine w |}.

Definition with_engine (s : eng_state E) (w : world) : world :=
  {| pending := pending w; heap := heap w; trace := trace w; engine := s |}.

Definition log (ev : event) (w : world) : world :=
  {| pending := pending w; heap := heap w; trace := (trace w ++ [ev])%list;
     engine := engine w |}.

Definition M (A : Type) : Type := world -> outcome A * world.

Definition ret {A} (a : A) : M A := fun w => (Ok a, w).

Definition bind {A B} (m : M A) (f : A -> M B) : M B := fun w =>
  match m w with
  | (Ok a, w') => f a w'
  | (Thrown e, w') => (Thrown e, w')
  | (Fatal, w') => (Fatal, w')
  | (Undef, w') => (Undef, w')
  end.

Notation "x <- m ;; k" := (bind m (fun x => k))
  (at level 100, m at next level, right associativity).
Notation "m ;; k" := (bind m (fun _ => k))
  (at level 100, right associativity).

(** ** The C heap: [new], [strdup], [free], [delete] *)

Definition malloc (c : cell) : M addr := fun w =>
  let a := fresh (dom (heap w)) in
  (Ok a, log (EvAlloc a c) (with_heap (<[a := c]> (heap w)) w)).

(** [strdup] of a C string.  Running out of memory is not modelled. *)
Definition strdup (s : string) : M ptr :=
  a <- malloc (CString s) ;; ret (Some a).

(** [free] and [delete] of a live block; anything else is undefined. *)
Definition free (a : addr) : M unit := fun w =>
  match heap w !! a with
  | Some _ => (Ok tt, log (EvFree a) (with_heap (delete a (heap w)) w))
  | None => (Undef, w)
  end.

Definition load_config (a : addr) : M gzh_client_config_t := fun w =>
  match heap w !! a with
  | Some (CConfig c) => (Ok c, w)
  | _ => (Undef, w)
  end.

Definition store_config (a : addr)
    (f : gzh_client_config_t -> gzh_client_config_t) : M unit :=
  c <- load_config a ;;
  fun w => (Ok tt, with_heap (<[a := CConfig (f c)]> (heap w)) w).

(** ** node-addon-api *)

(** [Napi::Error::New(env)]: the error for a failed Node-API call.  An
    exception already pending is taken over, and cleared from the
    environment, instead of a new one being made. *)
Definition Error_New (message : string) : M js_error := fun w =>
  match pending w with
  | Some e => (Ok e, with_pending None w)
  | None => (Ok (TypeError message), w)
  end.

(** [napi_throw] through [Napi::Error::ThrowAsJavaScriptException].  With
    an exception already pending [napi_throw] fails: that is a C++
    exception in a build with exceptions and a fatal error without. *)
Definition ThrowAsJavaScriptException (e : js_error) : M unit := fun w =>
  match pending w with
  | None => (Ok tt, with_pending (Some e) w)
  | Some e' =>
      if cpp_exceptions then (Thrown e', with_pending None w) else (Fatal, w)
  end.

(** [NAPI_THROW_IF_FAILED(env, status, dflt)] on a failed status: throw
    the error as a C++ exception, or make it the pending JavaScript
    exception and go on with the default value. *)
Definition napi_failed {A} (message : string) (dflt : A) : M A :=
  e <- Error_New message ;;
  if cpp_exceptions then (fun w => (Thrown e, w))
  else (ThrowAsJavaScriptException e ;; ret dflt).

Definition IsNumber (v : value) : bool :=
  match v with VNumber _ => true | _ => false end.

Definition IsString (v : value) : bool :=
  match v with VString _ => true | _ => false end.

(** [IsObject()] holds of objects and functions; a function is an object
    to the model. *)
Definition IsObject (v : value) : bool :=
  match v with VObject _ => true | _ => false end.

(** [info[i]]: [undefined] beyond [info.Length()]. *)
Definition info_at (info : list value) (i : nat) : value :=
  nth i info VUndefined.

(** [As<Napi::Object>()] is an unchecked cast; the addon applies it only
    after [IsObject()]. *)
Definition As_Object (v : value) : object :=
  match v with VObject o => o | _ => [] end.

(** [As<Napi::Number>().Int32Value()]: the cast is unchecked and
    [napi_get_value_int32] fails on anything but a number. *)
Definition Int32Value (v : value) : M Z :=
  match v with
  | VNumber n => ret (to_int32 n)
  | _ => napi_failed "A number was expected" 0
  end.

Definition Int64Value (v : value) : M Z :=
  match v with
  | VNumber n => ret (to_int64 n)
  | _ => napi_failed "A number was expected" 0
  end.

(** [As<Napi::Boolean>().Value()]. *)
Definition BooleanValue (v : value) : M bool :=
  match v with
  | VBoolean b => ret b
  | _ => napi_failed "A boolean was expected" false
  end.

(** [As<Napi::String>().Utf8Value()]. *)
Definition Utf8Value (v : value) : M string :=
  match v with
  | VString s => ret s
  | _ => napi_failed "A string was expected" ""
  end.

(** [Napi::Object::Has], [Get] and [Set] go through Node-API functions
    that refuse to run while an exception is pending.  A failed [Get]
    yields the empty [Napi::Value], which every later check and conversion
    treats like [undefined].  [Has] finds inherited properties too: the
    property list of an object stands for all it can reach.  [Get] is
    recorded in the trace. *)
Definition Has (o : object) (k : string) : M bool := fun w =>
  match pending w with
  | Some _ => napi_failed "" false w
  | None => (Ok (has_property o k), w)
  end.

Definition Get (o : object) (k : string) : M value := fun w =>
  match pending w with
  | Some _ => napi_failed "" VUndefined w
  | None =>
      (Ok (match get_property o k with Some v => v | None => VUndefined end),
       log (EvGet k) w)
  end.

Definition Set_ (o : object) (k : string) (v : value) : M object := fun w =>
  match pending w with
  | Some _ => napi_failed "" o w
  | None => (Ok (set_property o k v), w)
  end.

Definition TypeError_New (message : string) : js_error := TypeError message.

(** [NAPI_THROW_IF_FAILED] on a status that is not one of the
    [..._expected] statuses: the error made for it when no exception is
    pending is a plain [Error] with the message of the status. *)
Definition napi_failed_plain {A} (message : string) (dflt : A) : M A :=
  e <- (fun w => match pending w with
                 | Some e => (Ok e, with_pending None w)
                 | None => (Ok (Error message), w)
                 end) ;;
  if cpp_exceptions then (fun w => (Thrown e, w))
  else (ThrowAsJavaScriptException e ;; ret dflt).

Definition INT_MAX : N := 2 ^ 31 - 1.

(** How [napi_create_string_utf8] fails on a string of [n] bytes: with
    [napi_invalid_arg] above [INT_MAX], and with [napi_generic_failure]
    when V8 makes no string, which is above [kMaxLength].  The result is
    the message of the status, and [None] when the string is made. *)
Definition create_string_failure (n : N) : option string :=
  if (n <=? INT_MAX)%N then
    if (n <=? kMaxLength)%N then None else Some "Unknown failure"
  else Some "Invalid argument".

(** [Napi::String::New] of a C string: [napi_create_string_utf8] on its
    [strlen] bytes, which V8 decodes as UTF-8.  It makes the string
    whether or not an exception is pending; a failure goes through
    [NAPI_THROW_IF_FAILED], whose default is the empty [Napi::String]. *)
Definition String_New (s : string) : M value :=
  match create_string_failure (strlen s) with
  | None => ret (VString (utf8_decode (c_str s)))
  | Some message => napi_failed_plain message VUndefined
  end.

Definition Boolean_New (b : bool) : value := VBoolean b.

(** ** Calls into the engine *)

Definition call_client_create (config : ptr) : M Z := fun w =>
  let c := match config with
           | Some a => match heap w !! a with
                       | Some (CConfig c) => Some c
                       | _ => None
                       end
           | None => None
           end in
  let '(r, s) := gzh_node_client_create E c (heap w) (engine w) in
  (Ok r, log (EvClientCreate c (heap w) r) (with_engine s w)).

Definition call_client_destroy (clientID : Z) : M unit := fun w =>
  (Ok tt, log (EvClientDestroy clientID)
            (with_engine (gzh_node_client_destroy E clientID (engine w)) w)).

Definition call_bulk_clone (clientID : Z)
    (request : gzh_bulk_clone_request_t) : M ptr := fun w =>
  let '(r, s) := gzh_node_bulk_clone E clientID request (heap w) (engine w) in
  (Ok r, log (EvBulkClone clientID request (heap w) r) (with_engine s w)).

Definition call_list_plugins (clientID : Z) : M ptr := fun w =>
  let '(r, s) := gzh_node_list_plugins E clientID (engine w) in
  (Ok r, log (EvListPlugins clientID r) (with_engine s w)).

Definition call_execute_plugin (clientID : Z)
    (plugin_name method args_json : string) (timeout_seconds : Z) : M ptr :=
  fun w =>
  let '(r, s) := gzh_node_execute_plugin E clientID plugin_name method
                   args_json timeout_seconds (engine w) in
  (Ok r, log (EvExecutePlugin clientID plugin_name method args_json
                timeout_seconds r) (with_engine s w)).

Definition call_health (clientID : Z) : M ptr := fun w =>
  let '(r, s) := gzh_node_health E clientID (engine w) in
  (Ok r, log (EvHealth clientID r) (with_engine s w)).

Definition call_free_result (result : ptr) : M unit := fun w =>
  (Ok tt, log (EvFreeResult result)
            (with_engine (gzh_node_free_result E result (engine w)) w)).

(** [result->field]: reading through a null or dangling pointer is
    undefined. *)
Definition deref_result (result : ptr) : M gzh_result_t := fun w =>
  match result with
  | Some a =>
      match eng_load E (engine w) a with
      | Some r => (Ok r, w)
      | None => (Undef, w)
      end
  | None => (Undef, w)
  end.

(** ** Field updates of the C records *)

Definition set_timeout (n : Z) (c : gzh_client_config_t) :=
  {| timeout := n; retry_count := retry_count c;
     enable_plugins := enable_plugins c; plugin_dir := plugin_dir c;
     log_level := log_level c; log_file := log_file c |}.

Definition set_retry_count (n : Z) (c : gzh_client_config_t) :=
  {| timeout := timeout c; retry_count := n;
     enable_plugins := enable_plugins c; plugin_dir := plugin_dir c;
     log_level := log_level c; log_file := log_file c |}.

Definition set_enable_plugins (n : Z) (c : gzh_client_config_t) :=
  {| timeout := timeout c; retry_count := retry_count c;
     enable_plugins := n; plugin_dir := plugin_dir c;
     log_level := log_level c; log_file := log_file c |}.

Definition set_plugin_dir (p : ptr) (c : gzh_client_config_t) :=
  {| timeout := timeout c; retry_count := retry_count c;
     enable_plugins := enable_plugins c; plugin_dir := p;
     log_level := log_level c; log_file := log_file c |}.

Definition set_log_level (p : ptr) (c : gzh_client_config_t) :=
  {| timeout := timeout c; retry_count := retry_count c;
     enable_plugins := enable_plugins c; plugin_dir := plugin_dir c;
     log_level := p; log_file := log_file c |}.

Definition set_log_file (p : ptr) (c : gzh_client_config_t) :=
  {| timeout := timeout c; retry_count := retry_count c;
     enable_plugins := enable_plugins c; plugin_dir := plugin_dir c;
     log_level := log_level c; log_file := p |}.

Definition set_platforms_json (p : ptr) (r : gzh_bulk_clone_request_t) :=
  {| platforms_json := p; output_dir := output_dir r;
     concurrency := concurrency r; strategy := strategy r;
     include_private := include_private r; filters_json := filters_json r |}.

Definition set_output_dir (p : ptr) (r : gzh_bulk_clone_request_t) :=
  {| platforms_json := platforms_json r; output_dir := p;
     concurrency := concurrency r; strategy := strategy r;
     include_private := include_private r; filters_json := filters_json r |}.

Definition set_concurrency (n : Z) (r : gzh_bulk_clone_request_t) :=
  {| platforms_json := platforms_json r; output_dir := output_dir r;
     concurrency := n; strategy := strategy r;
     include_private := include_private r; filters_json := filters_json r |}.

Definition set_strategy (p : ptr) (r : gzh_bulk_clone_request_t) :=
  {| platforms_json := platforms_json r; output_dir := output_dir r;
     concurrency := concurrency r; strategy := p;
     include_private := include_private r; filters_json := filters_json r |}.

Definition set_include_private (n : Z) (r : gzh_bulk_clone_request_t) :=
  {| platforms_json := platforms_json r; output_dir := output_dir r;
     concurrency := concurrency r; strategy := strategy r;
     include_private := n; filters_json := filters_json r |}.

Definition set_filters_json (p : ptr) (r : gzh_bulk_clone_request_t) :=
  {| platforms_json := platforms_json r; output_dir := output_dir r;
     concurrency := concurrency r; strategy := strategy r;
     include_private := include_private r; filters_json := p |}.

(** ** The addon *)

(** [if (p) free(p);] *)
Definition free_if_set (p : ptr) : M unit :=
  match p with
  | Some a => free a
  | None => ret tt
  end.

(** Helper function to convert Napi::Object to gzh_client_config_t. *)
Definition ObjectToClientConfig (obj : object) : M addr :=
  config <- malloc (CConfig zero_config) ;;
  (b <- Has obj "timeout" ;;
   if b then
     v <- Get obj "timeout" ;;
     n <- Int64Value v ;;
     store_config config (set_timeout n)
   else ret tt) ;;
  (b <- Has obj "retryCount" ;;
   if b then
     v <- Get obj "retryCount" ;;
     n <- Int32Value v ;;
     store_config config (set_retry_count n)
   else ret tt) ;;
  (b <- Has obj "enablePlugins" ;;
   if b then
     v <- Get obj "enablePlugins" ;;
     x <- BooleanValue v ;;
     store_config config (set_enable_plugins (if x then 1 else 0))
   else ret tt) ;;
  (b <- Has obj "pluginDir" ;;
   if b then
     v <- Get obj "pluginDir" ;;
     pluginDir <- Utf8Value v ;;
     p <- strdup (c_str pluginDir) ;;
     store_config config (set_plugin_dir p)
   else ret tt) ;;
  (b <- Has obj "logLevel" ;;
   if b then
     v <- Get obj "logLevel" ;;
     logLevel <- Utf8Value v ;;
     p <- strdup (c_str logLevel) ;;
     store_config config (set_log_level p)
   else ret tt) ;;
  (b <- Has obj "logFile" ;;
   if b then
     v <- Get obj "logFile" ;;
     logFile <- Utf8Value v ;;
     p <- strdup (c_str logFile) ;;
     store_config config (set_log_file p)
   else ret tt) ;;
  ret config.

(** Helper function to free gzh_client_config_t. *)
Definition FreeClientConfig (config : ptr) : M unit :=
  match config with
  | Some a =>
      c <- load_config a ;;
      free_if_set (plugin_dir c) ;;
      free_if_set (log_level c) ;;
      free_if_set (log_file c) ;;
      free a
  | None => ret tt
  end.

(** Helper function to convert gzh_result_t to Napi::Object. *)
Definition ResultToObject (result : ptr) : M value :=
  obj <- ret ([] : object) ;;
  r <- deref_result result ;;
  obj <- Set_ obj "success" (Boolean_New (success r =? 1)%Z) ;;
  obj <- match error_msg r with
         | Some s => v <- String_New s ;; Set_ obj "error" v
         | None => Set_ obj "error" VNull
         end ;;
  obj <- match data_json r with
         | Some s => v <- String_New s ;; Set_ obj "data" v
         | None => Set_ obj "data" VNull
         end ;;
  ret (VObject obj).

(** Create client. *)
Definition CreateClient (info : list value) : M value :=
  config <- (if (0 <? length info)%nat && IsObject (info_at info 0) then
               a <- ObjectToClientConfig (As_Object (info_at info 0)) ;;
               ret (Some a)
             else ret None) ;;
  clientID <- call_client_create config ;;
  (match config with
   | Some _ => FreeClientConfig config
   | None => ret tt
   end) ;;
  if (clientID <? 0)%Z then
    ThrowAsJavaScriptException (TypeError_New "Failed to create client") ;;
    ret VNull
  else ret (Number_New clientID).

(** Destroy client. *)
Definition DestroyClient (info : list value) : M value :=
  if (length info <? 1)%nat || negb (IsNumber (info_at info 0)) then
    ThrowAsJavaScriptException (TypeError_New "Expected client ID") ;;
    ret VUndefined
  else
    clientID <- Int32Value (info_at info 0) ;;
    call_client_destroy clientID ;;
    ret VUndefined.

(** The conversion of the request object to the C struct, lines 152-177 of
    [BulkClone]. *)
Definition convert_request (requestObj : object) : M gzh_bulk_clone_request_t :=
  request <- ret zero_request ;;
  request <- (b <- Has requestObj "platforms" ;;
              if b then
                v <- Get requestObj "platforms" ;;
                platforms <- Utf8Value v ;;
                p <- strdup (c_str platforms) ;;
                ret (set_platforms_json p request)
              else ret request) ;;
  request <- (b <- Has requestObj "outputDir" ;;
              if b then
                v <- Get requestObj "outputDir" ;;
                outputDir <- Utf8Value v ;;
                p <- strdup (c_str outputDir) ;;
                ret (set_output_dir p request)
              else ret request) ;;
  request <- (b <- Has requestObj "concurrency" ;;
              if b then
                v <- Get requestObj "concurrency" ;;
                n <- Int32Value v ;;
                ret (set_concurrency n request)
              else ret request) ;;
  request <- (b <- Has requestObj "strategy" ;;
              if b then
                v <- Get requestObj "strategy" ;;
                strategy <- Utf8Value v ;;
                p <- strdup (c_str strategy) ;;
                ret (set_strategy p request)
              else ret request) ;;
  request <- (b <- Has requestObj "includePrivate" ;;
              if b then
                v <- Get requestObj "includePrivate" ;;
                x <- BooleanValue v ;;
                ret (set_include_private (if x then 1 else 0) request)
              else ret request) ;;
  request <- (b <- Has requestObj "filters" ;;
              if b then
                v <- Get requestObj "filters" ;;
                filters <- Utf8Value v ;;
                p <- strdup (c_str filters) ;;
                ret (set_filters_json p request)
              else ret request) ;;
  ret request.

(** Free request strings, lines 181-185 of [BulkClone]. *)
Definition free_request (request : gzh_bulk_clone_request_t) : M unit :=
  free_if_set (platforms_json request) ;;
  free_if_set (output_dir request) ;;
  free_if_set (strategy request) ;;
  free_if_set (filters_json request).

(** Bulk clone. *)
Definition BulkClone (info : list value) : M value :=
  if (length info <? 2)%nat || negb (IsNumber (info_at info 0))
     || negb (IsObject (info_at info 1)) then
    ThrowAsJavaScriptException
      (TypeError_New "Expected client ID and request object") ;;
    ret VNull
  else
    clientID <- Int32Value (info_at info 0) ;;
    request <- convert_request (As_Object (info_at info 1)) ;;
    result <- call_bulk_clone clientID request ;;
    free_request request ;;
    resultObj <- ResultToObject result ;;
    call_free_result result ;;
    ret resultObj.

(** List plugins. *)
Definition ListPlugins (info : list value) : M value :=
  if (length info <? 1)%nat || negb (IsNumber (info_at info 0)) then
    ThrowAsJavaScriptException (TypeError_New "Expected client ID") ;;
    ret VNull
  else
    clientID <- Int32Value (info_at info 0) ;;
    result <- call_list_plugins clientID ;;
    resultObj <- ResultToObject result ;;
    call_free_result result ;;
    ret resultObj.

(** Execute plugin.  The three strings are passed as the buffers of the
    local [std::string]s, which the engine reads as C strings. *)
Definition ExecutePlugin (info : list value) : M value :=
  if (length info <? 4)%nat || negb (IsNumber (info_at info 0))
     || negb (IsString (info_at info 1)) || negb (IsString (info_at info 2))
     || negb (IsString (info_at info 3)) then
    ThrowAsJavaScriptException
      (TypeError_New "Expected client ID, plugin name, method, and args") ;;
    ret VNull
  else
    clientID <- Int32Value (info_at info 0) ;;
    pluginName <- Utf8Value (info_at info 1) ;;
    method <- Utf8Value (info_at info 2) ;;
    argsJson <- Utf8Value (info_at info 3) ;;
    timeout <- (if (4 <? length info)%nat then Int32Value (info_at info 4)
                else ret 30) ;;
    result <- call_execute_plugin clientID (c_str pluginName) (c_str method)
                (c_str argsJson) timeout ;;
    resultObj <- ResultToObject result ;;
    call_free_result result ;;
    ret resultObj.

(** Health check. *)
Definition Health (info : list value) : M value :=
  if (length info <? 1)%nat || negb (IsNumber (info_at info 0)) then
    ThrowAsJavaScriptException (TypeError_New "Expected client ID") ;;
    ret VNull
  else
    clientID <- Int32Value (info_at info 0) ;;
    result <- call_health clientID ;;
    resultObj <- ResultToObject result ;;
    call_free_result result ;;
    ret resultObj.

(** Initialize the addon: the functions set on [exports]. *)
Definition Init : list (string * (list value -> M value)) :=
  [("createClient", CreateClient); ("destroyClient", DestroyClient);
   ("bulkClone", BulkClone); ("listPlugins", ListPlugins);
   ("executePlugin", ExecutePlugin); ("health", Health)].

(** ** What the JavaScript caller observes *)

Inductive host_result :=
| Returned (v : value)
| Raised (e : js_error)
| Aborted
| UndefinedBehaviour.

(** The wrapper node-addon-api puts around every callback: a C++
    exception that escapes the callback becomes the JavaScript exception,
    and a pending JavaScript exception replaces the returned value. *)
Definition host_call (f : list value -> M value) (info : list value)
    (w : world) : host_result * world :=
  match f info w with
  | (Ok v, w') =>
      match pending w' with
      | Some e => (Raised e, with_pending None w')
      | None => (Returned v, w')
      end
  | (Thrown e, w') => (Raised e, with_pending None w')
  | (Fatal, w') => (Aborted, w')
  | (Undef, w') => (UndefinedBehaviour, w')
  end.

(** ** Observations on traces *)

(** The pointer an envelope-returning engine call answered. *)
Definition envelope_of (ev : event) : option ptr :=
  match ev with
  | EvBulkClone _ _ _ r | EvListPlugins _ r | EvExecutePlugin _ _ _ _ _ r
  | EvHealth _ r => Some r
  | _ => None
  end.

Definition release_of (ev : event) : option ptr :=
  match ev with EvFreeResult r => Some r | _ => None end.

Definition alloc_of (ev : event) : option addr :=
  match ev with EvAlloc a _ => Some a | _ => None end.

Definition free_of (ev : event) : option addr :=
  match ev with EvFree a => Some a | _ => None end.

Definition is_engine_call (ev : event) : bool :=
  match ev with
  | EvGet _ | EvAlloc _ _ | EvFree _ => false
  | _ => true
  end.

(** Envelopes received, envelopes released, blocks allocated and blocks
    freed along a trace, each in order. *)
Definition envelopes (t : list event) : list ptr := omap envelope_of t.
Definition releases (t : list event) : list ptr := omap release_of t.
Definition allocations (t : list event) : list addr := omap alloc_of t.
Definition frees (t : list event) : list addr := omap free_of t.
Definition engine_calls (t : list event) : list event := filter is_engine_call t.

(** The four callbacks that return a translated result envelope. *)
Definition envelope_operations : list (list value -> M value) :=
  [BulkClone; ListPlugins; ExecutePlugin; Health].

(** Every present field has the JavaScript type the addon converts it
    from. *)
Definition field_is (test : value -> bool) (o : object) (k : string) : bool :=
  match get_property o k with
  | Some v => test v
  | None => true
  end.

Definition IsBoolean (v : value) : bool :=
  match v with VBoolean _ => true | _ => false end.

Definition well_typed_request (o : object) : bool :=
  field_is IsString o "platforms" && field_is IsString o "outputDir"
  && field_is IsNumber o "concurrency" && field_is IsString o "strategy"
  && field_is IsBoolean o "includePrivate" && field_is IsString o "filters".

Definition well_typed_config (o : object) : bool :=
  field_is IsNumber o "timeout" && field_is IsNumber o "retryCount"
  && field_is IsBoolean o "enablePlugins" && field_is IsString o "pluginDir"
  && field_is IsString o "logLevel" && field_is IsString o "logFile".

(** ** Weakest preconditions *)

Definition wp {A} (m : M A) (Q : outcome A -> world -> Prop) (w : world) : Prop :=
  Q (m w).1 (m w).2.

(** The postcondition a continuation [f] leaves for the computation in
    front of it. *)
Definition after {A B} (f : A -> M B) (Q : outcome B -> world -> Prop)
    (o : outcome A) (w : world) : Prop :=
  match o with
  | Ok a => wp (f a) Q w
  | Thrown e => Q (Thrown e) w
  | Fatal => Q Fatal w
  | Undef => Q Undef w
  end.

(** ** The effect of one conversion block *)

(** A block [if (obj.Has(k)) { ... strdup(s.c_str()) }] that leaves the
    pointer [p] in its field: nothing happened and [p] is null, or [p] is a
    fresh block holding a copy of the property's string (the empty string
    after a failed conversion in a build without C++ exceptions). *)
Definition string_step (o : object) (k : string) (w : world) (p : ptr)
    (w' : world) : Prop :=
  engine w' = engine w /\
  match p with
  | None =>
      heap w' = heap w /\ trace w' = trace w /\ pending w' = pending w /\
      (pending w = None -> get_property o k = None)
  | Some a =>
      pending w = None /\ heap w !! a = None /\
      exists v s, get_property o k = Some v /\
        heap w' = <[a := CString s]> (heap w) /\
        trace w' = (trace w ++ [EvGet k; EvAlloc a (CString s)])%list /\
        match v with
        | VString s0 => s = c_str s0 /\ pending w' = None
        | _ => cpp_exceptions = false /\ s = "" /\ pending w' <> None
        end
  end.

(** A block that converts a number or a boolean into the integer [n]. *)
Definition scalar_step (conv : value -> option Z) (o : object) (k : string)
    (w : world) (n : Z) (w' : world) : Prop :=
  engine w' = engine w /\ heap w' = heap w /\
  (trace w' = trace w /\ pending w' = pending w /\ n = 0 /\
   (pending w = None -> get_property o k = None)
   \/
   pending w = None /\ trace w' = (trace w ++ [EvGet k])%list /\
   exists v, get_property o k = Some v /\
     match conv v with
     | Some z => n = z /\ pending w' = None
     | None => cpp_exceptions = false /\ n = 0 /\ pending w' <> None
     end).

Definition int32_of (v : value) : option Z :=
  match v with VNumber n => Some (to_int32 n) | _ => None end.

Definition int64_of (v : value) : option Z :=
  match v with VNumber n => Some (to_int64 n) | _ => None end.

Definition flag_of (v : value) : option Z :=
  match v with VBoolean b => Some (if b then 1 else 0) | _ => None end.

(** A block left by a C++ exception: nothing was allocated, and unless an
    exception was pending already the property fails [test], the type
    check of the conversion. *)
Definition conversion_throw (test : value -> bool) (o : object) (k : string)
    (w w' : world) : Prop :=
  cpp_exceptions = true /\ engine w' = engine w /\ heap w' = heap w /\
  (trace w' = trace w \/
   trace w' = (trace w ++ [EvGet k])%list /\ is_Some (get_property o k)) /\
  (pending w = None -> field_is test o k = false).

(** A stretch of a call that only reads properties of [o] that it has and
    allocates the blocks [ps]: the engine is not called and nothing is
    freed. *)
Definition read_of (ev : event) : option string :=
  match ev with EvGet k => Some k | _ => None end.

Definition reads (t : list event) : list string := omap read_of t.

Definition marshal (o : object) (w : world) (ps : list addr) (w' : world)
  : Prop :=
  engine w' = engine w /\
  exists d, trace w' = (trace w ++ d)%list /\
    engine_calls d = [] /\ frees d = [] /\ allocations d = ps /\
    Forall (fun k => is_Some (get_property o k)) (reads d).

(** The pointers of a request that are not null, in field order. *)
Definition request_pointers (r : gzh_bulk_clone_request_t) : list addr :=
  (option_list (platforms_json r) ++ option_list (output_dir r)
   ++ option_list (strategy r) ++ option_list (filters_json r))%list.

(** The six conversion blocks of [BulkClone], in source order, leading from
    [w] to [w'] and to the request [r]. *)
Definition request_steps (o : object) (w : world)
    (r : gzh_bulk_clone_request_t) (w' : world) : Prop :=
  exists w1 w2 w3 w4 w5,
    string_step o "platforms" w (platforms_json r) w1 /\
    string_step o "outputDir" w1 (output_dir r) w2 /\
    scalar_step int32_of o "concurrency" w2 (concurrency r) w3 /\
    string_step o "strategy" w3 (strategy r) w4 /\
    scalar_step flag_of o "includePrivate" w4 (include_private r) w5 /\
    string_step o "filters" w5 (filters_json r) w'.

(** The heap with a block at [p], when [p] is not null, and the condition
    that [p] is not a live block of the heap. *)
Definition put (p : ptr) (c : cell) (h : heap_t) : heap_t :=
  match p with Some a => <[a := c]> h | None => h end.

Definition unused (p : ptr) (h : heap_t) : Prop :=
  match p with Some a => h !! a = None | None => True end.

(** The heap [h] is [h0] with the four strings of request [r] added one
    after the other, each at an address unused until then. *)
Definition holds_request (h0 : heap_t) (r : gzh_bulk_clone_request_t)
    (h : heap_t) : Prop :=
  exists c1 c2 c3 c4,
    let h1 := put (platforms_json r) c1 h0 in
    let h2 := put (output_dir r) c2 h1 in
    let h3 := put (strategy r) c3 h2 in
    h = put (filters_json r) c4 h3 /\
    unused (platforms_json r) h0 /\ unused (output_dir r) h1 /\
    unused (strategy r) h2 /\ unused (filters_json r) h3.

(** Reading a result record through the pointer the engine returned. *)
Definition load_result (s : eng_state E) (p : ptr) : option gzh_result_t :=
  match p with Some a => eng_load E s a | None => None end.

(** The host string made from a C string of the engine. *)
Definition host_string (s : string) : value := VString (utf8_decode (c_str s)).

(** The object [ResultToObject] builds from a result record whose strings
    V8 accepts. *)
Definition result_object (r : gzh_result_t) : value :=
  VObject
    [("success", VBoolean (success r =? 1)%Z);
     ("error", match error_msg r with Some s => host_string s | None => VNull end);
     ("data", match data_json r with Some s => host_string s | None => VNull end)].

(** Whether a host string can be made of each string of a result
    record: none is longer than [INT_MAX] or [kMaxLength] bytes. *)
Definition string_fits (s : option string) : bool :=
  match s with
  | Some s => (strlen s <=? INT_MAX)%N && (strlen s <=? kMaxLength)%N
  | None => true
  end.

Definition fits (r : gzh_result_t) : bool :=
  string_fits (error_msg r) && string_fits (data_json r).

(** The error of the translation of a record that does not fit: that of
    its first string of which no host string is made. *)
Definition string_failure (s : option string) : option string :=
  match s with
  | Some s => create_string_failure (strlen s)
  | None => None
  end.

Definition translation_error (r : gzh_result_t) : js_error :=
  match string_failure (error_msg r), string_failure (data_json r) with
  | Some message, _ => Error message
  | None, Some message => Error message
  | None, None => Error ""
  end.

(** The exception pending after the translation of [r] in a build without
    C++ exceptions: the one that was pending before, or else the failure
    to make a string. *)
Definition pending_after (w : world) (r : gzh_result_t) : option js_error :=
  match pending w with
  | Some e => Some e
  | None => if fits r then None else Some (translation_error r)
  end.

(** The last three statements of every envelope-returning callback, started
    in [w] on the pointer [result]: the pointer cannot be read and the
    behaviour is undefined; or, in a build with C++ exceptions, a string of
    the record is too long, and the exception leaves the callback before
    the release; or the record is translated and released. *)
Definition translated_and_released (w : world) (result : ptr)
    (out : outcome value) (w' : world) : Prop :=
  heap w' = heap w /\
  match load_result (engine w) result with
  | None =>
      out = Undef /\ trace w' = trace w /\ engine w' = engine w /\
      pending w' = pending w
  | Some r =>
      if cpp_exceptions && negb (fits r) then
        out = Thrown (translation_error r) /\ trace w' = trace w /\
        engine w' = engine w /\ pending w' = pending w
      else
        trace w' = (trace w ++ [EvFreeResult result])%list /\
        engine w' = gzh_node_free_result E result (engine w) /\
        pending w' = pending_after w r /\
        exists v, out = Ok v /\
          (pending w = None -> fits r = true -> v = result_object r)
  end.

(** The state in which [BulkClone] starts translating the result: the
    request [r] was converted, which led from [w] to [wc]; the engine was
    called and the strings of the request were freed, which led to [w2]. *)
Definition cloned (clientID : Z) (o : object) (w : world)
    (r : gzh_bulk_clone_request_t) (wc w2 : world) : Prop :=
  let call := gzh_node_bulk_clone E clientID r (heap wc) (engine wc) in
  request_steps o w r wc /\
  heap w2 = heap w /\ pending w2 = pending wc /\ engine w2 = call.2 /\
  trace w2 =
    (trace wc ++ EvBulkClone clientID r (heap wc) call.1
       :: map EvFree (request_pointers r))%list.

(** The timeout [ExecutePlugin] passes on, given the arguments after the
    fourth; [None] when the fifth argument is not a number. *)
Definition timeout_argument (rest : list value) : option Z :=
  match rest with
  | [] => Some 30
  | VNumber m :: _ => Some (to_int32 m)
  | _ :: _ => None
  end.

(** A conversion block of [ObjectToClientConfig]: the conversion proper,
    which leads from [w] to [wm], and the store into the record at
    [config]. *)
Definition stored (config : addr) (c : gzh_client_config_t) (wm w' : world)
  : Prop :=
  heap w' = <[config := CConfig c]> (heap wm) /\ pending w' = pending wm /\
  trace w' = trace wm /\ engine w' = engine wm.

(** [new gzh_client_config_t()] followed by [memset]. *)
Definition allocated (a : addr) (c : cell) (w w' : world) : Prop :=
  heap w !! a = None /\ heap w' = <[a := c]> (heap w) /\
  pending w' = pending w /\ engine w' = engine w /\
  trace w' = (trace w ++ [EvAlloc a c])%list.

(** The six conversion blocks of [ObjectToClientConfig], in source order,
    leading from [w] to [w'] and to the record [cfg] at address [a]. *)
Definition config_steps (o : object) (w : world) (a : addr)
    (cfg : gzh_client_config_t) (w' : world) : Prop :=
  let c1 := set_timeout (timeout cfg) zero_config in
  let c2 := set_retry_count (retry_count cfg) c1 in
  let c3 := set_enable_plugins (enable_plugins cfg) c2 in
  let c4 := set_plugin_dir (plugin_dir cfg) c3 in
  let c5 := set_log_level (log_level cfg) c4 in
  let c6 := set_log_file (log_file cfg) c5 in
  cfg = c6 /\
  exists w0 m1 w1 m2 w2 m3 w3 m4 w4 m5 w5 m6,
    allocated a (CConfig zero_config) w w0 /\
    scalar_step int64_of o "timeout" w0 (timeout cfg) m1 /\
    stored a c1 m1 w1 /\
    scalar_step int32_of o "retryCount" w1 (retry_count cfg) m2 /\
    stored a c2 m2 w2 /\
    scalar_step flag_of o "enablePlugins" w2 (enable_plugins cfg) m3 /\
    stored a c3 m3 w3 /\
    string_step o "pluginDir" w3 (plugin_dir cfg) m4 /\
    stored a c4 m4 w4 /\
    string_step o "logLevel" w4 (log_level cfg) m5 /\
    stored a c5 m5 w5 /\
    string_step o "logFile" w5 (log_file cfg) m6 /\
    stored a c6 m6 w'.

(** The pointers of a configuration record that are not null. *)
Definition config_pointers (c : gzh_client_config_t) : list addr :=
  (option_list (plugin_dir c) ++ option_list (log_level c)
   ++ option_list (log_file c))%list.

(** The heap [h] is [h0] with the record [cfg] at [a] and its three
    strings, each at an address unused until then. *)
Definition holds_config (h0 : heap_t) (a : addr) (cfg : gzh_client_config_t)
    (h : heap_t) : Prop :=
  exists c1 c2 c3,
    let h1 := put (plugin_dir cfg) c1 h0 in
    let h2 := put (log_level cfg) c2 h1 in
    let h3 := put (log_file cfg) c3 h2 in
    h = <[a := CConfig cfg]> h3 /\ h0 !! a = None /\
    unused (plugin_dir cfg) h0 /\ unused (log_level cfg) h1 /\
    unused (log_file cfg) h2 /\
    plugin_dir cfg <> Some a /\ log_level cfg <> Some a /\
    log_file cfg <> Some a.

(** What [CreateClient] hands to the engine: no record when the first
    argument is not an object, and the translated record otherwise. *)
Definition config_translated (info : list value) (w : world)
    (c : option gzh_client_config_t) (wc : world) : Prop :=
  match info_at info 0 with
  | VObject o => exists a cfg, c = Some cfg /\ config_steps o w a cfg wc
  | _ => c = None /\ wc = w
  end.

(** [CreateClient] from the engine call on. *)
Definition client_created (w : world) (c : option gzh_client_config_t)
    (wc : world) (out : outcome value) (w' : world) : Prop :=
  let call := gzh_node_client_create E c (heap wc) (engine wc) in
  heap w' = heap w /\ engine w' = call.2 /\
  (exists fs, trace w' =
     (trace wc ++ EvClientCreate c (heap wc) call.1 :: map EvFree fs)%list) /\
  if (call.1 <? 0)%Z then
    match pending wc with
    | None =>
        out = Ok VNull /\
        pending w' = Some (TypeError "Failed to create client")
    | Some _ => cpp_exceptions = false /\ out = Fatal
    end
  else out = Ok (Number_New call.1) /\ pending w' = pending wc.

(** The discipline of result envelopes over the events [d] of one call
    that ends in [out] with the engine in state [s]: no envelope is
    received and none released; or one envelope is received, it can be read,
    and it is released once at the very end; or one envelope is received
    that cannot be read, and the behaviour is undefined; or, in a build
    with C++ exceptions, one envelope is received of which a string is too
    long, and the exception leaves the call before the release. *)
Definition envelope_protocol (d : list event) (out : outcome value)
    (s : eng_state E) : Prop :=
  (out <> Undef /\ envelopes d = [] /\ releases d = []) \/
  exists d1 c p d2,
    envelope_of c = Some p /\
    envelopes (d1 ++ d2) = [] /\ releases (d1 ++ d2) = [] /\
    (out <> Undef /\ (forall e, out <> Thrown e) /\ p <> None /\
     d = (d1 ++ c :: d2 ++ [EvFreeResult p])%list
     \/
     out = Undef /\ load_result s p = None /\ d = (d1 ++ c :: d2)%list
     \/
     cpp_exceptions = true /\
     (exists r, load_result s p = Some r /\ fits r = false /\
        out = Thrown (translation_error r)) /\
     d = (d1 ++ c :: d2)%list).

Definition initial_world (s : eng_state E) : world :=
  {| pending := None; heap := ∅; trace := []; engine := s |}.

(** How a call of [BulkClone] that passed the argument check ends: a
    conversion throws before the engine is called, or the request is
    converted, the engine called, the strings freed and the result
    translated. *)
Definition bulk_cloned (n : number) (o : object) (w : world)
    (out : outcome value) (w' : world) : Prop :=
  ((exists e, out = Thrown e) /\
   cpp_exceptions = true /\ (exists ps, marshal o w ps w') /\
   (pending w = None -> well_typed_request o = false))
  \/
  exists r wc w2, cloned (to_int32 n) o w r wc w2 /\
    translated_and_released w2
      (gzh_node_bulk_clone E (to_int32 n) r (heap wc) (engine wc)).1
      out w'.

(** How a call that failed the argument check ends: the type error is
    pending and nothing else has changed. *)
Definition rejected (message : string) (w : world) (out : outcome value)
    (w' : world) : Prop :=
  out = Ok VNull /\ pending w' = Some (TypeError message) /\
  heap w' = heap w /\ trace w' = trace w /\ engine w' = engine w.

Fixpoint has_nul (s : string) : bool :=
  match s with
  | EmptyString => false
  | String c r => Ascii.eqb c zero || has_nul r
  end.

(** What the engine finds in the field [p] of a record for the property
    [k] of [o], reading the memory [mem]: for a string property a block
    that was not live in [h0] and holds the bytes of the string before its
    first NUL, all of the string when it has none; for an absent property
    the null pointer. *)
Definition delivered (o : object) (k : string) (p : ptr) (h0 mem : heap_t)
  : Prop :=
  (forall s, get_property o k = Some (VString s) ->
     exists a, p = Some a /\ h0 !! a = None /\
       read_string mem p = Some (c_str s) /\
       (has_nul s = false -> read_string mem p = Some s)) /\
  (get_property o k = None -> p = None).

(** What the engine finds in the field [p] of a record for a property
    [k] of [o] that is present but not a string, reading the memory [mem]:
    the null pointer or the empty string. *)
Definition defaulted (o : object) (k : string) (p : ptr) (mem : heap_t)
  : Prop :=
  field_is IsString o k = false ->
  p = None \/ read_string mem p = Some "".

(** The three ways an envelope-returning callback ends: the arguments are
    rejected, a conversion throws, or the engine is called and its answer
    translated and released. *)
Definition answered (w : world) (out : outcome value) (w' : world) : Prop :=
  (exists message, rejected message w out w') \/
  ((exists e, out = Thrown e) /\ cpp_exceptions = true) \/
  (exists w1 p, translated_and_released w1 p out w').

(** A computation that never calls the engine and never frees: whatever
    its outcome, it leaves the engine as it found it, every block that was
    allocated is still allocated, and it adds only reads and allocations
    to the trace. *)
Definition quiet {A} (m : M A) : Prop :=
  forall w out w', m w = (out, w') ->
    engine w' = engine w /\
    (forall a, heap w' !! a = None -> heap w !! a = None) /\
    exists d, trace w' = (trace w ++ d)%list /\
      engine_calls d = [] /\ frees d = [].

(** The heap [h2] comes after [h1] in a call that builds the record at
    [a]: no address of [h1] has become free, and every string of [h1]
    outside [a] is still there. *)
Definition grown (a : addr) (h1 h2 : heap_t) : Prop :=
  (forall a', h2 !! a' = None -> h1 !! a' = None) /\
  (forall a' s, a' <> a ->
     h1 !! a' = Some (CString s) -> h2 !! a' = Some (CString s)).

(** The property names the two translators look at. *)
Definition request_keys : list string :=
  ["platforms"; "outputDir"; "concurrency"; "strategy"; "includePrivate";
   "filters"].

Definition config_keys : list string :=
  ["timeout"; "retryCount"; "enablePlugins"; "pluginDir"; "logLevel";
   "logFile"].

(** The type errors of the three conversions, as Node-API words them. *)
Definition conversion_error (e : js_error) : Prop :=
  e = TypeError "A string was expected" \/
  e = TypeError "A number was expected" \/
  e = TypeError "A boolean was expected".

(** A computation after which the pending exception, if any, is the one
    that was pending before or one of [P]. *)
Definition raises_only (P : js_error -> Prop) {A} (m : M A) : Prop :=
  forall w out w' e, m w = (out, w') ->
    pending w' = Some e -> pending w = Some e \/ P e.

Lemma wp_ret {A} (a : A) Q w : Q (Ok a) w -> wp (ret a) Q w.
Proof. done. Qed.

Lemma wp_bind {A B} (m : M A) (f : A -> M B) Q w :
  wp m (after f Q) w -> wp (x <- m ;; f x) Q w.
Proof.
  unfold wp, after, bind. destruct (m w) as [[a|e| |] w']; done.
Qed.

Lemma wp_mono {A} (m : M A) (Q Q' : outcome A -> world -> Prop) w :
  wp m Q w -> (forall o w', Q o w' -> Q' o w') -> wp m Q' w.
Proof. unfold wp. auto. Qed.

Lemma wp_run {A} (m : M A) Q w o w' : wp m Q w -> m w = (o, w') -> Q o w'.
Proof. unfold wp. intros H Heq. by rewrite Heq in H. Qed.

Ltac run_block :=
  unfold wp, bind, ret, Has, Get, Utf8Value, Int32Value, Int64Value,
    BooleanValue, strdup, malloc, napi_failed, Error_New,
    ThrowAsJavaScriptException, has_property, bind, ret;
  cbn.

Ltac crush :=
  cbn; try done;
  repeat match goal with
  | |- _ /\ _ => split
  | |- exists _, _ => eexists
  | |- _ = _ => reflexivity || (rewrite <- app_assoc; reflexivity)
  | |- _ !! _ = None => apply not_elem_of_dom, is_fresh
  | |- is_Some _ => eauto
  | |- _ <> _ => congruence
  | |- _ \/ _ => (left; solve [crush]) || (right; solve [crush])
  | |- _ -> _ => intros; cbn in *; try congruence
  | |- _ => eassumption
  | |- _ => progress cbn
  | H : get_property _ _ = _ |- field_is _ _ _ = _ =>
      unfold field_is; rewrite H
  | |- _ => progress unfold conversion_throw, string_step, scalar_step
  end.

Lemma string_block {A} (o : object) (k : string) (f : ptr -> A) (dflt : A) w :
  f None = dflt ->
  wp (b <- Has o k ;;
      if b then
        v <- Get o k ;; s <- Utf8Value v ;; p <- strdup (c_str s) ;; ret (f p)
      else ret dflt)
     (fun out w' =>
        match out with
        | Ok x => exists p, x = f p /\ string_step o k w p w'
        | Thrown _ => conversion_throw IsString o k w w'
        | _ => False
        end) w.
Proof.
  intros <-. destruct w as [pe h t s]. run_block.
  destruct pe as [e|]; cbn.
  - destruct cpp_exceptions eqn:Hm; crush.
  - destruct (get_property o k) as [v|] eqn:Hg; cbn; [|crush].
    destruct v; cbn; try (destruct cpp_exceptions eqn:Hm); crush.
Qed.

Lemma int32_block {A} (o : object) (k : string) (f : Z -> A) (dflt : A) w :
  f 0 = dflt ->
  wp (b <- Has o k ;;
      if b then v <- Get o k ;; n <- Int32Value v ;; ret (f n) else ret dflt)
     (fun out w' =>
        match out with
        | Ok x => exists n, x = f n /\ scalar_step int32_of o k w n w'
        | Thrown _ => conversion_throw IsNumber o k w w'
        | _ => False
        end) w.
Proof.
  intros <-. destruct w as [pe h t s]. run_block.
  destruct pe as [e|]; cbn.
  - destruct cpp_exceptions eqn:Hm; crush.
  - destruct (get_property o k) as [v|] eqn:Hg; cbn; [|crush].
    destruct v; cbn; try (destruct cpp_exceptions eqn:Hm); crush.
Qed.

Lemma flag_block {A} (o : object) (k : string) (f : Z -> A) (dflt : A) w :
  f 0 = dflt ->
  wp (b <- Has o k ;;
      if b then
        v <- Get o k ;; x <- BooleanValue v ;; ret (f (if x then 1 else 0))
      else ret dflt)
     (fun out w' =>
        match out with
        | Ok x => exists n, x = f n /\ scalar_step flag_of o k w n w'
        | Thrown _ => conversion_throw IsBoolean o k w w'
        | _ => False
        end) w.
Proof.
  intros <-. destruct w as [pe h t s]. run_block.
  destruct pe as [e|]; cbn.
  - destruct cpp_exceptions eqn:Hm; crush.
  - destruct (get_property o k) as [v|] eqn:Hg; cbn; [|crush].
    destruct v; cbn; try (destruct cpp_exceptions eqn:Hm); crush.
Qed.

Lemma marshal_refl o w : marshal o w [] w.
Proof. split; [done|]. exists []. by rewrite app_nil_r. Qed.

Lemma marshal_trans o w1 ps w2 qs w3 :
  marshal o w1 ps w2 -> marshal o w2 qs w3 -> marshal o w1 (ps ++ qs) w3.
Proof.
  intros (He1 & d1 & Ht1 & Hc1 & Hf1 & Ha1 & Hr1)
         (He2 & d2 & Ht2 & Hc2 & Hf2 & Ha2 & Hr2).
  split; [congruence|]. exists (d1 ++ d2)%list.
  rewrite Ht2, Ht1, <- app_assoc. split; [done|].
  unfold engine_calls, frees, allocations, reads in *.
  rewrite filter_app, !omap_app, Hc1, Hc2, Hf1, Hf2, Ha1, Ha2.
  repeat split; try done. by apply Forall_app.
Qed.

Lemma string_step_marshal o k w p w' :
  string_step o k w p w' -> marshal o w (option_list p) w'.
Proof.
  intros [He H]. split; [done|]. destruct p as [a|].
  - destruct H as (_ & _ & v & s & Hg & _ & Ht & _).
    eexists. split; [apply Ht|]. cbn. repeat split; try done.
    repeat constructor. by rewrite Hg.
  - destruct H as (_ & Ht & _). exists []. by rewrite app_nil_r.
Qed.

Lemma scalar_step_marshal conv o k w n w' :
  scalar_step conv o k w n w' -> marshal o w [] w'.
Proof.
  intros (He & _ & [(Ht & _)|(_ & Ht & v & Hg & _)]); (split; [done|]).
  - exists []. by rewrite app_nil_r.
  - eexists. split; [apply Ht|]. cbn. repeat split; try done.
    repeat constructor. by rewrite Hg.
Qed.

Lemma conversion_throw_marshal test o k w w' :
  conversion_throw test o k w w' -> marshal o w [] w'.
Proof.
  intros (_ & He & _ & [Ht|[Ht Hg]] & _); (split; [done|]).
  - exists []. by rewrite app_nil_r.
  - eexists. split; [apply Ht|]. cbn. repeat split; try done.
    by repeat constructor.
Qed.

Lemma request_steps_marshal o w r w' :
  request_steps o w r w' -> marshal o w (request_pointers r) w'.
Proof.
  intros (w1 & w2 & w3 & w4 & w5 & H1 & H2 & H3 & H4 & H5 & H6).
  apply string_step_marshal in H1, H2, H4, H6.
  apply scalar_step_marshal in H3, H5.
  pose proof (marshal_trans _ _ _ _ _ _ H1
    (marshal_trans _ _ _ _ _ _ H2
      (marshal_trans _ _ _ _ _ _ H3
        (marshal_trans _ _ _ _ _ _ H4 (marshal_trans _ _ _ _ _ _ H5 H6))))) as H.
  by cbn in H.
Qed.

Lemma string_step_pending o k w p w' :
  string_step o k w p w' ->
  (cpp_exceptions = true -> pending w = None) ->
  cpp_exceptions = true -> pending w' = None.
Proof.
  intros [_ H] Hw Hm. destruct p as [a|].
  - destruct H as (_ & _ & v & s & _ & _ & _ & Hv).
    destruct v; try (destruct Hv as [Hv _]; congruence). by destruct Hv.
  - destruct H as (_ & _ & -> & _). auto.
Qed.

Lemma scalar_step_pending conv o k w n w' :
  scalar_step conv o k w n w' ->
  (cpp_exceptions = true -> pending w = None) ->
  cpp_exceptions = true -> pending w' = None.
Proof.
  intros (_ & _ & [(_ & -> & _)|(_ & _ & v & _ & Hv)]) Hw Hm; [auto|].
  destruct (conv v); destruct Hv as [Hv Hv']; [by destruct Hv'|congruence].
Qed.

Lemma request_steps_pending o w r w' :
  request_steps o w r w' ->
  (cpp_exceptions = true -> pending w = None) ->
  cpp_exceptions = true -> pending w' = None.
Proof.
  intros (w1 & w2 & w3 & w4 & w5 & H1 & H2 & H3 & H4 & H5 & H6) Hw.
  eapply string_step_pending; [apply H6|].
  eapply scalar_step_pending; [apply H5|].
  eapply string_step_pending; [apply H4|].
  eapply scalar_step_pending; [apply H3|].
  eapply string_step_pending; [apply H2|].
  eapply string_step_pending; [apply H1|]. done.
Qed.

Lemma ill_typed_request o test k :
  field_is test o k = false ->
  In (test, k)
    [(IsString, "platforms"); (IsString, "outputDir");
     (IsNumber, "concurrency"); (IsString, "strategy");
     (IsBoolean, "includePrivate"); (IsString, "filters")] ->
  well_typed_request o = false.
Proof.
  intros H Hin. unfold well_typed_request. cbn in Hin.
  repeat (destruct Hin as [[= <- <-]|Hin];
          [rewrite H; by rewrite ?andb_false_r|]).
  done.
Qed.

Lemma ill_typed_config o test k :
  field_is test o k = false ->
  In (test, k)
    [(IsNumber, "timeout"); (IsNumber, "retryCount");
     (IsBoolean, "enablePlugins"); (IsString, "pluginDir");
     (IsString, "logLevel"); (IsString, "logFile")] ->
  well_typed_config o = false.
Proof.
  intros H Hin. unfold well_typed_config. cbn in Hin.
  repeat (destruct Hin as [[= <- <-]|Hin];
          [rewrite H; by rewrite ?andb_false_r|]).
  done.
Qed.

(** A block threw: the call so far only marshalled, and the object is
    ill-typed unless an exception was pending from the start. *)
Ltac thrown_here ill Hm Hp :=
  match goal with
  | Ht : conversion_throw _ _ _ _ _ |- _ =>
      split; [apply Ht|]; split;
      [ eexists; eapply marshal_trans; [apply Hm|];
        eapply conversion_throw_marshal, Ht
      | let H0 := fresh in
        intros H0; destruct Ht as (Hmode & _ & _ & _ & Hill);
        eapply ill; [apply Hill, Hp; [exact Hmode|exact H0]|];
        cbn; tauto ]
  end.

Lemma convert_request_spec (o : object) w :
  wp (convert_request o)
     (fun out w' =>
        match out with
        | Ok r => request_steps o w r w'
        | Thrown _ =>
            cpp_exceptions = true /\ (exists ps, marshal o w ps w') /\
            (pending w = None -> well_typed_request o = false)
        | _ => False
        end) w.
Proof.
  unfold convert_request. apply wp_bind, wp_ret; cbn [after].
  pose proof (marshal_refl o w) as Hm0.
  assert (cpp_exceptions = true -> pending w = None -> pending w = None)
    as Hp0 by done.
  apply wp_bind; eapply wp_mono; [by apply string_block|].
  intros [x|?| |] w1; cbn [after]; [intros (p1 & -> & H1)|intros Ht|done..];
    [|thrown_here ill_typed_request Hm0 Hp0].
  pose proof (marshal_trans _ _ _ _ _ _ Hm0 (string_step_marshal _ _ _ _ _ H1)) as Hm1.
  pose proof (fun m q => string_step_pending _ _ _ _ _ H1 (fun m' => Hp0 m' q) m) as Hp1.
  apply wp_bind; eapply wp_mono; [by apply string_block|].
  intros [x|?| |] w2; cbn [after]; [intros (p2 & -> & H2)|intros Ht|done..];
    [|thrown_here ill_typed_request Hm1 Hp1].
  pose proof (marshal_trans _ _ _ _ _ _ Hm1 (string_step_marshal _ _ _ _ _ H2)) as Hm2.
  pose proof (fun m q => string_step_pending _ _ _ _ _ H2 (fun m' => Hp1 m' q) m) as Hp2.
  apply wp_bind; eapply wp_mono; [by apply int32_block|].
  intros [x|?| |] w3; cbn [after]; [intros (n & -> & H3)|intros Ht|done..];
    [|thrown_here ill_typed_request Hm2 Hp2].
  pose proof (marshal_trans _ _ _ _ _ _ Hm2 (scalar_step_marshal _ _ _ _ _ _ H3)) as Hm3.
  pose proof (fun m q => scalar_step_pending _ _ _ _ _ _ H3 (fun m' => Hp2 m' q) m) as Hp3.
  apply wp_bind; eapply wp_mono; [by apply string_block|].
  intros [x|?| |] w4; cbn [after]; [intros (p3 & -> & H4)|intros Ht|done..];
    [|thrown_here ill_typed_request Hm3 Hp3].
  pose proof (marshal_trans _ _ _ _ _ _ Hm3 (string_step_marshal _ _ _ _ _ H4)) as Hm4.
  pose proof (fun m q => string_step_pending _ _ _ _ _ H4 (fun m' => Hp3 m' q) m) as Hp4.
  apply wp_bind; eapply wp_mono;
    [by apply (flag_block _ _ (fun n => set_include_private n _))|].
  intros [x|?| |] w5; cbn [after]; [intros (b & -> & H5)|intros Ht|done..];
    [|thrown_here ill_typed_request Hm4 Hp4].
  pose proof (marshal_trans _ _ _ _ _ _ Hm4 (scalar_step_marshal _ _ _ _ _ _ H5)) as Hm5.
  pose proof (fun m q => scalar_step_pending _ _ _ _ _ _ H5 (fun m' => Hp4 m' q) m) as Hp5.
  apply wp_bind; eapply wp_mono; [by apply string_block|].
  intros [x|?| |] w6; cbn [after]; [intros (p4 & -> & H6)|intros Ht|done..];
    [|thrown_here ill_typed_request Hm5 Hp5].
  apply wp_ret. by exists w1, w2, w3, w4, w5.
Qed.

Lemma string_step_heap o k w p w' :
  string_step o k w p w' ->
  unused p (heap w) /\ exists c, heap w' = put p c (heap w).
Proof.
  intros [_ H]. destruct p as [a|]; cbn.
  - destruct H as (_ & Hf & v & s & _ & Hh & _). eauto.
  - destruct H as (Hh & _). split; [done|]. by exists (CString "").
Qed.

Lemma request_steps_heap o w r w' :
  request_steps o w r w' -> holds_request (heap w) r (heap w').
Proof.
  intros (w1 & w2 & w3 & w4 & w5 & H1 & H2 & H3 & H4 & H5 & H6).
  apply string_step_heap in H1 as (U1 & c1 & E1).
  apply string_step_heap in H2 as (U2 & c2 & E2).
  apply string_step_heap in H4 as (U3 & c3 & E3).
  apply string_step_heap in H6 as (U4 & c4 & E4).
  destruct H3 as (_ & E5 & _), H5 as (_ & E6 & _).
  exists c1, c2, c3, c4. cbn.
  rewrite E1 in U2. rewrite E5, E2, E1 in U3.
  rewrite E6, E3, E5, E2, E1 in U4. by rewrite E4, E6, E3, E5, E2, E1.
Qed.

Ltac heap_norm :=
  repeat (progress (repeat first
    [ rewrite lookup_insert_eq
    | rewrite lookup_insert_ne by congruence
    | rewrite delete_insert_id by assumption
    | rewrite delete_insert_ne by congruence ]; cbn)).

Lemma free_request_spec r h0 w :
  holds_request h0 r (heap w) ->
  exists w', free_request r w = (Ok tt, w') /\
    heap w' = h0 /\ pending w' = pending w /\ engine w' = engine w /\
    trace w' = (trace w ++ map EvFree (request_pointers r))%list.
Proof.
  intros (c1 & c2 & c3 & c4 & Hh & U1 & U2 & U3 & U4).
  destruct w as [pe h t s]. cbn in Hh. subst h.
  destruct r as [[a1|] [a2|] n [a3|] x [a4|]]; cbn in *;
    rewrite ?lookup_insert_None in *; destruct_and?;
    unfold free_request, free_if_set, free, bind, ret; cbn;
    heap_norm; (eexists; split; [reflexivity|]); cbn;
    rewrite <- ?app_assoc, ?app_nil_r; done.
Qed.

Ltac split_on_length :=
  repeat match goal with
  | |- context [(strlen ?x <=? ?n)%N] => destruct (strlen x <=? n)%N; cbn
  end.

Lemma ResultToObject_run a r w :
  eng_load E (engine w) a = Some r -> pending w = None -> fits r = true ->
  ResultToObject (Some a) w = (Ok (result_object r), w).
Proof.
  intros Hl Hp Hf. destruct w as [pe h t s]. cbn in *. subst pe.
  apply andb_prop in Hf as [F1 F2].
  unfold ResultToObject, deref_result, Set_, String_New,
    create_string_failure, result_object, host_string, bind, ret.
  cbn. rewrite Hl. cbn.
  destruct (error_msg r), (data_json r); cbn in *; split_on_length;
    cbn in *; done.
Qed.

Lemma translate_and_release result w :
  (cpp_exceptions = true -> pending w = None) ->
  wp (resultObj <- ResultToObject result ;;
      call_free_result result ;; ret resultObj)
     (translated_and_released w result) w.
Proof.
  intros Hm. destruct w as [pe h t s].
  unfold translated_and_released, result_object, host_string, pending_after,
    translation_error, string_failure, fits, string_fits.
  unfold wp, ResultToObject, deref_result, call_free_result, Set_, String_New,
    create_string_failure, napi_failed_plain, napi_failed, Error_New,
    ThrowAsJavaScriptException, bind, ret; cbn.
  destruct result as [a|]; cbn; [|done].
  destruct (eng_load E s a) as [r|] eqn:Hl; cbn; [|done].
  destruct pe as [e|]; cbn.
  - destruct cpp_exceptions; [by specialize (Hm eq_refl)|].
    cbn. destruct (error_msg r), (data_json r); cbn; split_on_length; crush.
  - destruct cpp_exceptions; cbn;
      destruct (error_msg r), (data_json r); cbn; split_on_length; crush.
Qed.

Lemma wp_eq {A} (m : M A) (Q : outcome A -> world -> Prop) w o w' :
  m w = (o, w') -> Q o w' -> wp m Q w.
Proof. unfold wp. by intros ->. Qed.

Lemma BulkClone_valid n o rest w :
  (cpp_exceptions = true -> pending w = None) ->
  wp (BulkClone (VNumber n :: VObject o :: rest)) (bulk_cloned n o w) w.
Proof.
  intros Hw. unfold BulkClone. cbn [length Nat.ltb Nat.leb orb negb IsNumber
    IsObject info_at nth As_Object Int32Value].
  apply wp_bind, wp_ret; cbn [after].
  apply wp_bind; eapply wp_mono; [apply convert_request_spec|].
  intros [r|e| |] wc; cbn [after];
    [intros Hr|intros H; left; split; [by exists e|done]|done..].
  apply wp_bind. unfold wp at 1, call_bulk_clone.
  destruct (gzh_node_bulk_clone E (to_int32 n) r (heap wc) (engine wc))
    as [ret s1] eqn:Hcall. cbn [fst snd after].
  destruct (free_request_spec r (heap w)
              (log (EvBulkClone (to_int32 n) r (heap wc) ret)
                 (with_engine s1 wc)))
    as (w2 & Hfree & Hh & Hp & He & Ht);
    [apply (request_steps_heap _ _ _ _ Hr)|].
  apply wp_bind. eapply wp_eq; [apply Hfree|]. cbn [after].
  eapply wp_mono;
    [apply translate_and_release; rewrite Hp;
     apply (request_steps_pending _ _ _ _ Hr Hw)|].
  intros out w' H. right.
  exists r, wc, w2. rewrite Hcall. split; [|done].
  unfold cloned. rewrite Hcall. cbn in *.
  by rewrite <- app_assoc in Ht.
Qed.

Lemma store_here a f c pe h t s :
  h !! a = Some (CConfig c) ->
  store_config a f {| pending := pe; heap := h; trace := t; engine := s |} =
  (Ok tt, {| pending := pe; heap := <[a := CConfig (f c)]> h; trace := t;
             engine := s |}).
Proof. intros H. unfold store_config, load_config, bind. cbn. by rewrite H. Qed.

Lemma fresh_other (h : heap_t) a (c : cell) :
  h !! a = Some c -> fresh (dom h) <> a.
Proof.
  intros H Heq. apply (is_fresh (dom h)). rewrite Heq. by apply elem_of_dom.
Qed.

Ltac store_now Hc :=
  first
  [ rewrite (store_here _ _ _ _ _ _ _ Hc)
  | erewrite store_here
      by (rewrite lookup_insert_ne by (eapply fresh_other, Hc); apply Hc) ].

Ltac stored_nothing Hc :=
  unfold stored; cbn; rewrite insert_id by (rewrite Hc; congruence).

Lemma config_string_block (o : object) (k : string) (config : addr)
    (set : ptr -> gzh_client_config_t -> gzh_client_config_t) c w :
  heap w !! config = Some (CConfig c) -> set None c = c ->
  wp (b <- Has o k ;;
      if b then
        v <- Get o k ;; s <- Utf8Value v ;; p <- strdup (c_str s) ;;
        store_config config (set p)
      else ret tt)
     (fun out w' =>
        match out with
        | Ok _ => exists p wm,
            string_step o k w p wm /\ stored config (set p c) wm w'
        | Thrown _ => conversion_throw IsString o k w w'
        | _ => False
        end) w.
Proof.
  intros Hc Hset. destruct w as [pe h t s]. cbn in Hc. run_block.
  destruct pe as [e|]; cbn.
  - destruct cpp_exceptions eqn:Hm; [crush|].
    cbn. exists None. eexists. split; [crush|].
    rewrite Hset. stored_nothing Hc. crush.
  - destruct (get_property o k) as [v|] eqn:Hg; cbn.
    2: { exists None. eexists. split; [crush|].
         rewrite Hset. stored_nothing Hc. crush. }
    destruct v; cbn; try (destruct cpp_exceptions eqn:Hm); cbn;
      try (unfold log, with_heap, with_pending; cbn; store_now Hc; cbn);
      try (match goal with
           | |- context [ {| pending := ?pe; heap := <[config := _]> ?hm;
                             trace := ?tm; engine := ?sm |} ] =>
               exists (Some (fresh (dom h))),
                 {| pending := pe; heap := hm; trace := tm; engine := sm |}
           end; unfold stored);
      crush.
Qed.

Lemma config_int64_block (o : object) (k : string) (config : addr)
    (set : Z -> gzh_client_config_t -> gzh_client_config_t) c w :
  heap w !! config = Some (CConfig c) -> set 0 c = c ->
  wp (b <- Has o k ;;
      if b then
        v <- Get o k ;; n <- Int64Value v ;; store_config config (set n)
      else ret tt)
     (fun out w' =>
        match out with
        | Ok _ => exists n wm,
            scalar_step int64_of o k w n wm /\ stored config (set n c) wm w'
        | Thrown _ => conversion_throw IsNumber o k w w'
        | _ => False
        end) w.
Proof.
  intros Hc Hset. destruct w as [pe h t s]. cbn in Hc. run_block.
  destruct pe as [e|]; cbn.
  - destruct cpp_exceptions eqn:Hm; [crush|].
    cbn. exists 0. eexists. split; [crush|].
    rewrite Hset. stored_nothing Hc. crush.
  - destruct (get_property o k) as [v|] eqn:Hg; cbn.
    2: { exists 0. eexists. split; [crush|].
         rewrite Hset. stored_nothing Hc. crush. }
    destruct v; cbn; try (destruct cpp_exceptions eqn:Hm); cbn;
      try (unfold log, with_heap, with_pending; cbn; store_now Hc; cbn);
      try (match goal with
           | |- context [ {| pending := ?pe; heap := <[config := CConfig (set ?n c)]> ?hm;
                             trace := ?tm; engine := ?sm |} ] =>
               exists n,
                 {| pending := pe; heap := hm; trace := tm; engine := sm |}
           end; unfold stored);
      crush.
Qed.

Lemma config_int32_block (o : object) (k : string) (config : addr)
    (set : Z -> gzh_client_config_t -> gzh_client_config_t) c w :
  heap w !! config = Some (CConfig c) -> set 0 c = c ->
  wp (b <- Has o k ;;
      if b then
        v <- Get o k ;; n <- Int32Value v ;; store_config config (set n)
      else ret tt)
     (fun out w' =>
        match out with
        | Ok _ => exists n wm,
            scalar_step int32_of o k w n wm /\ stored config (set n c) wm w'
        | Thrown _ => conversion_throw IsNumber o k w w'
        | _ => False
        end) w.
Proof.
  intros Hc Hset. destruct w as [pe h t s]. cbn in Hc. run_block.
  destruct pe as [e|]; cbn.
  - destruct cpp_exceptions eqn:Hm; [crush|].
    cbn. exists 0. eexists. split; [crush|].
    rewrite Hset. stored_nothing Hc. crush.
  - destruct (get_property o k) as [v|] eqn:Hg; cbn.
    2: { exists 0. eexists. split; [crush|].
         rewrite Hset. stored_nothing Hc. crush. }
    destruct v; cbn; try (destruct cpp_exceptions eqn:Hm); cbn;
      try (unfold log, with_heap, with_pending; cbn; store_now Hc; cbn);
      try (match goal with
           | |- context [ {| pending := ?pe; heap := <[config := CConfig (set ?n c)]> ?hm;
                             trace := ?tm; engine := ?sm |} ] =>
               exists n,
                 {| pending := pe; heap := hm; trace := tm; engine := sm |}
           end; unfold stored);
      crush.
Qed.

Lemma config_flag_block (o : object) (k : string) (config : addr)
    (set : Z -> gzh_client_config_t -> gzh_client_config_t) c w :
  heap w !! config = Some (CConfig c) -> set 0 c = c ->
  wp (b <- Has o k ;;
      if b then
        v <- Get o k ;; x <- BooleanValue v ;;
        store_config config (set (if x then 1 else 0))
      else ret tt)
     (fun out w' =>
        match out with
        | Ok _ => exists n wm,
            scalar_step flag_of o k w n wm /\ stored config (set n c) wm w'
        | Thrown _ => conversion_throw IsBoolean o k w w'
        | _ => False
        end) w.
Proof.
  intros Hc Hset. destruct w as [pe h t s]. cbn in Hc. run_block.
  destruct pe as [e|]; cbn.
  - destruct cpp_exceptions eqn:Hm; [crush|].
    cbn. exists 0. eexists. split; [crush|].
    rewrite Hset. stored_nothing Hc. crush.
  - destruct (get_property o k) as [v|] eqn:Hg; cbn.
    2: { exists 0. eexists. split; [crush|].
         rewrite Hset. stored_nothing Hc. crush. }
    destruct v; cbn; try (destruct cpp_exceptions eqn:Hm); cbn;
      try (unfold log, with_heap, with_pending; cbn; store_now Hc; cbn);
      try (match goal with
           | |- context [ {| pending := ?pe; heap := <[config := CConfig (set ?n c)]> ?hm;
                             trace := ?tm; engine := ?sm |} ] =>
               exists n,
                 {| pending := pe; heap := hm; trace := tm; engine := sm |}
           end; unfold stored);
      crush.
Qed.

Lemma malloc_spec c w :
  wp (malloc c)
     (fun out w' => exists a, out = Ok a /\ allocated a c w w') w.
Proof.
  unfold wp, malloc, allocated. cbn. eexists. split; [done|].
  repeat split; try done. apply not_elem_of_dom, is_fresh.
Qed.

Lemma allocated_marshal o a c w w' :
  allocated a c w w' -> marshal o w [a] w'.
Proof.
  intros (_ & _ & _ & He & Ht). split; [done|].
  eexists. split; [apply Ht|]. cbn. repeat split; try done.
Qed.

Lemma stored_marshal o a c wm w' : stored a c wm w' -> marshal o wm [] w'.
Proof.
  intros (_ & _ & Ht & He). split; [done|]. exists [].
  by rewrite app_nil_r.
Qed.

Lemma stored_lookup a c wm w' :
  stored a c wm w' -> heap w' !! a = Some (CConfig c).
Proof. intros (-> & _). apply lookup_insert_eq. Qed.

Lemma stored_pending a c wm w' : stored a c wm w' -> pending w' = pending wm.
Proof. by intros (_ & -> & _). Qed.

Ltac config_block lem Hm Hp Hl n wm wi Hs Hst :=
  apply wp_bind; eapply wp_mono; [apply lem; [apply Hl|reflexivity]|];
  intros [?|?| |] wi; cbn [after];
    [intros (n & wm & Hs & Hst)|intros Ht|done..];
    [|thrown_here ill_typed_config Hm Hp].

Lemma ObjectToClientConfig_spec (o : object) w :
  wp (ObjectToClientConfig o)
     (fun out w' =>
        match out with
        | Ok a => exists cfg, config_steps o w a cfg w'
        | Thrown _ =>
            cpp_exceptions = true /\ (exists ps, marshal o w ps w') /\
            (pending w = None -> well_typed_config o = false)
        | _ => False
        end) w.
Proof.
  unfold ObjectToClientConfig.
  apply wp_bind; eapply wp_mono; [apply malloc_spec|].
  intros out w0 (a & -> & Ha); cbn [after].
  pose proof (allocated_marshal o _ _ _ _ Ha) as Hm0.
  assert (cpp_exceptions = true -> pending w = None -> pending w0 = None)
    as Hp0.
  { destruct Ha as (_ & _ & -> & _). done. }
  assert (heap w0 !! a = Some (CConfig zero_config)) as Hl0.
  { destruct Ha as (_ & -> & _). apply lookup_insert_eq. }
  config_block config_int64_block Hm0 Hp0 Hl0 x1 m1 w1 S1 T1.
  pose proof (marshal_trans _ _ _ _ _ _ Hm0
    (marshal_trans _ _ _ _ _ _ (scalar_step_marshal _ _ _ _ _ _ S1)
       (stored_marshal o _ _ _ _ T1))) as Hm1.
  pose proof (fun m q => eq_trans (stored_pending _ _ _ _ T1)
    (scalar_step_pending _ _ _ _ _ _ S1 (fun m' => Hp0 m' q) m)) as Hp1.
  pose proof (stored_lookup _ _ _ _ T1) as Hl1.
  config_block config_int32_block Hm1 Hp1 Hl1 x2 m2 w2 S2 T2.
  pose proof (marshal_trans _ _ _ _ _ _ Hm1
    (marshal_trans _ _ _ _ _ _ (scalar_step_marshal _ _ _ _ _ _ S2)
       (stored_marshal o _ _ _ _ T2))) as Hm2.
  pose proof (fun m q => eq_trans (stored_pending _ _ _ _ T2)
    (scalar_step_pending _ _ _ _ _ _ S2 (fun m' => Hp1 m' q) m)) as Hp2.
  pose proof (stored_lookup _ _ _ _ T2) as Hl2.
  config_block config_flag_block Hm2 Hp2 Hl2 x3 m3 w3 S3 T3.
  pose proof (marshal_trans _ _ _ _ _ _ Hm2
    (marshal_trans _ _ _ _ _ _ (scalar_step_marshal _ _ _ _ _ _ S3)
       (stored_marshal o _ _ _ _ T3))) as Hm3.
  pose proof (fun m q => eq_trans (stored_pending _ _ _ _ T3)
    (scalar_step_pending _ _ _ _ _ _ S3 (fun m' => Hp2 m' q) m)) as Hp3.
  pose proof (stored_lookup _ _ _ _ T3) as Hl3.
  config_block config_string_block Hm3 Hp3 Hl3 p1 m4 w4 S4 T4.
  pose proof (marshal_trans _ _ _ _ _ _ Hm3
    (marshal_trans _ _ _ _ _ _ (string_step_marshal _ _ _ _ _ S4)
       (stored_marshal o _ _ _ _ T4))) as Hm4.
  pose proof (fun m q => eq_trans (stored_pending _ _ _ _ T4)
    (string_step_pending _ _ _ _ _ S4 (fun m' => Hp3 m' q) m)) as Hp4.
  pose proof (stored_lookup _ _ _ _ T4) as Hl4.
  config_block config_string_block Hm4 Hp4 Hl4 p2 m5 w5 S5 T5.
  pose proof (marshal_trans _ _ _ _ _ _ Hm4
    (marshal_trans _ _ _ _ _ _ (string_step_marshal _ _ _ _ _ S5)
       (stored_marshal o _ _ _ _ T5))) as Hm5.
  pose proof (fun m q => eq_trans (stored_pending _ _ _ _ T5)
    (string_step_pending _ _ _ _ _ S5 (fun m' => Hp4 m' q) m)) as Hp5.
  pose proof (stored_lookup _ _ _ _ T5) as Hl5.
  config_block config_string_block Hm5 Hp5 Hl5 p3 m6 w6 S6 T6.
  apply wp_ret.
  exists {| timeout := x1; retry_count := x2; enable_plugins := x3;
            plugin_dir := p1; log_level := p2; log_file := p3 |}.
  split; [reflexivity|].
  by exists w0, m1, w1, m2, w2, m3, w3, m4, w4, m5, w5, m6.
Qed.

Lemma scalar_stored_heap a c c' hs conv o k w n wm w' :
  heap w = <[a := CConfig c]> hs ->
  scalar_step conv o k w n wm -> stored a c' wm w' ->
  heap w' = <[a := CConfig c']> hs.
Proof.
  intros Hh (_ & Hm & _) (-> & _). by rewrite Hm, Hh, insert_insert_eq.
Qed.

Lemma string_stored_heap a c c' hs o k w p wm w' :
  heap w = <[a := CConfig c]> hs -> hs !! a = None ->
  string_step o k w p wm -> stored a c' wm w' ->
  exists s, heap w' = <[a := CConfig c']> (put p s hs) /\
    put p s hs !! a = None /\ unused p hs /\ p <> Some a.
Proof.
  intros Hh Ha Hs (-> & _). apply string_step_heap in Hs as (Hu & s & ->).
  exists s. rewrite Hh in *. destruct p as [a'|]; cbn in *.
  - apply lookup_insert_None in Hu as [Hu Hne].
    rewrite insert_insert_ne, insert_insert_eq by done.
    rewrite lookup_insert_ne by done.
    repeat split; try done; [apply insert_insert_ne|]; congruence.
  - by rewrite insert_insert_eq.
Qed.

Lemma config_steps_heap o w a cfg w' :
  config_steps o w a cfg w' -> holds_config (heap w) a cfg (heap w').
Proof.
  intros (Hcfg & w0 & m1 & w1 & m2 & w2 & m3 & w3 & m4 & w4 & m5 & w5 & m6
          & Ha & S1 & T1 & S2 & T2 & S3 & T3 & S4 & T4 & S5 & T5 & S6 & T6).
  destruct Ha as (Hfresh & H0 & _).
  pose proof (scalar_stored_heap _ _ _ _ _ _ _ _ _ _ _ H0 S1 T1) as H1.
  pose proof (scalar_stored_heap _ _ _ _ _ _ _ _ _ _ _ H1 S2 T2) as H2.
  pose proof (scalar_stored_heap _ _ _ _ _ _ _ _ _ _ _ H2 S3 T3) as H3.
  destruct (string_stored_heap _ _ _ _ _ _ _ _ _ _ H3 Hfresh S4 T4)
    as (s1 & H4 & F4 & U4 & N4).
  destruct (string_stored_heap _ _ _ _ _ _ _ _ _ _ H4 F4 S5 T5)
    as (s2 & H5 & F5 & U5 & N5).
  destruct (string_stored_heap _ _ _ _ _ _ _ _ _ _ H5 F5 S6 T6)
    as (s3 & H6 & F6 & U6 & N6).
  exists s1, s2, s3. cbn. rewrite H6, <- Hcfg. done.
Qed.

Lemma FreeClientConfig_spec a cfg h0 w :
  holds_config h0 a cfg (heap w) ->
  exists w', FreeClientConfig (Some a) w = (Ok tt, w') /\
    heap w' = h0 /\ pending w' = pending w /\ engine w' = engine w /\
    trace w' = (trace w ++ map EvFree (config_pointers cfg ++ [a]))%list.
Proof.
  intros (c1 & c2 & c3 & Hh & Ha & U1 & U2 & U3 & N1 & N2 & N3).
  destruct w as [pe h t s]. cbn in Hh. subst h.
  destruct cfg as [x1 x2 x3 [a1|] [a2|] [a3|]]; cbn in *;
    rewrite ?lookup_insert_None in *; destruct_and?;
    unfold FreeClientConfig, load_config, free_if_set, free, bind, ret; cbn;
    heap_norm; (eexists; split; [reflexivity|]); cbn;
    rewrite <- ?app_assoc, ?app_nil_r; done.
Qed.

Lemma config_steps_pending o w a cfg w' :
  config_steps o w a cfg w' ->
  (cpp_exceptions = true -> pending w = None) ->
  cpp_exceptions = true -> pending w' = None.
Proof.
  intros (_ & w0 & m1 & w1 & m2 & w2 & m3 & w3 & m4 & w4 & m5 & w5 & m6
          & Ha & S1 & T1 & S2 & T2 & S3 & T3 & S4 & T4 & S5 & T5 & S6 & T6) Hw.
  destruct Ha as (_ & _ & Hp0 & _).
  apply stored_pending in T1, T2, T3, T4, T5, T6.
  rewrite T6. eapply string_step_pending; [apply S6|]. rewrite T5.
  eapply string_step_pending; [apply S5|]. rewrite T4.
  eapply string_step_pending; [apply S4|]. rewrite T3.
  eapply scalar_step_pending; [apply S3|]. rewrite T2.
  eapply scalar_step_pending; [apply S2|]. rewrite T1.
  eapply scalar_step_pending; [apply S1|]. by rewrite Hp0.
Qed.

Lemma throw_or_handle r w :
  (cpp_exceptions = true -> pending w = None) ->
  wp (if (r <? 0)%Z then
        ThrowAsJavaScriptException (TypeError_New "Failed to create client") ;;
        ret VNull
      else ret (Number_New r))
     (fun out w' =>
        heap w' = heap w /\ engine w' = engine w /\ trace w' = trace w /\
        if (r <? 0)%Z then
          match pending w with
          | None =>
              out = Ok VNull /\
              pending w' = Some (TypeError "Failed to create client")
          | Some _ => cpp_exceptions = false /\ out = Fatal
          end
        else out = Ok (Number_New r) /\ pending w' = pending w) w.
Proof.
  intros Hw. destruct w as [pe h t s]. cbn in Hw.
  unfold wp, ThrowAsJavaScriptException, bind, ret.
  destruct (r <? 0)%Z; cbn; [|done].
  destruct pe as [e|]; cbn; [|done].
  destruct cpp_exceptions; [by specialize (Hw eq_refl)|done].
Qed.

Lemma CreateClient_spec info w :
  (cpp_exceptions = true -> pending w = None) ->
  wp (CreateClient info)
     (fun out w' =>
        (exists o ps e, info_at info 0 = VObject o /\ out = Thrown e /\
           cpp_exceptions = true /\ marshal o w ps w' /\
           (pending w = None -> well_typed_config o = false))
        \/ exists c wc,
             config_translated info w c wc /\ client_created w c wc out w') w.
Proof.
  intros Hw. unfold CreateClient.
  assert (((0 <? length info)%nat && IsObject (info_at info 0))
          = IsObject (info_at info 0)) as -> by by destruct info.
  destruct (info_at info 0) as [| | | | | | |o] eqn:Hi; cbn [IsObject As_Object];
    try (apply wp_bind, wp_ret; cbn [after];
         apply wp_bind; unfold wp at 1, call_client_create;
         destruct (gzh_node_client_create E None (heap w) (engine w))
           as [r s1] eqn:Hcall; cbn [fst snd after];
         apply wp_bind, wp_ret; cbn [after];
         eapply wp_mono; [by apply throw_or_handle|];
         intros out w' (Hh & He & Ht & H); right; exists None, w;
         unfold config_translated, client_created; rewrite Hi, Hcall;
         cbn in *; repeat split; try done; exists []; by rewrite Ht).
  apply wp_bind, wp_bind. eapply wp_mono; [apply ObjectToClientConfig_spec|].
  intros [a|e| |] wc; cbn [after]; [intros [cfg Hsteps]|intros (Hm & [ps Hps] & Hill)|done..].
  2: { left. by exists o, ps, e. }
  apply wp_ret; cbn [after].
  pose proof (config_steps_heap _ _ _ _ _ Hsteps) as Hheap.
  assert (heap wc !! a = Some (CConfig cfg)) as Hl.
  { destruct Hheap as (c1 & c2 & c3 & -> & _). apply lookup_insert_eq. }
  apply wp_bind; unfold wp at 1, call_client_create. rewrite Hl.
  destruct (gzh_node_client_create E (Some cfg) (heap wc) (engine wc))
    as [r s1] eqn:Hcall; cbn [fst snd after].
  destruct (FreeClientConfig_spec a cfg (heap w)
              (log (EvClientCreate (Some cfg) (heap wc) r) (with_engine s1 wc)))
    as (w2 & Hfree & Hh2 & Hp2 & He2 & Ht2); [done|].
  apply wp_bind. eapply wp_eq; [apply Hfree|]. cbn [after].
  eapply wp_mono.
  { apply throw_or_handle. rewrite Hp2.
    apply (config_steps_pending _ _ _ _ _ Hsteps Hw). }
  intros out w' (Hh & He & Ht & H). right. exists (Some cfg), wc.
  split.
  { unfold config_translated. rewrite Hi. by exists a, cfg. }
  unfold client_created. rewrite Hcall. cbn in *.
  rewrite Hh, He, Ht, Hh2, He2, Ht2. rewrite Hp2 in H.
  repeat split; try done. eexists. by rewrite <- app_assoc.
Qed.

Lemma reject msg (v : value) w :
  wp (ThrowAsJavaScriptException (TypeError_New msg) ;; ret v)
     (fun out w' =>
        out <> Undef /\ heap w' = heap w /\ trace w' = trace w /\
        engine w' = engine w /\
        (pending w = None ->
         out = Ok v /\ pending w' = Some (TypeError msg))) w.
Proof.
  destruct w as [pe h t s].
  unfold wp, ThrowAsJavaScriptException, bind, ret; cbn.
  destruct pe; [destruct cpp_exceptions|]; cbn; repeat split; done.
Qed.

Lemma ListPlugins_valid n rest w :
  (cpp_exceptions = true -> pending w = None) ->
  wp (ListPlugins (VNumber n :: rest))
     (fun out w' =>
        let call := gzh_node_list_plugins E (to_int32 n) (engine w) in
        translated_and_released
          (log (EvListPlugins (to_int32 n) call.1) (with_engine call.2 w))
          call.1 out w') w.
Proof.
  intros Hw. unfold ListPlugins. cbn [length Nat.ltb Nat.leb orb negb IsNumber
    info_at nth Int32Value].
  apply wp_bind, wp_ret; cbn [after].
  apply wp_bind. unfold wp at 1, call_list_plugins.
  destruct (gzh_node_list_plugins E (to_int32 n) (engine w)) as [r s1].
  cbn [fst snd after]. by apply translate_and_release.
Qed.

Lemma Health_valid n rest w :
  (cpp_exceptions = true -> pending w = None) ->
  wp (Health (VNumber n :: rest))
     (fun out w' =>
        let call := gzh_node_health E (to_int32 n) (engine w) in
        translated_and_released
          (log (EvHealth (to_int32 n) call.1) (with_engine call.2 w))
          call.1 out w') w.
Proof.
  intros Hw. unfold Health. cbn [length Nat.ltb Nat.leb orb negb IsNumber
    info_at nth Int32Value].
  apply wp_bind, wp_ret; cbn [after].
  apply wp_bind. unfold wp at 1, call_health.
  destruct (gzh_node_health E (to_int32 n) (engine w)) as [r s1].
  cbn [fst snd after]. by apply translate_and_release.
Qed.

Lemma ExecutePlugin_valid n a b c rest t w :
  (cpp_exceptions = true -> pending w = None) ->
  timeout_argument rest = Some t ->
  wp (ExecutePlugin (VNumber n :: VString a :: VString b :: VString c :: rest))
     (fun out w' =>
        let call := gzh_node_execute_plugin E (to_int32 n) (c_str a) (c_str b)
                      (c_str c) t (engine w) in
        translated_and_released
          (log (EvExecutePlugin (to_int32 n) (c_str a) (c_str b) (c_str c) t
                  call.1) (with_engine call.2 w))
          call.1 out w') w.
Proof.
  intros Hw Ht. unfold ExecutePlugin. cbn [length Nat.ltb Nat.leb orb negb
    IsNumber IsString info_at nth Int32Value Utf8Value].
  do 4 (apply wp_bind, wp_ret; cbn [after]).
  apply wp_bind.
  assert (wp (if (4 <? S (S (S (S (length rest)))))%nat
              then Int32Value (info_at
                     (VNumber n :: VString a :: VString b :: VString c :: rest) 4)
              else ret 30)
            (fun out w' => out = Ok t /\ w' = w) w) as Hto.
  { destruct rest as [|[] rest]; cbn in Ht |- *; try done;
      injection Ht as <-; by apply wp_ret. }
  eapply wp_mono; [apply Hto|]. intros out w' [-> ->]. cbn [after].
  apply wp_bind. unfold wp at 1, call_execute_plugin.
  destruct (gzh_node_execute_plugin E (to_int32 n) (c_str a) (c_str b)
              (c_str c) t (engine w)) as [r s1].
  cbn [fst snd after]. by apply translate_and_release.
Qed.

Lemma ExecutePlugin_bad_timeout n a b c rest w :
  pending w = None -> timeout_argument rest = None ->
  wp (ExecutePlugin (VNumber n :: VString a :: VString b :: VString c :: rest))
     (fun out w' =>
        if cpp_exceptions then
          out = Thrown (TypeError "A number was expected") /\ w' = w
        else
          let w1 := with_pending (Some (TypeError "A number was expected")) w in
          let call := gzh_node_execute_plugin E (to_int32 n) (c_str a)
                        (c_str b) (c_str c) 0 (engine w) in
          translated_and_released
            (log (EvExecutePlugin (to_int32 n) (c_str a) (c_str b) (c_str c) 0
                    call.1) (with_engine call.2 w1))
            call.1 out w') w.
Proof.
  intros Hw Ht. unfold ExecutePlugin. cbn [length Nat.ltb Nat.leb orb negb
    IsNumber IsString info_at nth Int32Value Utf8Value].
  do 4 (apply wp_bind, wp_ret; cbn [after]).
  apply wp_bind.
  assert (wp (if (4 <? S (S (S (S (length rest)))))%nat
              then Int32Value (info_at
                     (VNumber n :: VString a :: VString b :: VString c :: rest) 4)
              else ret 30)
            (fun out w' =>
               if cpp_exceptions then
                 out = Thrown (TypeError "A number was expected") /\ w' = w
               else out = Ok 0 /\
                 w' = with_pending (Some (TypeError "A number was expected")) w)
            w) as Hto.
  { destruct w as [pe h t s]. cbn in Hw. subst pe.
    destruct rest as [|[] rest]; cbn in Ht |- *; try done;
      unfold wp, napi_failed, Error_New, ThrowAsJavaScriptException, bind, ret;
      cbn; destruct cpp_exceptions; cbn; done. }
  eapply wp_mono; [apply Hto|]. intros out w'.
  destruct cpp_exceptions eqn:Hm; cbv beta iota; intros [-> ->]; cbn [after];
    [done|].
  apply wp_bind. unfold wp at 1, call_execute_plugin. cbn [engine with_pending].
  destruct (gzh_node_execute_plugin E (to_int32 n) (c_str a) (c_str b)
              (c_str c) 0 (engine w)) as [r s1].
  cbn [fst snd after]. apply translate_and_release. intros; congruence.
Qed.

(** ** Traces *)

Lemma no_calls_clean d :
  engine_calls d = [] -> envelopes d = [] /\ releases d = [].
Proof.
  unfold engine_calls, envelopes, releases.
  induction d as [|ev d IH]; [done|].
  rewrite filter_cons. destruct ev; cbn; try done; auto.
Qed.

Lemma frees_clean ps :
  envelopes (map EvFree ps) = [] /\ releases (map EvFree ps) = [] /\
  frees (map EvFree ps) = ps /\ allocations (map EvFree ps) = [] /\
  reads (map EvFree ps) = [].
Proof.
  unfold envelopes, releases, frees, allocations, reads.
  induction ps as [|a ps (IH1 & IH2 & IH3 & IH4 & IH5)]; [done|].
  cbn. by rewrite IH3.
Qed.

Lemma released_protocol w d1 c p d2 w1 out w' :
  trace w1 = (trace w ++ d1 ++ c :: d2)%list ->
  envelope_of c = Some p ->
  envelopes (d1 ++ d2) = [] -> releases (d1 ++ d2) = [] ->
  translated_and_released w1 p out w' ->
  exists d, trace w' = (trace w ++ d)%list /\
    envelope_protocol d out (engine w').
Proof.
  intros Ht Hc He Hr (_ & H). unfold envelope_protocol.
  destruct (load_result (engine w1) p) as [r|] eqn:Hl.
  - destruct (cpp_exceptions && negb (fits r)) eqn:Hthrow.
    + destruct H as (-> & Ht' & He' & _).
      apply andb_prop in Hthrow as [Hm Hfit]. apply negb_true_iff in Hfit.
      exists (d1 ++ c :: d2)%list. split; [by rewrite Ht', Ht|].
      right. exists d1, c, p, d2. split_and!; try done. right. right.
      rewrite He'. split_and!; try done. by exists r.
    + destruct H as (Ht' & _ & _ & v & -> & _).
      exists (d1 ++ c :: d2 ++ [EvFreeResult p])%list. split.
      * by rewrite Ht', Ht, <- !app_assoc.
      * right. exists d1, c, p, d2. split_and!; try done. left.
        split_and!; try done. by intros ->.
  - destruct H as (-> & Ht' & He' & _).
    exists (d1 ++ c :: d2)%list. split; [by rewrite Ht', Ht|].
    right. exists d1, c, p, d2. split_and!; try done. right. left.
    by rewrite He'.
Qed.

Lemma rejected_protocol w out w' :
  out <> Undef -> trace w' = trace w ->
  exists d, trace w' = (trace w ++ d)%list /\
    envelope_protocol d out (engine w').
Proof.
  intros Ho Ht. exists []. rewrite app_nil_r. split; [done|]. by left.
Qed.

Lemma marshal_protocol o w ps w' e :
  marshal o w ps w' ->
  exists d, trace w' = (trace w ++ d)%list /\
    envelope_protocol d (Thrown e) (engine w').
Proof.
  intros (_ & d & Ht & Hc & _). exists d. split; [done|]. left.
  apply no_calls_clean in Hc as [? ?]. done.
Qed.

Ltac reject_case :=
  unfold Health, ListPlugins, ExecutePlugin, BulkClone;
  cbn [length Nat.ltb Nat.leb orb negb IsNumber IsString IsObject info_at nth];
  eapply wp_mono; [apply reject|];
  let Ho := fresh in let Ht := fresh in
  intros ? ? (Ho & _ & Ht & _); by apply rejected_protocol.

Ltac released_case :=
  let H := fresh in
  intros ? ? H; eapply (released_protocol _ [] _ _ []); [..|apply H]; done.

Lemma Health_protocol info w :
  pending w = None ->
  wp (Health info)
     (fun out w' => exists d, trace w' = (trace w ++ d)%list /\
        envelope_protocol d out (engine w')) w.
Proof.
  intros Hw. destruct info as [|v rest]; [reject_case|].
  destruct v; try reject_case.
  eapply wp_mono; [by apply Health_valid; intros|]. released_case.
Qed.

Lemma ListPlugins_protocol info w :
  pending w = None ->
  wp (ListPlugins info)
     (fun out w' => exists d, trace w' = (trace w ++ d)%list /\
        envelope_protocol d out (engine w')) w.
Proof.
  intros Hw. destruct info as [|v rest]; [reject_case|].
  destruct v; try reject_case.
  eapply wp_mono; [by apply ListPlugins_valid; intros|]. released_case.
Qed.

Lemma ExecutePlugin_protocol info w :
  pending w = None ->
  wp (ExecutePlugin info)
     (fun out w' => exists d, trace w' = (trace w ++ d)%list /\
        envelope_protocol d out (engine w')) w.
Proof.
  intros Hw.
  destruct info as [|v0 [|v1 [|v2 [|v3 rest]]]]; try reject_case.
  destruct v0; try reject_case. destruct v1; try reject_case.
  destruct v2; try reject_case. destruct v3; try reject_case.
  destruct (timeout_argument rest) as [t|] eqn:Ht.
  - eapply wp_mono; [by apply ExecutePlugin_valid; intros|]. released_case.
  - eapply wp_mono; [by apply ExecutePlugin_bad_timeout|].
    destruct cpp_exceptions eqn:Hm.
    + intros out w' [-> ->]. by apply rejected_protocol.
    + released_case.
Qed.

Lemma BulkClone_protocol info w :
  pending w = None ->
  wp (BulkClone info)
     (fun out w' => exists d, trace w' = (trace w ++ d)%list /\
        envelope_protocol d out (engine w')) w.
Proof.
  intros Hw.
  destruct info as [|v0 [|v1 rest]]; try reject_case.
  destruct v0; try reject_case. destruct v1; try reject_case.
  eapply wp_mono; [by apply BulkClone_valid; intros|].
  intros out w'
    [([e ->] & _ & [ps Hps] & _)
    |(r & wc & w2 & (Hsteps & _ & _ & _ & Ht2) & Htr)];
    [by eapply marshal_protocol|].
  apply request_steps_marshal in Hsteps as (_ & d1 & Ht1 & Hc1 & _).
  apply no_calls_clean in Hc1 as [He1 Hr1].
  destruct (frees_clean (request_pointers r)) as (He2 & Hr2 & _).
  eapply (released_protocol _ d1 _ _ (map EvFree (request_pointers r)));
    [by rewrite Ht2, Ht1, <- app_assoc|done| | |apply Htr];
    unfold envelopes, releases in *; rewrite omap_app;
    [by rewrite He1, He2|by rewrite Hr1, Hr2].
Qed.

Lemma protocol_holds f info w out w' :
  In f envelope_operations -> pending w = None -> f info w = (out, w') ->
  exists d, trace w' = (trace w ++ d)%list /\
    envelope_protocol d out (engine w').
Proof.
  intros Hf Hw Hrun. cbn in Hf.
  destruct Hf as [<-|[<-|[<-|[<-|[]]]]].
  - exact (wp_run _ _ _ _ _ (BulkClone_protocol info w Hw) Hrun).
  - exact (wp_run _ _ _ _ _ (ListPlugins_protocol info w Hw) Hrun).
  - exact (wp_run _ _ _ _ _ (ExecutePlugin_protocol info w Hw) Hrun).
  - exact (wp_run _ _ _ _ _ (Health_protocol info w Hw) Hrun).
Qed.

Lemma clean_no_envelope d c :
  envelopes d = [] -> In c d -> envelope_of c = None.
Proof.
  unfold envelopes. induction d as [|ev d IH]; [done|]. cbn.
  destruct (envelope_of ev) eqn:Hev; [done|].
  intros Hd [<-|Hin]; auto.
Qed.

Lemma clean_app d1 d2 :
  envelopes (d1 ++ d2) = [] -> releases (d1 ++ d2) = [] ->
  envelopes d1 = [] /\ envelopes d2 = [] /\
  releases d1 = [] /\ releases d2 = [].
Proof.
  unfold envelopes, releases. rewrite !omap_app.
  intros [-> ->]%app_eq_nil [-> ->]%app_eq_nil. done.
Qed.

Lemma protocol_summary d1 c p d2 :
  envelope_of c = Some p ->
  envelopes (d1 ++ d2) = [] -> releases (d1 ++ d2) = [] ->
  envelopes (d1 ++ c :: d2 ++ [EvFreeResult p]) = [p] /\
  releases (d1 ++ c :: d2 ++ [EvFreeResult p]) = [p].
Proof.
  intros Hc He Hr. destruct (clean_app _ _ He Hr) as (E1 & E2 & R1 & R2).
  unfold envelopes, releases in *.
  rewrite !omap_app. cbn. rewrite !omap_app, E1, E2, R1, R2, Hc. cbn.
  by destruct c.
Qed.

Ltac rejected_case Hw :=
  left; split; [reflexivity|];
  unfold Health, ListPlugins, ExecutePlugin, BulkClone;
  cbn [length Nat.ltb Nat.leb orb negb IsNumber IsString IsObject info_at nth];
  eapply wp_mono; [apply reject|];
  let H := fresh in
  intros ? ? (_ & ? & ? & ? & H); destruct (H Hw) as [-> ?]; by repeat split.

Lemma BulkClone_cases info w :
  pending w = None ->
  (IsNumber (info_at info 0) && IsObject (info_at info 1) = false /\
   wp (BulkClone info)
      (rejected "Expected client ID and request object" w) w)
  \/ exists n o rest, info = VNumber n :: VObject o :: rest /\
       wp (BulkClone info) (bulk_cloned n o w) w.
Proof.
  intros Hw.
  destruct info as [|v0 [|v1 rest]];
    [rejected_case Hw|destruct v0; rejected_case Hw|].
  destruct v0; try rejected_case Hw. destruct v1; try rejected_case Hw.
  right. exists n, props, rest. split; [done|].
  eapply wp_mono; [by apply BulkClone_valid; intros|]. done.
Qed.

Lemma released_tail w p out w' :
  translated_and_released w p out w' ->
  heap w' = heap w /\
  exists tail, trace w' = (trace w ++ tail)%list /\
    (tail = [] \/ tail = [EvFreeResult p]).
Proof.
  intros (Hh & H). split; [done|].
  destruct (load_result (engine w) p) as [r|].
  - destruct (cpp_exceptions && negb (fits r)).
    + destruct H as (_ & -> & _). exists []. rewrite app_nil_r. auto.
    + destruct H as (-> & _). eauto.
  - destruct H as (_ & -> & _). exists []. rewrite app_nil_r. auto.
Qed.

Lemma released_thrown w p e w' :
  translated_and_released w p (Thrown e) w' -> cpp_exceptions = true.
Proof.
  intros (_ & H).
  destruct (load_result (engine w) p) as [r|]; [|by destruct H].
  destruct cpp_exceptions; [done|]. cbn in H.
  by destruct H as (_ & _ & _ & v & ? & _).
Qed.

Lemma cloned_trace id o w r wc w2 out w' :
  cloned id o w r wc w2 ->
  translated_and_released w2
    (gzh_node_bulk_clone E id r (heap wc) (engine wc)).1 out w' ->
  heap w' = heap w /\
  exists d1 tail,
    trace w' =
      (trace w ++ d1
       ++ EvBulkClone id r (heap wc)
            (gzh_node_bulk_clone E id r (heap wc) (engine wc)).1
          :: map EvFree (request_pointers r) ++ tail)%list /\
    engine_calls d1 = [] /\ frees d1 = [] /\
    allocations d1 = request_pointers r /\
    (tail = [] \/
     tail = [EvFreeResult (gzh_node_bulk_clone E id r (heap wc) (engine wc)).1]).
Proof.
  intros (Hsteps & Hh2 & _ & _ & Ht2) Htr.
  apply released_tail in Htr as (Hh & tail & Ht & Htail).
  split; [congruence|].
  apply request_steps_marshal in Hsteps as (_ & d1 & Ht1 & Hc & Hf & Ha & _).
  exists d1, tail. split; [|done].
  rewrite Ht, Ht2, Ht1, <- !app_assoc. done.
Qed.

Lemma c_str_without_nul s : has_nul s = false -> c_str s = s.
Proof.
  induction s as [|c s IH]; [done|]. cbn.
  destruct (Ascii.eqb c zero); [done|]. cbn. intros H. by rewrite IH.
Qed.

Lemma string_step_typed o k w p w' :
  string_step o k w p w' -> pending w = None ->
  field_is IsString o k = true ->
  pending w' = None /\ heap w ⊆ heap w' /\
  delivered o k p (heap w) (heap w').
Proof.
  intros [_ H] Hw Hty. unfold field_is in Hty. destruct p as [a|].
  - destruct H as (_ & Hf & v & s & Hg & Hh & _ & Hv). rewrite Hg in Hty.
    destruct v; try done. destruct Hv as [-> Hp].
    split; [done|]. rewrite Hh. split; [by apply insert_subseteq|].
    split; [|congruence]. intros s' Hs'. exists a.
    assert (s' = s0) as -> by congruence.
    cbn. rewrite lookup_insert_eq. repeat split; try done.
    intros Hn. by rewrite c_str_without_nul.
  - destruct H as (Hh & _ & Hp & Habs). rewrite Hh.
    split; [congruence|]. split; [done|]. split; [|done].
    intros s Hs. rewrite (Habs Hw) in Hs. done.
Qed.

Lemma delivered_mono o k p h0 h1 m1 m2 :
  delivered o k p h1 m1 -> h0 ⊆ h1 -> m1 ⊆ m2 -> delivered o k p h0 m2.
Proof.
  intros [Hs Hn] H0 Hm. split; [|done].
  intros s Hg. destruct (Hs s Hg) as (a & -> & Hf & Hr & Hr').
  exists a. cbn in *. split; [done|].
  split; [by eapply lookup_weaken_None|].
  destruct (m1 !! a) as [c|] eqn:Hl; [|done].
  by rewrite (lookup_weaken _ _ _ _ Hl Hm).
Qed.

Lemma scalar_step_typed conv test o k w n w' :
  scalar_step conv o k w n w' -> pending w = None ->
  (forall v, test v = true -> is_Some (conv v)) ->
  field_is test o k = true ->
  pending w' = None /\ heap w' = heap w /\
  n = match get_property o k with
      | Some v => default 0 (conv v)
      | None => 0
      end.
Proof.
  intros (_ & Hh & H) Hw Hconv Hty. unfold field_is in Hty.
  destruct H as [(_ & Hp & -> & Habs)|(_ & _ & v & Hg & Hv)].
  - rewrite (Habs Hw). split; [congruence|]. done.
  - rewrite Hg in *. destruct (Hconv v Hty) as [z Hz]. rewrite Hz in *.
    by destruct Hv as [-> ->].
Qed.

Lemma int32_of_typed v : IsNumber v = true -> is_Some (int32_of v).
Proof. destruct v; done. Qed.

Lemma int64_of_typed v : IsNumber v = true -> is_Some (int64_of v).
Proof. destruct v; done. Qed.

Lemma flag_of_typed v : IsBoolean v = true -> is_Some (flag_of v).
Proof. destruct v; done. Qed.

Lemma request_steps_typed o w r w' :
  request_steps o w r w' -> pending w = None ->
  well_typed_request o = true ->
  pending w' = None /\
  delivered o "platforms" (platforms_json r) (heap w) (heap w') /\
  delivered o "outputDir" (output_dir r) (heap w) (heap w') /\
  delivered o "strategy" (strategy r) (heap w) (heap w') /\
  delivered o "filters" (filters_json r) (heap w) (heap w') /\
  concurrency r = match get_property o "concurrency" with
                  | Some v => default 0 (int32_of v)
                  | None => 0
                  end /\
  include_private r = match get_property o "includePrivate" with
                      | Some v => default 0 (flag_of v)
                      | None => 0
                      end.
Proof.
  intros (w1 & w2 & w3 & w4 & w5 & H1 & H2 & H3 & H4 & H5 & H6) Hw Hty.
  unfold well_typed_request in Hty.
  repeat (apply andb_prop in Hty as [Hty ?]).
  destruct (string_step_typed _ _ _ _ _ H1 Hw) as (P1 & S1 & D1); [done|].
  destruct (string_step_typed _ _ _ _ _ H2 P1) as (P2 & S2 & D2); [done|].
  destruct (scalar_step_typed _ _ _ _ _ _ _ H3 P2 int32_of_typed)
    as (P3 & E3 & N3); [done|].
  destruct (string_step_typed _ _ _ _ _ H4 P3) as (P4 & S4 & D4); [done|].
  destruct (scalar_step_typed _ _ _ _ _ _ _ H5 P4 flag_of_typed)
    as (P5 & E5 & N5); [done|].
  destruct (string_step_typed _ _ _ _ _ H6 P5) as (P6 & S6 & D6); [done|].
  rewrite E3 in S4, D4. rewrite E5 in S6, D6.
  assert (heap w ⊆ heap w2) as S02 by by etrans.
  assert (heap w ⊆ heap w4) as S04 by by etrans.
  assert (heap w2 ⊆ heap w') as S2' by by etrans.
  assert (heap w1 ⊆ heap w') as S1' by by etrans.
  split_and!; try done.
  - by eapply delivered_mono; [apply D1| |].
  - by eapply delivered_mono; [apply D2| |].
  - by eapply delivered_mono; [apply D4| |].
  - by eapply delivered_mono; [apply D6| |].
Qed.

Lemma to_int32_exact z :
  - 2 ^ 31 <= z < 2 ^ 31 -> to_int32 (Finite (inject_Z z)) = z.
Proof.
  intros Hz. unfold to_int32, truncate, wrap32. cbn [inject_Z Qnum Qden].
  rewrite Z.quot_1_r, Z.mod_small by lia. lia.
Qed.

Lemma config_steps_marshal o w a cfg w' :
  config_steps o w a cfg w' -> marshal o w (a :: config_pointers cfg) w'.
Proof.
  intros (_ & w0 & m1 & w1 & m2 & w2 & m3 & w3 & m4 & w4 & m5 & w5 & m6
          & Ha & S1 & T1 & S2 & T2 & S3 & T3 & S4 & T4 & S5 & T5 & S6 & T6).
  apply (allocated_marshal o) in Ha.
  apply scalar_step_marshal in S1, S2, S3.
  apply string_step_marshal in S4, S5, S6.
  apply (stored_marshal o) in T1, T2, T3, T4, T5, T6.
  pose proof (marshal_trans _ _ _ _ _ _ Ha
    (marshal_trans _ _ _ _ _ _ S1 (marshal_trans _ _ _ _ _ _ T1
    (marshal_trans _ _ _ _ _ _ S2 (marshal_trans _ _ _ _ _ _ T2
    (marshal_trans _ _ _ _ _ _ S3 (marshal_trans _ _ _ _ _ _ T3
    (marshal_trans _ _ _ _ _ _ S4 (marshal_trans _ _ _ _ _ _ T4
    (marshal_trans _ _ _ _ _ _ S5 (marshal_trans _ _ _ _ _ _ T5
    (marshal_trans _ _ _ _ _ _ S6 T6)))))))))))) as H.
  cbn in H. by rewrite !app_nil_r in H.
Qed.

Lemma config_steps_typed o w a cfg w' :
  config_steps o w a cfg w' -> pending w = None ->
  well_typed_config o = true -> pending w' = None.
Proof.
  intros (_ & w0 & m1 & w1 & m2 & w2 & m3 & w3 & m4 & w4 & m5 & w5 & m6
          & Ha & S1 & T1 & S2 & T2 & S3 & T3 & S4 & T4 & S5 & T5 & S6 & T6)
         Hw Hty.
  unfold well_typed_config in Hty.
  repeat (apply andb_prop in Hty as [Hty ?]).
  destruct Ha as (_ & _ & P0 & _). rewrite Hw in P0.
  apply stored_pending in T1, T2, T3, T4, T5, T6.
  destruct (scalar_step_typed _ _ _ _ _ _ _ S1 P0 int64_of_typed)
    as (P1 & _); [done|]. rewrite <- T1 in P1.
  destruct (scalar_step_typed _ _ _ _ _ _ _ S2 P1 int32_of_typed)
    as (P2 & _); [done|]. rewrite <- T2 in P2.
  destruct (scalar_step_typed _ _ _ _ _ _ _ S3 P2 flag_of_typed)
    as (P3 & _); [done|]. rewrite <- T3 in P3.
  destruct (string_step_typed _ _ _ _ _ S4 P3) as (P4 & _); [done|].
  rewrite <- T4 in P4.
  destruct (string_step_typed _ _ _ _ _ S5 P4) as (P5 & _); [done|].
  rewrite <- T5 in P5.
  destruct (string_step_typed _ _ _ _ _ S6 P5) as (P6 & _); [done|].
  by rewrite T6.
Qed.

Lemma scalar_step_absent conv o k w n w' :
  scalar_step conv o k w n w' -> get_property o k = None -> n = 0.
Proof.
  intros (_ & _ & [(_ & _ & -> & _)|(_ & _ & v & Hg & _)]) Habs;
    [done|congruence].
Qed.

Lemma string_step_absent o k w p w' :
  string_step o k w p w' -> get_property o k = None -> p = None.
Proof.
  intros [_ H] Habs. destruct p as [a|]; [|done].
  destruct H as (_ & _ & v & s & Hg & _). congruence.
Qed.

Lemma config_steps_absent o w a cfg w' :
  config_steps o w a cfg w' ->
  heap w' !! a = Some (CConfig cfg) /\
  (get_property o "timeout" = None -> timeout cfg = 0) /\
  (get_property o "retryCount" = None -> retry_count cfg = 0) /\
  (get_property o "enablePlugins" = None -> enable_plugins cfg = 0) /\
  (get_property o "pluginDir" = None -> plugin_dir cfg = None) /\
  (get_property o "logLevel" = None -> log_level cfg = None) /\
  (get_property o "logFile" = None -> log_file cfg = None).
Proof.
  intros (Hcfg & w0 & m1 & w1 & m2 & w2 & m3 & w3 & m4 & w4 & m5 & w5 & m6
          & Ha & S1 & T1 & S2 & T2 & S3 & T3 & S4 & T4 & S5 & T5 & S6 & T6).
  split.
  { apply stored_lookup in T6. by rewrite Hcfg. }
  split_and!.
  - eapply scalar_step_absent, S1.
  - eapply scalar_step_absent, S2.
  - eapply scalar_step_absent, S3.
  - eapply string_step_absent, S4.
  - eapply string_step_absent, S5.
  - eapply string_step_absent, S6.
Qed.

Lemma engine_calls_frees ps : engine_calls (map EvFree ps) = [].
Proof. unfold engine_calls. induction ps as [|a ps IH]; [done|]. by cbn. Qed.

Lemma config_translated_marshal info w c wc :
  config_translated info w c wc ->
  exists d1, trace wc = (trace w ++ d1)%list /\ engine_calls d1 = [].
Proof.
  unfold config_translated. intros H.
  destruct (info_at info 0);
    try (destruct H as [_ ->]; exists []; by rewrite app_nil_r).
  destruct H as (a & cfg & _ & Hsteps).
  apply config_steps_marshal in Hsteps as (_ & d1 & Ht & Hc & _). eauto.
Qed.

Lemma config_translated_typed info w c wc :
  config_translated info w c wc -> pending w = None ->
  (forall o, info_at info 0 = VObject o -> well_typed_config o = true) ->
  pending wc = None.
Proof.
  unfold config_translated. intros H Hw Hty.
  destruct (info_at info 0); try (by destruct H as [_ ->]).
  destruct H as (a & cfg & _ & Hsteps).
  eapply config_steps_typed; eauto.
Qed.

(** ** What the host receives *)

Ltac reject_answer Hw :=
  unfold Health, ListPlugins, ExecutePlugin, BulkClone;
  cbn [length Nat.ltb Nat.leb orb negb IsNumber IsString IsObject info_at nth];
  eapply wp_mono; [apply reject|];
  let H := fresh in
  intros ? ? (_ & ? & ? & ? & H); destruct (H Hw) as [-> ?];
  left; eexists; by repeat split.

Ltac translated_answer :=
  let H := fresh in intros ? ? H; right; right; eexists _, _; apply H.

Lemma answered_holds f info w out w' :
  In f envelope_operations -> pending w = None -> f info w = (out, w') ->
  answered w out w'.
Proof.
  intros Hf Hw Hrun. cbn in Hf.
  destruct Hf as [<-|[<-|[<-|[<-|[]]]]];
    refine (wp_run _ (answered w) _ _ _ _ Hrun).
  - destruct (BulkClone_cases info w Hw) as [[_ H]|(n & o & rest & _ & H)];
      (eapply wp_mono; [apply H|]); intros out' w''.
    + intros Hr. left. by eexists.
    + intros [(Hthrown & Hm & _)|(r & wc & w2 & _ & Htr)]; right;
        [by left|right; by eexists _, _].
  - destruct info as [|v rest]; [reject_answer Hw|].
    destruct v; try reject_answer Hw.
    eapply wp_mono; [by apply ListPlugins_valid; intros|]. translated_answer.
  - destruct info as [|v0 [|v1 [|v2 [|v3 rest]]]]; try reject_answer Hw.
    destruct v0; try reject_answer Hw. destruct v1; try reject_answer Hw.
    destruct v2; try reject_answer Hw. destruct v3; try reject_answer Hw.
    destruct (timeout_argument rest) as [t|] eqn:Ht.
    + eapply wp_mono; [by apply ExecutePlugin_valid; intros|].
      translated_answer.
    + eapply wp_mono; [by apply ExecutePlugin_bad_timeout|].
      destruct cpp_exceptions eqn:Hm.
      * intros out' w'' [-> _]. right. left. split; [by eexists|done].
      * translated_answer.
  - destruct info as [|v rest]; [reject_answer Hw|].
    destruct v; try reject_answer Hw.
    eapply wp_mono; [by apply Health_valid; intros|]. translated_answer.
Qed.

(** Whenever the host receives a value from an envelope-returning
    callback, in either build mode, the value is the three-field object of
    a result record. *)
Lemma host_receives_result_object f info w v w' :
  In f envelope_operations -> pending w = None ->
  host_call f info w = (Returned v, w') ->
  exists r, v = result_object r.
Proof.
  intros Hf Hw Hhost. unfold host_call in Hhost.
  destruct (f info w) as [out w1] eqn:Hrun.
  destruct (answered_holds f info w out w1 Hf Hw Hrun)
    as [[msg Hr]|[[[e ->] _]|(w0 & p & _ & H)]].
  - destruct Hr as (-> & Hp & _). by rewrite Hp in Hhost.
  - done.
  - destruct (load_result (engine w0) p) as [r|]; [|by destruct H as (-> & _)].
    destruct (cpp_exceptions && negb (fits r)); [by destruct H as (-> & _)|].
    destruct H as (_ & _ & Hp & v0 & -> & Hv).
    destruct (pending w1) eqn:Hp1; [done|].
    injection Hhost as <- _. exists r. unfold pending_after in Hp.
    destruct (pending w0); [done|]. destruct (fits r); [by apply Hv|done].
Qed.

(** A C++ exception leaves an envelope-returning callback only in a build
    with C++ exceptions. *)
Lemma thrown_with_exceptions f info w e w' :
  In f envelope_operations -> pending w = None ->
  f info w = (Thrown e, w') -> cpp_exceptions = true.
Proof.
  intros Hf Hw Hrun.
  destruct (answered_holds f info w _ w' Hf Hw Hrun)
    as [[msg Hr]|[[_ Hm]|(w0 & p & _ & H)]]; [by destruct Hr|done|].
  destruct (load_result (engine w0) p) as [r|]; [|by destruct H].
  destruct cpp_exceptions; [done|]. cbn in H.
  by destruct H as (_ & _ & _ & v & ? & _).
Qed.

Lemma unreleased_summary d1 c p d2 :
  envelope_of c = Some p ->
  envelopes (d1 ++ d2) = [] -> releases (d1 ++ d2) = [] ->
  envelopes (d1 ++ c :: d2) = [p] /\ releases (d1 ++ c :: d2) = [].
Proof.
  intros Hc He Hr. destruct (clean_app _ _ He Hr) as (E1 & E2 & R1 & R2).
  unfold envelopes, releases in *.
  rewrite !omap_app. cbn. rewrite E1, E2, R1, R2, Hc. cbn.
  by destruct c.
Qed.

(** The blocks of a request are distinct, were not live before the
    conversion and are live after it. *)
Lemma holds_request_live h0 r h :
  holds_request h0 r h ->
  NoDup (request_pointers r) /\
  Forall (fun a => h0 !! a = None /\ is_Some (h !! a)) (request_pointers r).
Proof.
  intros (c1 & c2 & c3 & c4 & -> & U1 & U2 & U3 & U4).
  destruct r as [[a1|] [a2|] n [a3|] x [a4|]]; cbn in *;
    rewrite ?lookup_insert_None in *; destruct_and?;
    (split;
     [ repeat (apply NoDup_cons; split;
               [rewrite ?not_elem_of_cons; split_and?;
                  try congruence; apply not_elem_of_nil|]);
       apply NoDup_nil_2
     | repeat (apply Forall_cons; split;
               [split; [done|heap_norm; by eexists]|]); apply Forall_nil_2 ]).
Qed.

(** An envelope with a string above the engine's maximum length, in a
    build with C++ exceptions: [String::New] throws after the engine call
    and before the release, and the callback is left at once. *)
Lemma ListPlugins_oversized n rest w p s1 r :
  cpp_exceptions = true -> pending w = None ->
  gzh_node_list_plugins E (to_int32 n) (engine w) = (p, s1) ->
  load_result s1 p = Some r -> fits r = false ->
  exists w',
    ListPlugins (VNumber n :: rest) w = (Thrown (translation_error r), w') /\
    trace w' = (trace w ++ [EvListPlugins (to_int32 n) p])%list /\
    engine w' = s1 /\ heap w' = heap w /\ pending w' = None.
Proof.
  intros Hm Hw Hcall Hl Hfit.
  destruct (ListPlugins (VNumber n :: rest) w) as [out w'] eqn:Hrun.
  pose proof (wp_run _ _ _ _ _ (ListPlugins_valid n rest w (fun _ => Hw)) Hrun)
    as (Hh & H).
  cbv zeta in H. rewrite Hcall in H. cbn [fst snd engine log with_engine] in H.
  rewrite Hl, Hm, Hfit in H. cbn [andb negb] in H.
  destruct H as (-> & Ht & He & Hp). exists w'. cbn in Hh, Ht, Hp. by rewrite Hw in Hp.
Qed.

(** ** The claims *)

(** C1 (amended).  In every envelope-returning operation (bulk clone, list
    plugins, execute plugin, health check) nothing is ever released but
    the result envelope the call received, and that at most once; and on
    every path that a C++ exception does not cut short, the engine's
    release operation is invoked exactly once on the envelope received:
    the call either receives no envelope and releases none, or receives
    one pointer [p], and its last event is the one release of [p].  In a
    build without C++ exceptions no path is cut short. *)
Theorem envelope_released_exactly_once f info w out w' :
  In f envelope_operations ->
  pending w = None ->
  f info w = (out, w') ->
  out <> Undef ->
  (cpp_exceptions = false -> forall e, out <> Thrown e) /\
  exists d, trace w' = (trace w ++ d)%list /\
    (length (envelopes d) <= 1)%nat /\
    (releases d = [] \/ releases d = envelopes d) /\
    ((forall e, out <> Thrown e) ->
     releases d = envelopes d /\
     ((envelopes d = [] /\ releases d = []) \/
      exists d1 c p d2,
        d = (d1 ++ c :: d2 ++ [EvFreeResult p])%list /\
        envelope_of c = Some p /\
        envelopes (d1 ++ d2) = [] /\ releases (d1 ++ d2) = [])).
Proof.
  intros Hf Hw Hrun Hout. split.
  { intros Hm e ->.
    rewrite (thrown_with_exceptions f info w e w' Hf Hw Hrun) in Hm. done. }
  destruct (protocol_holds f info w out w' Hf Hw Hrun) as (d & Ht & Hp).
  exists d. split; [done|].
  destruct Hp as [(_ & He & Hr)|(d1 & c & p & d2 & Hc & He & Hr & Hp)].
  - rewrite He, Hr. split_and!; auto.
  - destruct Hp as [(_ & _ & _ & ->)|[(-> & _)|(_ & (r & _ & _ & ->) & ->)]];
      [|done|].
    + destruct (protocol_summary d1 c p d2 Hc He Hr) as [-> ->].
      split_and!; auto. intros _. split; [done|]. right.
      by exists d1, c, p, d2.
    + destruct (unreleased_summary d1 c p d2 Hc He Hr) as [-> ->].
      split_and!; auto. intros Hno. by destruct (Hno (translation_error r)).
Qed.

(** C2 (amended).  In bulk clone, every heap string the bridge allocates
    for the request record is freed by the same call frame right after
    the engine call, whether the engine call succeeded or failed and
    whatever happens afterwards.  On every path on which the engine is
    called, the strings of the request were allocated before the call,
    are distinct blocks that were not live before and are live during the
    call, and are freed immediately after it, each once and in field
    order; nothing else is allocated or freed, and the heap is then as
    the call found it.  The engine is called on every path but two: a
    failed argument check, which allocates nothing, and, in a build with
    C++ exceptions, a conversion that throws on a request with a field of
    the wrong type. *)
Theorem BulkClone_frees_request_strings info w out w' :
  pending w = None ->
  BulkClone info w = (out, w') ->
  (IsNumber (info_at info 0) && IsObject (info_at info 1) = false /\
   trace w' = trace w /\ heap w' = heap w)
  \/
  (cpp_exceptions = true /\ (exists e, out = Thrown e) /\
   (exists o, info_at info 1 = VObject o /\ well_typed_request o = false) /\
   exists d, trace w' = (trace w ++ d)%list /\ engine_calls d = [])
  \/
  exists d1 clientID r mem ret tail,
    trace w' =
      (trace w ++ d1
       ++ EvBulkClone clientID r mem ret
          :: map EvFree (request_pointers r) ++ tail)%list /\
    engine_calls d1 = [] /\ frees d1 = [] /\
    allocations d1 = request_pointers r /\
    NoDup (request_pointers r) /\
    Forall (fun a => heap w !! a = None /\ is_Some (mem !! a))
      (request_pointers r) /\
    (tail = [] \/ tail = [EvFreeResult ret]) /\
    heap w' = heap w.
Proof.
  intros Hw Hrun.
  destruct (BulkClone_cases info w Hw) as [[Hbad H]|(n & o & rest & -> & H)];
    apply (fun H => wp_run _ _ _ _ _ H Hrun) in H.
  - left. by destruct H as (_ & _ & Hh & Ht & _).
  - right.
    destruct H as [(Hthrown & Hm & [ps Hps] & Hill)|(r & wc & w2 & Hc & Htr)].
    + left. split; [done|]. split; [done|]. split; [by exists o; auto|].
      destruct Hps as (_ & d & Ht & Hcalls & _). by exists d.
    + right.
      destruct (cloned_trace _ _ _ _ _ _ _ _ Hc Htr)
        as (Hh & d1 & tail & Ht & Hcalls & Hf & Ha & Htail).
      destruct Hc as (Hsteps & _).
      destruct (holds_request_live _ _ _ (request_steps_heap _ _ _ _ Hsteps))
        as [Hdup Hlive].
      by eexists d1, _, r, (heap wc), _, tail.
Qed.

Lemma utf8_decode_ascii s : ascii_only s = true -> utf8_decode s = s.
Proof.
  unfold utf8_decode. induction s as [|c s IH]; [done|].
  cbn [ascii_only utf8_decode_from]. intros [Hc Hs]%andb_prop.
  unfold utf8_lead_of. rewrite Hc. by rewrite (IH Hs).
Qed.

Lemma host_string_plain s :
  ascii_only s = true -> has_nul s = false -> host_string s = VString s.
Proof.
  intros Ha Hn. unfold host_string.
  by rewrite (c_str_without_nul s Hn), (utf8_decode_ascii s Ha).
Qed.

(** C3 (amended).  Given a result envelope whose strings are no longer
    than the longest string the JavaScript engine accepts,
    [ResultToObject] produces a host value with exactly the three fields
    success, error and data, in this order: success is the boolean telling
    whether the envelope's flag is 1; error is the envelope's error
    message decoded as UTF-8, which is the message itself when it is
    ASCII and has U+FFFD in place of every ill-formed byte sequence
    otherwise, and null exactly when the envelope has none; data is the
    envelope's payload, decoded in the same way, and null exactly when the
    envelope has none.  Nothing else changes. *)
Theorem ResultToObject_fields a r w :
  eng_load E (engine w) a = Some r ->
  pending w = None ->
  fits r = true ->
  exists e d,
    ResultToObject (Some a) w =
      (Ok (VObject [("success", VBoolean (success r =? 1)%Z);
                    ("error", e); ("data", d)]), w) /\
    (e = VNull <-> error_msg r = None) /\
    (forall s, error_msg r = Some s ->
       e = VString (utf8_decode (c_str s)) /\
       (ascii_only s = true -> has_nul s = false -> e = VString s)) /\
    (d = VNull <-> data_json r = None) /\
    (forall s, data_json r = Some s ->
       d = VString (utf8_decode (c_str s)) /\
       (ascii_only s = true -> has_nul s = false -> d = VString s)).
Proof.
  intros Hl Hw Hfit. rewrite (ResultToObject_run a r w Hl Hw Hfit).
  unfold result_object.
  exists (match error_msg r with Some s => host_string s | None => VNull end),
    (match data_json r with Some s => host_string s | None => VNull end).
  split; [done|].
  destruct (error_msg r) as [s1|], (data_json r) as [s2|];
    split_and!; try done; intros s [= <-];
    (split; [done|apply host_string_plain]).
Qed.

(** C4.  When the handle argument of bulk clone is not a number or the
    request argument is not an object, missing arguments included, the
    call raises the boundary type error and does nothing else: the heap,
    the trace and the engine are untouched, so no string was allocated and
    no engine call was made, and the host sees the exception. *)
Theorem BulkClone_rejects_before_allocation info w :
  pending w = None ->
  IsNumber (info_at info 0) = false \/ IsObject (info_at info 1) = false ->
  exists w',
    BulkClone info w = (Ok VNull, w') /\
    pending w' = Some (TypeError "Expected client ID and request object") /\
    heap w' = heap w /\ trace w' = trace w /\ engine w' = engine w /\
    (host_call BulkClone info w).1 =
      Raised (TypeError "Expected client ID and request object").
Proof.
  intros Hw Hbad.
  destruct (BulkClone_cases info w Hw) as [[_ H]|(n & o & rest & -> & _)].
  - unfold wp, rejected in H. unfold host_call.
    destruct (BulkClone info w) as [out w'] eqn:Hrun. cbn in H.
    destruct H as (-> & Hp & Hh & Ht & He). exists w'.
    rewrite Hp. by repeat split.
  - by destruct Hbad.
Qed.

(** C5 (amended).  For a bulk-clone request whose present fields have the
    types the bridge converts them from, the engine is called with a
    record in which every present string field points to a fresh heap
    block holding the bytes of the input string up to its first NUL byte
    (the whole string when it contains none), and every absent string
    field is a null pointer, never an empty string. *)
Theorem request_strings_reach_engine n o rest w out w' :
  pending w = None ->
  well_typed_request o = true ->
  BulkClone (VNumber n :: VObject o :: rest) w = (out, w') ->
  exists d1 r mem ret d2,
    trace w' =
      (trace w ++ d1 ++ EvBulkClone (to_int32 n) r mem ret :: d2)%list /\
    engine_calls d1 = [] /\
    delivered o "platforms" (platforms_json r) (heap w) mem /\
    delivered o "outputDir" (output_dir r) (heap w) mem /\
    delivered o "strategy" (strategy r) (heap w) mem /\
    delivered o "filters" (filters_json r) (heap w) mem.
Proof.
  intros Hw Hty Hrun.
  pose proof (wp_run _ _ _ _ _
    (BulkClone_valid n o rest w (fun _ => Hw)) Hrun) as H.
  assert (exists r wc w2, cloned (to_int32 n) o w r wc w2 /\
    translated_and_released w2
      (gzh_node_bulk_clone E (to_int32 n) r (heap wc) (engine wc)).1
      out w') as (r & wc & w2 & Hc & Htr).
  { destruct H as [(_ & _ & _ & Hill)|H]; [|done].
    rewrite (Hill Hw) in Hty. done. }
  destruct (cloned_trace _ _ _ _ _ _ _ _ Hc Htr)
    as (_ & d1 & tail & Ht & Hcalls & _).
  destruct Hc as (Hsteps & _).
  destruct (request_steps_typed _ _ _ _ Hsteps Hw Hty)
    as (_ & D1 & D2 & D3 & D4 & _).
  by eexists d1, r, (heap wc), _, _.
Qed.

(** C6 (amended).  For a call of create session whose configuration
    argument is absent, not an object, or an object whose present fields
    have the types the translator converts them from: the engine's
    creation entry point is called once and no other engine call is made,
    so no result envelope exists; when it returns a negative value the
    host sees the exception "Failed to create client" and no handle; when
    it returns a non-negative value the host receives that value as the
    session handle. *)
Theorem CreateClient_result info w out w' :
  pending w = None ->
  (forall o, info_at info 0 = VObject o -> well_typed_config o = true) ->
  host_call CreateClient info w = (out, w') ->
  exists c mem ret d1 d2,
    trace w' = (trace w ++ d1 ++ EvClientCreate c mem ret :: d2)%list /\
    engine_calls (d1 ++ d2) = [] /\
    envelopes (d1 ++ EvClientCreate c mem ret :: d2) = [] /\
    if (ret <? 0)%Z then out = Raised (TypeError "Failed to create client")
    else out = Returned (Number_New ret).
Proof.
  intros Hw Hty Hhost. unfold host_call in Hhost.
  destruct (CreateClient info w) as [o1 w1] eqn:Hrun.
  pose proof (wp_run _ _ _ _ _
    (CreateClient_spec info w (fun _ => Hw)) Hrun) as H. cbv beta in H.
  destruct H as [(o & ps & e & Hi & _ & _ & _ & Hill)|(c & wc & Hc & Hcr)].
  { rewrite (Hty o Hi) in Hill. by specialize (Hill Hw). }
  pose proof (config_translated_typed _ _ _ _ Hc Hw Hty) as Hpc.
  destruct (config_translated_marshal _ _ _ _ Hc) as (d1 & Ht1 & Hc1).
  destruct Hcr as (_ & _ & [fs Ht] & Hif). rewrite Hpc in Hif.
  set (ret := (gzh_node_client_create E c (heap wc) (engine wc)).1) in *.
  assert (trace w1 =
    (trace w ++ d1 ++ EvClientCreate c (heap wc) ret :: map EvFree fs)%list)
    as Ht1'.
  { by rewrite Ht, Ht1, <- app_assoc. }
  assert (engine_calls (d1 ++ map EvFree fs) = []) as Hcalls.
  { pose proof (engine_calls_frees fs) as Hfs. unfold engine_calls in *.
    by rewrite filter_app, Hc1, Hfs. }
  assert (envelopes (d1 ++ EvClientCreate c (heap wc) ret :: map EvFree fs)
          = []) as Henv.
  { destruct (no_calls_clean _ Hcalls) as [He _].
    unfold envelopes in *. rewrite omap_app in *. by cbn. }
  exists c, (heap wc), ret, d1, (map EvFree fs).
  destruct (ret <? 0)%Z; destruct Hif as [-> Hp1]; rewrite Hp1 in Hhost;
    injection Hhost as <- <-; by repeat split.
Qed.

(** C7.  The Config Translator: when the first argument of create session
    is not an object the engine receives a null configuration pointer;
    otherwise [ObjectToClientConfig] produces a record in which every
    absent string field (plugin directory, log level, log file) is a null
    pointer and every absent scalar field (timeout, retry count, plugin
    support flag) is zero, and it reads a property only after finding it
    present.  It produces the record for every object in a build without
    C++ exceptions, and for every object whose present fields have the
    expected types otherwise. *)
Theorem config_translation :
  (forall info w out w',
     pending w = None -> IsObject (info_at info 0) = false ->
     CreateClient info w = (out, w') ->
     exists ret d,
       trace w' = (trace w ++ EvClientCreate None (heap w) ret :: d)%list) /\
  (forall o w a w',
     ObjectToClientConfig o w = (Ok a, w') ->
     exists cfg d,
       heap w' !! a = Some (CConfig cfg) /\
       trace w' = (trace w ++ d)%list /\
       Forall (fun k => is_Some (get_property o k)) (reads d) /\
       (get_property o "timeout" = None -> timeout cfg = 0) /\
       (get_property o "retryCount" = None -> retry_count cfg = 0) /\
       (get_property o "enablePlugins" = None -> enable_plugins cfg = 0) /\
       (get_property o "pluginDir" = None -> plugin_dir cfg = None) /\
       (get_property o "logLevel" = None -> log_level cfg = None) /\
       (get_property o "logFile" = None -> log_file cfg = None)) /\
  (forall o w,
     pending w = None ->
     cpp_exceptions = false \/ well_typed_config o = true ->
     exists a, (ObjectToClientConfig o w).1 = Ok a).
Proof.
  split_and!.
  - intros info w out w' Hw Hobj Hrun.
    pose proof (wp_run _ _ _ _ _
      (CreateClient_spec info w (fun _ => Hw)) Hrun) as H. cbv beta in H.
    destruct H as [(o & ps & e & Hi & _)|(c & wc & Hc & Hcr)].
    { by rewrite Hi in Hobj. }
    unfold config_translated in Hc.
    destruct (info_at info 0); try done; destruct Hc as [-> ->];
      destruct Hcr as (_ & _ & [fs Ht] & _); by eexists _, _.
  - intros o w a w' Hrun.
    pose proof (wp_run _ _ _ _ _ (ObjectToClientConfig_spec o w) Hrun)
      as [cfg Hsteps].
    destruct (config_steps_absent _ _ _ _ _ Hsteps) as (Hl & Habs).
    destruct (config_steps_marshal _ _ _ _ _ Hsteps)
      as (_ & d & Ht & _ & _ & _ & Hr).
    by exists cfg, d.
  - intros o w Hw Hok.
    destruct (ObjectToClientConfig o w) as [out w'] eqn:Hrun.
    pose proof (wp_run _ _ _ _ _ (ObjectToClientConfig_spec o w) Hrun) as H.
    cbv beta in H. destruct out as [a|e| |]; try done; [by exists a|].
    destruct H as (Hm & _ & Hill). specialize (Hill Hw).
    destruct Hok; congruence.
Qed.

(** C8 (amended).  Execute plugin called with its four mandatory
    arguments and no timeout passes 30 to the engine; called with a
    numeric timeout it passes that number converted to a 32-bit integer,
    which is the number itself when it is an integer of that range. *)
Theorem ExecutePlugin_timeout n a b c rest w out w' :
  pending w = None ->
  ExecutePlugin (VNumber n :: VString a :: VString b :: VString c :: rest) w
    = (out, w') ->
  let passes t :=
    exists ret d,
      trace w' =
        (trace w
         ++ EvExecutePlugin (to_int32 n) (c_str a) (c_str b) (c_str c) t ret
            :: d)%list /\
      (d = [] \/ d = [EvFreeResult ret]) in
  (rest = [] -> passes 30) /\
  (forall m rest', rest = VNumber m :: rest' ->
     passes (to_int32 m) /\
     forall z, m = Finite (inject_Z z) -> - 2 ^ 31 <= z < 2 ^ 31 ->
       to_int32 m = z).
Proof.
  intros Hw Hrun passes.
  assert (forall t, timeout_argument rest = Some t -> passes t) as Hpass.
  { intros t Harg.
    pose proof (wp_run _ _ _ _ _
      (ExecutePlugin_valid n a b c rest t w (fun _ => Hw) Harg) Hrun) as H.
    apply released_tail in H as (_ & tail & Htr & Htail).
    exists (gzh_node_execute_plugin E (to_int32 n) (c_str a) (c_str b)
              (c_str c) t (engine w)).1, tail.
    split; [|done]. rewrite Htr. cbn. by rewrite <- app_assoc. }
  split.
  - intros ->. by apply Hpass.
  - intros m rest' ->. split; [by apply Hpass|].
    intros z -> Hz. by apply to_int32_exact.
Qed.

(** C9.  For every numeric handle, whatever the engine's state, so also
    for a handle that was destroyed before or was never issued, destroy
    session makes exactly one engine destroy call with the handle
    converted to [int] and returns [undefined] normally; the host receives
    [undefined], and a second call on the same handle ends the same way. *)
Theorem DestroyClient_any_handle n rest w :
  DestroyClient (VNumber n :: rest) w =
    (Ok VUndefined,
     log (EvClientDestroy (to_int32 n))
       (with_engine (gzh_node_client_destroy E (to_int32 n) (engine w)) w)) /\
  (DestroyClient (VNumber n :: rest)
     (DestroyClient (VNumber n :: rest) w).2).1 = Ok VUndefined /\
  (pending w = None ->
   (host_call DestroyClient (VNumber n :: rest) w).1 = Returned VUndefined).
Proof.
  assert (forall w0, DestroyClient (VNumber n :: rest) w0 =
    (Ok VUndefined,
     log (EvClientDestroy (to_int32 n))
       (with_engine (gzh_node_client_destroy E (to_int32 n) (engine w0)) w0)))
    as Hrun by done.
  split; [apply Hrun|]. split; [by rewrite !Hrun|].
  intros Hw. unfold host_call. rewrite Hrun. cbn. by rewrite Hw.
Qed.

(** C10.  No envelope-returning operation checks the pointer the engine
    returns: whenever the engine answers the null pointer, the call runs
    into undefined behaviour, and undefined behaviour arises in these
    operations only from an envelope pointer that cannot be read.  The
    translation and the release are defined exactly when the engine
    returns a pointer to a live result record. *)
Theorem unchecked_envelope_pointer f info w out w' :
  In f envelope_operations ->
  pending w = None ->
  f info w = (out, w') ->
  exists d, trace w' = (trace w ++ d)%list /\
    (forall c, In c d -> envelope_of c = Some None -> out = Undef) /\
    (out = Undef ->
     exists c p, In c d /\ envelope_of c = Some p /\
       load_result (engine w') p = None).
Proof.
  intros Hf Hw Hrun.
  destruct (protocol_holds f info w out w' Hf Hw Hrun) as (d & Ht & Hp).
  exists d. split; [done|].
  destruct Hp as [(Ho & He & Hr)|(d1 & c & p & d2 & Hc & He & Hr & Hp)].
  - split; [|done]. intros c Hin Hc.
    by rewrite (clean_no_envelope d c He Hin) in Hc.
  - destruct (clean_app _ _ He Hr) as (E1 & E2 & _).
    destruct Hp as [(Ho & _ & Hnn & ->)|[(-> & Hl & ->)
                   |(_ & (r & Hl & _ & ->) & ->)]].
    + split; [|done]. intros c' Hin Hc'.
      rewrite in_app_iff in Hin. cbn in Hin. rewrite in_app_iff in Hin.
      destruct Hin as [Hin|[<-|[Hin|[<-|[]]]]].
      * by rewrite (clean_no_envelope d1 c' E1 Hin) in Hc'.
      * congruence.
      * by rewrite (clean_no_envelope d2 c' E2 Hin) in Hc'.
      * done.
    + split; [done|]. intros _. exists c, p. repeat split; try done.
      rewrite in_app_iff. right. by left.
    + split; [|done]. intros c' Hin Hc'.
      rewrite in_app_iff in Hin. cbn in Hin.
      destruct Hin as [Hin|[<-|Hin]].
      * by rewrite (clean_no_envelope d1 c' E1 Hin) in Hc'.
      * assert (p = None) as -> by congruence. done.
      * by rewrite (clean_no_envelope d2 c' E2 Hin) in Hc'.
Qed.

(** ** Further properties of the callbacks *)

(** *** The envelope-returning callbacks on a readable envelope *)

Lemma released_value w p r out w' :
  translated_and_released w p out w' ->
  load_result (engine w) p = Some r -> pending w = None -> fits r = true ->
  out = Ok (result_object r) /\
  w' = {| pending := None; heap := heap w;
          trace := (trace w ++ [EvFreeResult p])%list;
          engine := gzh_node_free_result E p (engine w) |}.
Proof.
  intros (Hh & H) Hl Hw Hfit. rewrite Hl, Hfit, andb_false_r in H.
  destruct H as (Ht & He & Hp & v & -> & Hv). split; [by rewrite Hv|].
  unfold pending_after in Hp. rewrite Hw, Hfit in Hp.
  destruct w' as [pe h t s]. cbn in *. congruence.
Qed.

Lemma host_returns f info w v w' :
  f info w = (Ok v, w') -> pending w' = None ->
  host_call f info w = (Returned v, w').
Proof. intros Hrun Hp. unfold host_call. by rewrite Hrun, Hp. Qed.

(** X1.  List plugins on a numeric handle calls the engine once with the
    handle converted to [int]; when the engine answers a readable
    envelope, the callback returns its translation, whether the envelope
    reports success or failure, releases the envelope, and leaves the
    bridge heap untouched.  Arguments after the first are ignored. *)
Theorem ListPlugins_returns_translated_envelope n rest w p s1 r :
  pending w = None ->
  gzh_node_list_plugins E (to_int32 n) (engine w) = (p, s1) ->
  load_result s1 p = Some r ->
  fits r = true ->
  let w' := {| pending := None; heap := heap w;
               trace := (trace w ++ [EvListPlugins (to_int32 n) p;
                                     EvFreeResult p])%list;
               engine := gzh_node_free_result E p s1 |} in
  ListPlugins (VNumber n :: rest) w = (Ok (result_object r), w') /\
  host_call ListPlugins (VNumber n :: rest) w = (Returned (result_object r), w').
Proof.
  intros Hw Hcall Hl Hfit w'.
  assert (ListPlugins (VNumber n :: rest) w = (Ok (result_object r), w')) as Hrun.
  { destruct (ListPlugins (VNumber n :: rest) w) as [out w1] eqn:Hrun.
    pose proof (wp_run _ _ _ _ _ (ListPlugins_valid n rest w (fun _ => Hw)) Hrun) as H.
    cbv beta zeta in H. rewrite Hcall in H. cbn [fst snd] in H.
    apply released_value with (r := r) in H as [-> ->]; [|done..].
    subst w'. cbn. by rewrite <- app_assoc. }
  split; [done|]. by apply host_returns.
Qed.

(** X2.  Health on a numeric handle calls the engine once with the handle
    converted to [int]; when the engine answers a readable envelope, the
    callback returns its translation, releases the envelope, and leaves
    the bridge heap untouched.  Arguments after the first are ignored. *)
Theorem Health_returns_translated_envelope n rest w p s1 r :
  pending w = None ->
  gzh_node_health E (to_int32 n) (engine w) = (p, s1) ->
  load_result s1 p = Some r ->
  fits r = true ->
  let w' := {| pending := None; heap := heap w;
               trace := (trace w ++ [EvHealth (to_int32 n) p;
                                     EvFreeResult p])%list;
               engine := gzh_node_free_result E p s1 |} in
  Health (VNumber n :: rest) w = (Ok (result_object r), w') /\
  host_call Health (VNumber n :: rest) w = (Returned (result_object r), w').
Proof.
  intros Hw Hcall Hl Hfit w'.
  assert (Health (VNumber n :: rest) w = (Ok (result_object r), w')) as Hrun.
  { destruct (Health (VNumber n :: rest) w) as [out w1] eqn:Hrun.
    pose proof (wp_run _ _ _ _ _ (Health_valid n rest w (fun _ => Hw)) Hrun) as H.
    cbv beta zeta in H. rewrite Hcall in H. cbn [fst snd] in H.
    apply released_value with (r := r) in H as [-> ->]; [|done..].
    subst w'. cbn. by rewrite <- app_assoc. }
  split; [done|]. by apply host_returns.
Qed.

(** X3.  Execute plugin hands the engine the plugin name, the method and
    the arguments as C strings: the bytes of each JavaScript string before
    its first NUL, which is the whole string when it has none.  The bridge
    allocates nothing for them, and when the engine answers a readable
    envelope the callback returns its translation and releases it. *)
Theorem ExecutePlugin_passes_c_strings n a b c rest t w p s1 r :
  pending w = None ->
  timeout_argument rest = Some t ->
  gzh_node_execute_plugin E (to_int32 n) (c_str a) (c_str b) (c_str c) t
    (engine w) = (p, s1) ->
  load_result s1 p = Some r ->
  fits r = true ->
  let info := VNumber n :: VString a :: VString b :: VString c :: rest in
  let call := EvExecutePlugin (to_int32 n) (c_str a) (c_str b) (c_str c) t p in
  let w' := {| pending := None; heap := heap w;
               trace := (trace w ++ [call; EvFreeResult p])%list;
               engine := gzh_node_free_result E p s1 |} in
  ExecutePlugin info w = (Ok (result_object r), w') /\
  host_call ExecutePlugin info w = (Returned (result_object r), w') /\
  (has_nul a = false -> has_nul b = false -> has_nul c = false ->
   call = EvExecutePlugin (to_int32 n) a b c t p).
Proof.
  intros Hw Ht Hcall Hl Hfit info call w'.
  assert (ExecutePlugin info w = (Ok (result_object r), w')) as Hrun.
  { destruct (ExecutePlugin info w) as [out w1] eqn:Hrun.
    pose proof (wp_run _ _ _ _ _
      (ExecutePlugin_valid n a b c rest t w (fun _ => Hw) Ht) Hrun) as H.
    cbv beta zeta in H. rewrite Hcall in H. cbn [fst snd] in H.
    apply released_value with (r := r) in H as [-> ->]; [|done..].
    subst w'. cbn. by rewrite <- app_assoc. }
  split; [done|]. split; [by apply host_returns|].
  intros Ha Hb Hc. subst call. by rewrite !c_str_without_nul.
Qed.

(** *** Argument checks *)

Lemma rejects msg (v : value) w :
  pending w = None ->
  (ThrowAsJavaScriptException (TypeError_New msg) ;; ret v) w =
    (Ok v, with_pending (Some (TypeError msg)) w).
Proof.
  intros Hw. destruct w as [pe h t s]. cbn in Hw. subst pe. done.
Qed.

Lemma host_raises f info w v e :
  pending w = None ->
  f info w = (Ok v, with_pending (Some e) w) ->
  host_call f info w = (Raised e, w).
Proof.
  intros Hw Hrun. unfold host_call. rewrite Hrun. cbn.
  destruct w as [pe h t s]. cbn in Hw. by subst pe.
Qed.

(** X4.  Execute plugin checks all four mandatory arguments before it does
    anything else: unless the first is a number and the next three are
    strings, missing ones included, the host gets the boundary type error
    and the engine, the heap and the trace are as before the call. *)
Theorem ExecutePlugin_rejects_bad_arguments info w :
  pending w = None ->
  IsNumber (info_at info 0) && IsString (info_at info 1)
  && IsString (info_at info 2) && IsString (info_at info 3) = false ->
  let e := TypeError "Expected client ID, plugin name, method, and args" in
  ExecutePlugin info w = (Ok VNull, with_pending (Some e) w) /\
  host_call ExecutePlugin info w = (Raised e, w).
Proof.
  intros Hw Hbad e.
  assert (ExecutePlugin info w = (Ok VNull, with_pending (Some e) w)) as Hrun.
  { unfold ExecutePlugin.
    assert ((length info <? 4)%nat || negb (IsNumber (info_at info 0))
            || negb (IsString (info_at info 1))
            || negb (IsString (info_at info 2))
            || negb (IsString (info_at info 3)) = true) as ->.
    { destruct info as [|v0 [|v1 [|v2 [|v3 rest]]]]; cbn in Hbad |- *;
        rewrite ?andb_false_r in Hbad; try done.
      destruct (IsNumber v0), (IsString v1), (IsString v2), (IsString v3);
        done. }
    by apply rejects. }
  split; [done|]. by eapply host_raises.
Qed.

(** X5.  Every exported function but [createClient] checks that its first
    argument is a number before it does anything else: otherwise, a
    missing argument included, the host gets a type error whose message
    starts with "Expected client ID", and the engine, the heap and the
    trace are as before the call. *)
Theorem exports_check_the_handle name f info w :
  In (name, f) Init -> name <> "createClient" ->
  pending w = None ->
  IsNumber (info_at info 0) = false ->
  exists v message,
    String.prefix "Expected client ID" message = true /\
    f info w = (Ok v, with_pending (Some (TypeError message)) w) /\
    host_call f info w = (Raised (TypeError message), w).
Proof.
  intros Hin Hname Hw Hbad.
  assert (forall v message,
    f info w = (Ok v, with_pending (Some (TypeError message)) w) ->
    String.prefix "Expected client ID" message = true ->
    exists v message,
      String.prefix "Expected client ID" message = true /\
      f info w = (Ok v, with_pending (Some (TypeError message)) w) /\
      host_call f info w = (Raised (TypeError message), w)) as Hdone.
  { intros v message Hrun Hpre. exists v, message.
    split; [done|]. split; [done|]. by eapply host_raises. }
  assert (negb (IsNumber (info_at info 0)) = true) as Hneg by by rewrite Hbad.
  cbn in Hin.
  destruct Hin as [[= <- <-]|[[= <- <-]|[[= <- <-]|[[= <- <-]|[[= <- <-]|
    [[= <- <-]|[]]]]]]]; [done|..];
    (eapply Hdone;
     [ unfold DestroyClient, BulkClone, ListPlugins, ExecutePlugin, Health;
       rewrite Hneg, ?orb_true_r; cbn [orb]; by apply rejects
     | reflexivity ]).
Qed.

(** X6.  A fifth argument of execute plugin that is not a number, an
    explicit [undefined] included, never selects the default timeout: the
    host gets the type error of the failed conversion.  In a build with
    C++ exceptions the engine is not called; without them it is called
    with the timeout 0 before the error reaches the host. *)
Theorem ExecutePlugin_non_numeric_timeout n a b c v rest w out w' :
  pending w = None ->
  IsNumber v = false ->
  ExecutePlugin
    (VNumber n :: VString a :: VString b :: VString c :: v :: rest) w
    = (out, w') ->
  let e := TypeError "A number was expected" in
  (out <> Undef ->
   (host_call ExecutePlugin
      (VNumber n :: VString a :: VString b :: VString c :: v :: rest) w).1
     = Raised e) /\
  if cpp_exceptions then out = Thrown e /\ w' = w
  else
    pending w' = Some e /\ heap w' = heap w /\
    exists p d,
      trace w' =
        (trace w
         ++ EvExecutePlugin (to_int32 n) (c_str a) (c_str b) (c_str c) 0 p
            :: d)%list /\
      (d = [] \/ d = [EvFreeResult p]).
Proof.
  intros Hw Hv Hrun e.
  assert (timeout_argument (v :: rest) = None) as Ht by by destruct v.
  pose proof (wp_run _ _ _ _ _
    (ExecutePlugin_bad_timeout n a b c (v :: rest) w Hw Ht) Hrun) as H.
  cbv beta in H. unfold host_call. rewrite Hrun.
  destruct cpp_exceptions eqn:Hm.
  - destruct H as [-> ->]. done.
  - cbv zeta in H. destruct H as (Hh & H). cbn in Hh.
    unfold pending_after in H. rewrite Hm in H. cbn in H.
    destruct (load_result _ _).
    + destruct H as (-> & _ & Hp & v0 & -> & _). rewrite Hp.
      split; [done|]. split; [done|]. split; [done|]. eexists _, _.
      rewrite <- app_assoc. split; [reflexivity|by right].
    + destruct H as (-> & -> & _ & Hp). rewrite Hp.
      split; [done|]. split; [done|]. split; [done|]. eexists _, _.
      split; [reflexivity|by left].
Qed.

(** *** Bulk clone *)

Lemma BulkClone_typed n o rest w out w' :
  pending w = None -> well_typed_request o = true ->
  BulkClone (VNumber n :: VObject o :: rest) w = (out, w') ->
  exists r wc w2, cloned (to_int32 n) o w r wc w2 /\
    translated_and_released w2
      (gzh_node_bulk_clone E (to_int32 n) r (heap wc) (engine wc)).1 out w'.
Proof.
  intros Hw Hty Hrun.
  pose proof (wp_run _ _ _ _ _
    (BulkClone_valid n o rest w (fun _ => Hw)) Hrun) as H.
  destruct H as [(_ & _ & _ & Hill)|H]; [|done].
  rewrite (Hill Hw) in Hty. done.
Qed.

(** X7.  For a bulk-clone request whose present fields have the expected
    types, the record the engine receives carries [concurrency] converted
    to a 32-bit integer and [includePrivate] as 1 for [true] and 0 for
    [false]; each is 0 when the property is absent. *)
Theorem BulkClone_scalars_reach_engine n o rest w out w' :
  pending w = None ->
  well_typed_request o = true ->
  BulkClone (VNumber n :: VObject o :: rest) w = (out, w') ->
  exists d1 r mem ret d2,
    trace w' =
      (trace w ++ d1 ++ EvBulkClone (to_int32 n) r mem ret :: d2)%list /\
    engine_calls d1 = [] /\
    concurrency r = match get_property o "concurrency" with
                    | Some (VNumber m) => to_int32 m
                    | _ => 0
                    end /\
    include_private r = match get_property o "includePrivate" with
                        | Some (VBoolean true) => 1
                        | _ => 0
                        end.
Proof.
  intros Hw Hty Hrun.
  destruct (BulkClone_typed _ _ _ _ _ _ Hw Hty Hrun)
    as (r & wc & w2 & Hc & Htr).
  destruct (cloned_trace _ _ _ _ _ _ _ _ Hc Htr)
    as (_ & d1 & tail & Ht & Hcalls & _).
  destruct Hc as (Hsteps & _).
  destruct (request_steps_typed _ _ _ _ Hsteps Hw Hty)
    as (_ & _ & _ & _ & _ & Hn & Hb).
  eexists d1, r, (heap wc), _, _. split; [apply Ht|]. split; [done|].
  rewrite Hn, Hb. split.
  - by destruct (get_property o "concurrency") as [[]|].
  - by destruct (get_property o "includePrivate") as [[| |[]| | | | |]|].
Qed.

(** X8.  A bulk clone on a well-typed request makes one engine call and
    frees the request strings right after it, which leaves the bridge heap
    as the call found it.  When the engine answers a readable envelope
    whose strings are no longer than the longest string the JavaScript
    engine accepts, the host receives its translation, whether it reports
    success or failure, the envelope is released last and no exception is
    pending; when the envelope cannot be read the behaviour is
    undefined. *)
Theorem BulkClone_returns_translated_envelope n o rest w out w' :
  pending w = None ->
  well_typed_request o = true ->
  BulkClone (VNumber n :: VObject o :: rest) w = (out, w') ->
  exists d1 r mem tail,
    let call := gzh_node_bulk_clone E (to_int32 n) r mem (engine w) in
    trace w' =
      (trace w ++ d1
       ++ EvBulkClone (to_int32 n) r mem call.1
          :: map EvFree (request_pointers r) ++ tail)%list /\
    engine_calls d1 = [] /\
    heap w' = heap w /\
    match load_result call.2 call.1 with
    | Some e =>
        fits e = true ->
        tail = [EvFreeResult call.1] /\
        engine w' = gzh_node_free_result E call.1 call.2 /\
        pending w' = None /\
        out = Ok (result_object e) /\
        host_call BulkClone (VNumber n :: VObject o :: rest) w
          = (Returned (result_object e), w')
    | None => tail = [] /\ out = Undef /\ pending w' = None
    end.
Proof.
  intros Hw Hty Hrun.
  destruct (BulkClone_typed _ _ _ _ _ _ Hw Hty Hrun)
    as (r & wc & w2 & Hc & Htr).
  pose proof Hc as (Hsteps & Hh2 & Hp2 & He2 & Ht2).
  destruct (request_steps_typed _ _ _ _ Hsteps Hw Hty) as (Hpc & _).
  destruct (request_steps_marshal _ _ _ _ Hsteps)
    as (Hec & d1 & Ht1 & Hcalls & _).
  rewrite Hec in *. rewrite Hpc in Hp2.
  destruct Htr as (Hh & H). rewrite He2 in H.
  exists d1, r, (heap wc).
  destruct (load_result _ _) as [e|] eqn:Hl.
  - destruct (cpp_exceptions && negb (fits e)) eqn:Hthrow.
    + destruct H as (_ & Ht & _). exists []. cbv zeta. rewrite Hl.
      split_and!; try done; try congruence.
      * by rewrite Ht, Ht2, Ht1, <- !app_assoc, app_nil_r.
      * intros Hfit. by rewrite Hfit, andb_false_r in Hthrow.
    + destruct H as (Ht & He & Hp & v & -> & Hv).
      exists [EvFreeResult (gzh_node_bulk_clone E (to_int32 n) r (heap wc)
                              (engine w)).1].
      cbv zeta. rewrite Hl.
      split_and!; try done; try congruence.
      * by rewrite Ht, Ht2, Ht1, <- !app_assoc.
      * intros Hfit. unfold pending_after in Hp. rewrite Hp2, Hfit in Hp.
        rewrite (Hv Hp2 Hfit) in *.
        split_and!; try done. by apply host_returns.
  - destruct H as (-> & Ht & He & Hp). exists []. cbv zeta. rewrite Hl.
    split_and!; try done; try congruence.
    by rewrite Ht, Ht2, Ht1, <- !app_assoc, app_nil_r.
Qed.

(** The converse of the typing lemmas: a conversion that ends with no
    exception pending started with none and found its property
    well-typed. *)
Lemma scalar_step_well_typed conv test o k w n w' :
  scalar_step conv o k w n w' -> pending w' = None ->
  (forall v, is_Some (conv v) -> test v = true) ->
  pending w = None /\ field_is test o k = true.
Proof.
  intros (_ & _ & [(_ & Hp & _ & Habs)|(Hw & _ & v & Hg & Hv)]) Hw' Hconv.
  - rewrite Hp in Hw'. split; [done|]. unfold field_is. by rewrite (Habs Hw').
  - split; [done|]. unfold field_is. rewrite Hg.
    destruct (conv v) as [z|] eqn:Hz; [apply Hconv; by rewrite Hz|].
    by destruct Hv as (_ & _ & ?).
Qed.

Lemma string_step_well_typed o k w p w' :
  string_step o k w p w' -> pending w' = None ->
  pending w = None /\ field_is IsString o k = true.
Proof.
  intros [_ H] Hw'. destruct p as [a|].
  - destruct H as (Hw & _ & v & s & Hg & _ & _ & Hv). split; [done|].
    unfold field_is. rewrite Hg.
    destruct v; try done; by destruct Hv as (_ & _ & ?).
  - destruct H as (_ & _ & Hp & Habs). rewrite Hp in Hw'. split; [done|].
    unfold field_is. by rewrite (Habs Hw').
Qed.

Lemma int32_of_number v : is_Some (int32_of v) -> IsNumber v = true.
Proof. destruct v; cbn; by intros [? ?]. Qed.

Lemma int64_of_number v : is_Some (int64_of v) -> IsNumber v = true.
Proof. destruct v; cbn; by intros [? ?]. Qed.

Lemma flag_of_boolean v : is_Some (flag_of v) -> IsBoolean v = true.
Proof. destruct v; cbn; by intros [? ?]. Qed.

Lemma request_steps_well_typed o w r w' :
  request_steps o w r w' -> pending w' = None ->
  pending w = None /\ well_typed_request o = true.
Proof.
  intros (w1 & w2 & w3 & w4 & w5 & H1 & H2 & H3 & H4 & H5 & H6) P6.
  destruct (string_step_well_typed _ _ _ _ _ H6 P6) as [P5 T6].
  destruct (scalar_step_well_typed _ _ _ _ _ _ _ H5 P5 flag_of_boolean)
    as [P4 T5].
  destruct (string_step_well_typed _ _ _ _ _ H4 P4) as [P3 T4].
  destruct (scalar_step_well_typed _ _ _ _ _ _ _ H3 P3 int32_of_number)
    as [P2 T3].
  destruct (string_step_well_typed _ _ _ _ _ H2 P2) as [P1 T2].
  destruct (string_step_well_typed _ _ _ _ _ H1 P1) as [P0 T1].
  split; [done|]. unfold well_typed_request.
  by rewrite T1, T2, T3, T4, T5, T6.
Qed.

Lemma string_step_subseteq o k w p w' :
  string_step o k w p w' -> heap w ⊆ heap w'.
Proof.
  intros H. apply string_step_heap in H as (Hu & c & ->).
  destruct p as [a|]; [by apply insert_subseteq|done].
Qed.

Lemma read_string_mono (h1 h2 : heap_t) p s :
  h1 ⊆ h2 -> read_string h1 p = Some s -> read_string h2 p = Some s.
Proof.
  intros Hsub. destruct p as [a|]; [|done]. cbn.
  destruct (h1 !! a) as [c|] eqn:Hl; [|done].
  by rewrite (lookup_weaken _ _ _ _ Hl Hsub).
Qed.

Lemma string_step_defaulted o k w p w' mem :
  string_step o k w p w' -> heap w' ⊆ mem -> defaulted o k p mem.
Proof.
  intros [_ H] Hsub Hty. destruct p as [a|]; [|by left]. right.
  destruct H as (_ & _ & v & s & Hg & Hh & _ & Hv).
  unfold field_is in Hty. rewrite Hg in Hty.
  apply (read_string_mono (heap w')); [done|].
  cbn. rewrite Hh, lookup_insert_eq.
  destruct v; try done; by destruct Hv as (_ & -> & _).
Qed.

Lemma scalar_step_defaulted conv test o k w n w' :
  scalar_step conv o k w n w' ->
  (forall v, is_Some (conv v) -> test v = true) ->
  field_is test o k = false -> n = 0.
Proof.
  intros (_ & _ & [(_ & _ & -> & _)|(_ & _ & v & Hg & Hv)]) Hconv Hty;
    [done|].
  unfold field_is in Hty. rewrite Hg in Hty.
  destruct (conv v) as [z|] eqn:Hz; [|by destruct Hv as (_ & -> & _)].
  rewrite Hconv in Hty; [done|by rewrite Hz].
Qed.

(** Whatever a request object holds, a field whose property has the wrong
    type reaches the engine as 0, as the null pointer or as the empty
    string. *)
Lemma request_steps_defaulted o w r w' :
  request_steps o w r w' ->
  defaulted o "platforms" (platforms_json r) (heap w') /\
  defaulted o "outputDir" (output_dir r) (heap w') /\
  defaulted o "strategy" (strategy r) (heap w') /\
  defaulted o "filters" (filters_json r) (heap w') /\
  (field_is IsNumber o "concurrency" = false -> concurrency r = 0) /\
  (field_is IsBoolean o "includePrivate" = false -> include_private r = 0).
Proof.
  intros (w1 & w2 & w3 & w4 & w5 & H1 & H2 & H3 & H4 & H5 & H6).
  pose proof (string_step_subseteq _ _ _ _ _ H2) as S2.
  pose proof (string_step_subseteq _ _ _ _ _ H4) as S4.
  pose proof (string_step_subseteq _ _ _ _ _ H6) as S6.
  pose proof H3 as (_ & E3 & _). pose proof H5 as (_ & E5 & _).
  rewrite E3 in S4. rewrite E5 in S6.
  split_and!.
  - eapply string_step_defaulted; [apply H1|].
    etrans; [apply S2|]. by etrans.
  - eapply string_step_defaulted; [apply H2|]. by etrans.
  - by eapply string_step_defaulted; [apply H4|].
  - by eapply string_step_defaulted; [apply H6|].
  - eapply scalar_step_defaulted; [apply H3|apply int32_of_number].
  - eapply scalar_step_defaulted; [apply H5|apply flag_of_boolean].
Qed.

(** *** The exception an ill-typed request leaves pending *)

Lemma raises_ret P {A} (a : A) : raises_only P (ret a).
Proof. intros w out w' e [= <- <-]. auto. Qed.

Lemma raises_bind P {A B} (m : M A) (f : A -> M B) :
  raises_only P m -> (forall a, raises_only P (f a)) ->
  raises_only P (x <- m ;; f x).
Proof.
  intros Hm Hf w out w' e. unfold bind. destruct (m w) as [o1 w1] eqn:H1.
  destruct o1 as [a|e1| |]; try (intros [= <- <-]; by apply (Hm _ _ _ _ H1)).
  intros H2 Hp. destruct (Hf a _ _ _ _ H2 Hp) as [Hp1|]; [|auto].
  by apply (Hm _ _ _ _ H1).
Qed.

Ltac raises_primitive :=
  intros [pe h t s] out w' e;
  unfold Has, Get, napi_failed, Error_New, ThrowAsJavaScriptException,
    malloc, bind, ret; cbn;
  destruct pe; cbn; destruct cpp_exceptions; cbn;
  intros [= <- <-]; cbn; intros [= <-]; auto.

Lemma raises_napi_failed (P : js_error -> Prop) {A} message (dflt : A) :
  P (TypeError message) -> raises_only P (napi_failed message dflt).
Proof. intros HP. raises_primitive. Qed.

Lemma raises_Has P o k : raises_only P (Has o k).
Proof. raises_primitive. Qed.

Lemma raises_Get P o k : raises_only P (Get o k).
Proof. raises_primitive. Qed.

Lemma raises_malloc P c : raises_only P (malloc c).
Proof. raises_primitive. Qed.

Lemma convert_request_raises o :
  raises_only conversion_error (convert_request o).
Proof.
  unfold convert_request, conversion_error.
  repeat first
    [ apply raises_ret | apply raises_Has | apply raises_Get
    | apply raises_malloc
    | apply raises_napi_failed; tauto
    | apply raises_bind; [|intros ?]
    | match goal with
      | |- raises_only _ (if ?b then _ else _) => destruct b
      | |- raises_only _ (Int32Value ?v) => destruct v; cbn [Int32Value]
      | |- raises_only _ (BooleanValue ?v) => destruct v; cbn [BooleanValue]
      | |- raises_only _ (Utf8Value ?v) => destruct v; cbn [Utf8Value]
      | |- raises_only _ (strdup _) => unfold strdup
      end ].
Qed.

(** Bulk clone in a build without C++ exceptions: the engine is called
    whatever the conversions did, and an exception pending at the call is
    one that was pending before or the type error of a conversion. *)
Lemma BulkClone_without_exceptions n o rest w :
  cpp_exceptions = false ->
  wp (BulkClone (VNumber n :: VObject o :: rest))
     (fun out w' =>
        exists r wc w2, cloned (to_int32 n) o w r wc w2 /\
          translated_and_released w2
            (gzh_node_bulk_clone E (to_int32 n) r (heap wc) (engine wc)).1
            out w' /\
          forall e, pending wc = Some e ->
            pending w = Some e \/ conversion_error e) w.
Proof.
  intros Hmode. unfold BulkClone. cbn [length Nat.ltb Nat.leb orb negb IsNumber
    IsObject info_at nth As_Object Int32Value].
  apply wp_bind, wp_ret; cbn [after].
  apply wp_bind. pose proof (convert_request_spec o w) as Hspec.
  pose proof (convert_request_raises o w) as Hraise.
  unfold wp in Hspec |- *.
  destruct (convert_request o w) as [[r|e| |] wc]; cbn [fst snd after] in *;
    [|destruct Hspec; congruence|done..].
  pose proof (fun e => Hraise _ _ e eq_refl) as Hconv. clear Hraise.
  rename Hspec into Hr.
  apply wp_bind. unfold wp at 1, call_bulk_clone.
  destruct (gzh_node_bulk_clone E (to_int32 n) r (heap wc) (engine wc))
    as [ret s1] eqn:Hcall. cbn [fst snd after].
  destruct (free_request_spec r (heap w)
              (log (EvBulkClone (to_int32 n) r (heap wc) ret)
                 (with_engine s1 wc)))
    as (w2 & Hfree & Hh & Hp & He & Ht);
    [apply (request_steps_heap _ _ _ _ Hr)|].
  apply wp_bind. eapply wp_eq; [apply Hfree|]. cbn [after].
  eapply wp_mono; [apply translate_and_release; congruence|].
  intros out w' H.
  exists r, wc, w2. rewrite Hcall. split; [|by split].
  unfold cloned. rewrite Hcall. cbn in *.
  by rewrite <- app_assoc in Ht.
Qed.

(** X9.  A bulk-clone request with a field of the wrong type.  In a build
    with C++ exceptions the conversion throws and the engine is never
    called.  In a build without them the engine is still called, and in
    the record it receives every field whose property has the wrong type
    is 0, the null pointer or the empty string; the heap is restored, the
    type error of a conversion is pending when the callback returns, and
    the host gets that type error instead of the result. *)
Theorem BulkClone_ill_typed_request n o rest w out w' :
  pending w = None ->
  well_typed_request o = false ->
  BulkClone (VNumber n :: VObject o :: rest) w = (out, w') ->
  if cpp_exceptions then
    (exists e, out = Thrown e) /\ engine w' = engine w /\
    exists d, trace w' = (trace w ++ d)%list /\ engine_calls d = []
  else
    heap w' = heap w /\
    (exists d1 r mem p d2,
       trace w' =
         (trace w ++ d1 ++ EvBulkClone (to_int32 n) r mem p :: d2)%list /\
       engine_calls d1 = [] /\
       defaulted o "platforms" (platforms_json r) mem /\
       defaulted o "outputDir" (output_dir r) mem /\
       defaulted o "strategy" (strategy r) mem /\
       defaulted o "filters" (filters_json r) mem /\
       (field_is IsNumber o "concurrency" = false -> concurrency r = 0) /\
       (field_is IsBoolean o "includePrivate" = false ->
        include_private r = 0)) /\
    exists e,
      conversion_error e /\ pending w' = Some e /\
      (out <> Undef ->
       (host_call BulkClone (VNumber n :: VObject o :: rest) w).1 = Raised e).
Proof.
  intros Hw Hty Hrun.
  destruct cpp_exceptions eqn:Hm.
  { pose proof (wp_run _ _ _ _ _
      (BulkClone_valid n o rest w (fun _ => Hw)) Hrun) as H.
    destruct H as [([e ->] & _ & [ps (He & d & Ht & Hc & _)] & _)
                  |(r & wc & w2 & (Hsteps & _) & _)].
    - split; [by exists e|]. split; [done|]. by exists d.
    - destruct (request_steps_well_typed _ _ _ _ Hsteps); [|congruence].
      by apply (request_steps_pending _ _ _ _ Hsteps). }
  destruct (wp_run _ _ _ _ _ (BulkClone_without_exceptions n o rest w Hm) Hrun)
    as (r & wc & w2 & Hc & Htr & Hconv).
  destruct (cloned_trace _ _ _ _ _ _ _ _ Hc Htr)
    as (Hh & d1 & tail & Ht & Hcalls & _).
  destruct Hc as (Hsteps & _ & Hp2 & _).
  split; [done|]. split.
  { destruct (request_steps_defaulted _ _ _ _ Hsteps)
      as (D1 & D2 & D3 & D4 & V1 & V2).
    by eexists d1, r, (heap wc), _, _. }
  destruct (pending wc) as [e|] eqn:Hpc.
  2: { destruct (request_steps_well_typed _ _ _ _ Hsteps Hpc). congruence. }
  exists e. split; [destruct (Hconv e eq_refl); [congruence|done]|].
  destruct Htr as (_ & H'). unfold pending_after in H'.
  rewrite Hm, Hp2 in H'. cbn [andb] in H'.
  unfold host_call. rewrite Hrun.
  destruct (load_result _ _).
  - destruct H' as (_ & _ & Hp & v & -> & _). rewrite Hp. by split.
  - destruct H' as (-> & _ & _ & Hp). rewrite Hp. by split.
Qed.

Lemma convert_request_ext o1 o2 :
  (forall k, In k request_keys -> get_property o1 k = get_property o2 k) ->
  convert_request o1 = convert_request o2.
Proof.
  intros H. unfold convert_request, Has, Get, has_property.
  rewrite (H "platforms"), (H "outputDir"), (H "concurrency"),
    (H "strategy"), (H "includePrivate"), (H "filters")
    by (cbn; tauto).
  reflexivity.
Qed.

(** X10.  Bulk clone looks at nothing but its first two arguments and, in
    the request object, the six properties it converts: two calls whose
    requests agree on these behave alike, whatever other properties the
    objects have, in whatever order, and whatever further arguments
    follow. *)
Theorem BulkClone_reads_six_properties v o1 o2 rest1 rest2 w :
  (forall k, In k request_keys -> get_property o1 k = get_property o2 k) ->
  BulkClone (v :: VObject o1 :: rest1) w =
  BulkClone (v :: VObject o2 :: rest2) w.
Proof.
  intros H. unfold BulkClone.
  cbn [length Nat.ltb Nat.leb orb negb IsObject info_at nth As_Object].
  by rewrite (convert_request_ext o1 o2 H).
Qed.

(** *** Session creation and the configuration record *)

Lemma quiet_ret {A} (a : A) : quiet (ret a).
Proof.
  intros w out w' [= <- <-]. split; [done|]. split; [done|].
  exists []. by rewrite app_nil_r.
Qed.

Lemma quiet_bind {A B} (m : M A) (f : A -> M B) :
  quiet m -> (forall a, quiet (f a)) -> quiet (x <- m ;; f x).
Proof.
  intros Hm Hf w out w'. unfold bind. destruct (m w) as [o1 w1] eqn:H1.
  destruct (Hm _ _ _ H1) as (He1 & Hd1 & d1 & Ht1 & Hc1 & Hf1).
  destruct o1 as [a|e| |];
    try (intros [= <- <-]; split; [done|]; split; [done|]; by exists d1).
  intros H2. destruct (Hf a _ _ _ H2) as (He2 & Hd2 & d2 & Ht2 & Hc2 & Hf2).
  split; [congruence|]. split; [auto|]. exists (d1 ++ d2)%list.
  rewrite Ht2, Ht1, <- app_assoc. split; [done|].
  unfold engine_calls, frees in *.
  by rewrite filter_app, omap_app, Hc1, Hc2, Hf1, Hf2.
Qed.

Lemma quiet_step {A} (m : M A) :
  (forall w,
     engine (m w).2 = engine w /\
     (forall a, heap (m w).2 !! a = None -> heap w !! a = None) /\
     (trace (m w).2 = trace w \/
      exists ev, trace (m w).2 = (trace w ++ [ev])%list /\
        is_engine_call ev = false /\ free_of ev = None)) ->
  quiet m.
Proof.
  intros H w out w' Hrun. specialize (H w). rewrite Hrun in H. cbn in H.
  destruct H as (He & Hd & [Ht|(ev & Ht & Hc & Hf)]);
    (split; [done|]); (split; [done|]).
  - exists []. by rewrite app_nil_r.
  - exists [ev]. split; [done|]. unfold engine_calls, frees. cbn.
    rewrite Hf. split; [|done].
    destruct (decide (is_engine_call ev)) as [Hcall|]; [|done].
    by rewrite Hc in Hcall.
Qed.

Ltac quiet_primitive :=
  apply quiet_step; intros [pe h t s];
  unfold Has, Get, napi_failed, Error_New, ThrowAsJavaScriptException,
    malloc, store_config, load_config, bind, ret; cbn;
  try (destruct pe; cbn); try (destruct cpp_exceptions; cbn);
  try match goal with
  | |- context [h !! ?a] => destruct (h !! a) as [[]|]; cbn
  end;
  repeat split; auto;
  try (intros ?; rewrite lookup_insert_None; tauto);
  try (right; eexists; by repeat split).

Lemma quiet_napi_failed {A} message (dflt : A) :
  quiet (napi_failed message dflt).
Proof. quiet_primitive. Qed.

Lemma quiet_Has o k : quiet (Has o k).
Proof. quiet_primitive. Qed.

Lemma quiet_Get o k : quiet (Get o k).
Proof. quiet_primitive. Qed.

Lemma quiet_malloc c : quiet (malloc c).
Proof. quiet_primitive. Qed.

Lemma quiet_store_config a f : quiet (store_config a f).
Proof. quiet_primitive. Qed.

Ltac quiet_all :=
  repeat first
    [ apply quiet_ret | apply quiet_Has | apply quiet_Get
    | apply quiet_malloc | apply quiet_store_config
    | apply quiet_napi_failed
    | apply quiet_bind; [|intros ?]
    | match goal with
      | |- quiet (if ?b then _ else _) => destruct b
      | |- quiet (Int32Value ?v) => destruct v; cbn [Int32Value]
      | |- quiet (Int64Value ?v) => destruct v; cbn [Int64Value]
      | |- quiet (BooleanValue ?v) => destruct v; cbn [BooleanValue]
      | |- quiet (Utf8Value ?v) => destruct v; cbn [Utf8Value]
      | |- quiet (strdup _) => unfold strdup
      end ].

(** Whatever becomes of the translation, its first act is to allocate the
    record, and nothing it does afterwards frees anything or calls the
    engine. *)
Lemma ObjectToClientConfig_allocates_first o w out w' :
  ObjectToClientConfig o w = (out, w') ->
  let a := fresh (dom (heap w)) in
  engine w' = engine w /\ heap w !! a = None /\ is_Some (heap w' !! a) /\
  exists d,
    trace w' = (trace w ++ EvAlloc a (CConfig zero_config) :: d)%list /\
    engine_calls d = [] /\ frees d = [].
Proof.
  intros Hrun a. unfold ObjectToClientConfig in Hrun.
  change (bind (malloc (CConfig zero_config)) ?f w) with
    (f a (log (EvAlloc a (CConfig zero_config))
            (with_heap (<[a := CConfig zero_config]> (heap w)) w))) in Hrun.
  cbv beta in Hrun.
  match type of Hrun with
  | ?m ?w0 = _ => assert (quiet m) as Hq by quiet_all
  end.
  destruct (Hq _ _ _ Hrun) as (He & Hd & d & Ht & Hc & Hf).
  split; [done|]. split; [apply not_elem_of_dom, is_fresh|]. split.
  - destruct (heap w' !! a) eqn:Hl; [done|]. apply Hd in Hl. cbn in Hl.
    by rewrite lookup_insert_eq in Hl.
  - exists d. cbn in Ht. by rewrite <- app_assoc in Ht.
Qed.

Lemma config_steps_well_typed o w a cfg w' :
  config_steps o w a cfg w' -> pending w' = None ->
  pending w = None /\ well_typed_config o = true.
Proof.
  intros (_ & w0 & m1 & w1 & m2 & w2 & m3 & w3 & m4 & w4 & m5 & w5 & m6
          & Ha & S1 & T1 & S2 & T2 & S3 & T3 & S4 & T4 & S5 & T5 & S6 & T6) P.
  apply stored_pending in T1, T2, T3, T4, T5, T6.
  rewrite T6 in P.
  destruct (string_step_well_typed _ _ _ _ _ S6 P) as [P5 Y6].
  rewrite T5 in P5.
  destruct (string_step_well_typed _ _ _ _ _ S5 P5) as [P4 Y5].
  rewrite T4 in P4.
  destruct (string_step_well_typed _ _ _ _ _ S4 P4) as [P3 Y4].
  rewrite T3 in P3.
  destruct (scalar_step_well_typed _ _ _ _ _ _ _ S3 P3 flag_of_boolean)
    as [P2 Y3].
  rewrite T2 in P2.
  destruct (scalar_step_well_typed _ _ _ _ _ _ _ S2 P2 int32_of_number)
    as [P1 Y2].
  rewrite T1 in P1.
  destruct (scalar_step_well_typed _ _ _ _ _ _ _ S1 P1 int64_of_number)
    as [P0 Y1].
  destruct Ha as (_ & _ & Hp & _). rewrite Hp in P0.
  split; [done|]. unfold well_typed_config.
  by rewrite Y1, Y2, Y3, Y4, Y5, Y6.
Qed.

Lemma ObjectToClientConfig_ext o1 o2 :
  (forall k, In k config_keys -> get_property o1 k = get_property o2 k) ->
  ObjectToClientConfig o1 = ObjectToClientConfig o2.
Proof.
  intros H. unfold ObjectToClientConfig, Has, Get, has_property.
  rewrite (H "timeout"), (H "retryCount"), (H "enablePlugins"),
    (H "pluginDir"), (H "logLevel"), (H "logFile")
    by (cbn; tauto).
  reflexivity.
Qed.

(** X11.  Create session looks at nothing but its first argument and, in
    a configuration object, the six properties it converts: two calls
    whose configurations agree on these behave alike, whatever other
    properties the objects have and whatever further arguments follow. *)
Theorem CreateClient_reads_six_properties o1 o2 rest1 rest2 w :
  (forall k, In k config_keys -> get_property o1 k = get_property o2 k) ->
  CreateClient (VObject o1 :: rest1) w = CreateClient (VObject o2 :: rest2) w.
Proof.
  intros H. unfold CreateClient.
  cbn [length Nat.ltb Nat.leb andb IsObject info_at nth As_Object].
  by rewrite (ObjectToClientConfig_ext o1 o2 H).
Qed.

(** X12.  The blocks [FreeClientConfig] frees are the blocks
    [ObjectToClientConfig] allocated: whenever the translation returns a
    record, freeing it is defined, releases the record's strings and then
    the record itself, each once, and leaves the heap as it was before the
    translation. *)
Theorem FreeClientConfig_releases_translated_config o w a w1 :
  ObjectToClientConfig o w = (Ok a, w1) ->
  exists cfg d w2,
    heap w1 !! a = Some (CConfig cfg) /\
    trace w1 = (trace w ++ d)%list /\
    allocations d = a :: config_pointers cfg /\ frees d = [] /\
    FreeClientConfig (Some a) w1 = (Ok tt, w2) /\
    trace w2 = (trace w1 ++ map EvFree (config_pointers cfg ++ [a]))%list /\
    heap w2 = heap w /\ pending w2 = pending w1 /\ engine w2 = engine w.
Proof.
  intros Hrun.
  pose proof (wp_run _ _ _ _ _ (ObjectToClientConfig_spec o w) Hrun)
    as [cfg Hsteps].
  destruct (config_steps_absent _ _ _ _ _ Hsteps) as (Hl & _).
  destruct (config_steps_marshal _ _ _ _ _ Hsteps)
    as (He & d & Ht & _ & Hf & Ha & _).
  destruct (FreeClientConfig_spec a cfg (heap w) w1
              (config_steps_heap _ _ _ _ _ Hsteps))
    as (w2 & Hfree & Hh2 & Hp2 & He2 & Ht2).
  exists cfg, d, w2. split_and!; try done. congruence.
Qed.

(** X13.  In a build with C++ exceptions, a configuration with a field of
    the wrong type makes create session throw before the engine is called;
    the record allocated for the configuration is still allocated when the
    call is left, and nothing was freed. *)
Theorem CreateClient_ill_typed_config o rest w out w' :
  cpp_exceptions = true ->
  pending w = None ->
  well_typed_config o = false ->
  CreateClient (VObject o :: rest) w = (out, w') ->
  (exists e, out = Thrown e) /\ engine w' = engine w /\
  exists a d,
    heap w !! a = None /\ is_Some (heap w' !! a) /\
    trace w' = (trace w ++ EvAlloc a (CConfig zero_config) :: d)%list /\
    engine_calls d = [] /\ frees d = [].
Proof.
  intros Hm Hw Hty Hrun. unfold CreateClient in Hrun.
  cbn [length Nat.ltb Nat.leb andb IsObject info_at nth As_Object] in Hrun.
  unfold bind at 1 2 in Hrun.
  destruct (ObjectToClientConfig o w) as [o1 w1] eqn:Ho.
  pose proof (wp_run _ _ _ _ _ (ObjectToClientConfig_spec o w) Ho) as H.
  cbv beta in H. destruct o1 as [a|e| |]; try done.
  - destruct H as [cfg Hsteps].
    pose proof (config_steps_pending _ _ _ _ _ Hsteps (fun _ => Hw) Hm) as Hp.
    destruct (config_steps_well_typed _ _ _ _ _ Hsteps Hp). congruence.
  - injection Hrun as <- <-.
    destruct (ObjectToClientConfig_allocates_first _ _ _ _ Ho)
      as (He & Hfresh & Hlive & d & Ht & Hc & Hf).
    split; [by exists e|]. split; [done|]. by eexists _, d.
Qed.

(** X14.  Create session never runs into undefined behaviour, so every
    block it frees is a live block it allocated.  On every path that a C++
    exception does not cut short it makes exactly one engine call, the
    creation, and leaves the bridge heap as it found it: the record and
    its strings are freed whether the engine created the session or not.
    In a build without C++ exceptions no path is cut short. *)
Theorem CreateClient_restores_heap info w out w' :
  pending w = None ->
  CreateClient info w = (out, w') ->
  out <> Undef /\
  (cpp_exceptions = false -> forall e, out <> Thrown e) /\
  ((forall e, out <> Thrown e) ->
   heap w' = heap w /\
   exists d c mem ret,
     trace w' = (trace w ++ d)%list /\
     engine_calls d = [EvClientCreate c mem ret]).
Proof.
  intros Hw Hrun.
  pose proof (wp_run _ _ _ _ _
    (CreateClient_spec info w (fun _ => Hw)) Hrun) as H. cbv beta in H.
  destruct H as [(o & ps & e & _ & -> & Hm & _)|(c & wc & Hc & Hcr)].
  { split; [done|]. split; [congruence|]. intros Hout. by destruct (Hout e). }
  destruct (config_translated_marshal _ _ _ _ Hc) as (d1 & Ht1 & Hc1).
  destruct Hcr as (Hh & _ & [fs Ht] & Hif).
  assert (out <> Undef /\ forall e, out <> Thrown e) as [Hdef Hthrown].
  { destruct (_ <? _)%Z; [destruct (pending wc)|];
      [destruct Hif as [_ ->]|destruct Hif as [-> _]..]; done. }
  split; [done|]. split; [done|].
  intros _. split; [done|]. eexists _, c, (heap wc), _. split.
  - by rewrite Ht, Ht1, <- app_assoc.
  - pose proof (engine_calls_frees fs) as Hfs. unfold engine_calls in *.
    rewrite filter_app, Hc1, filter_cons_True by done. by rewrite Hfs.
Qed.

(** X15.  What create session returns to the host is the number the
    engine's creation call returned, which is not negative; handed back to
    destroy session, that handle reaches the engine's destroy call as the
    same integer, the engine's handles being C [int]s. *)
Theorem created_handle_reaches_destroy info w v w1 :
  pending w = None ->
  host_call CreateClient info w = (Returned v, w1) ->
  exists d1 c mem ret d2,
    trace w1 = (trace w ++ d1 ++ EvClientCreate c mem ret :: d2)%list /\
    engine_calls (d1 ++ d2) = [] /\
    0 <= ret /\ v = Number_New ret /\
    (ret < 2 ^ 31 ->
     forall rest w2,
       DestroyClient (v :: rest) w2 =
         (Ok VUndefined,
          log (EvClientDestroy ret)
            (with_engine (gzh_node_client_destroy E ret (engine w2)) w2))).
Proof.
  intros Hw Hhost. unfold host_call in Hhost.
  destruct (CreateClient info w) as [out w'] eqn:Hrun.
  pose proof (wp_run _ _ _ _ _
    (CreateClient_spec info w (fun _ => Hw)) Hrun) as H. cbv beta in H.
  destruct H as [(o & ps & e & _ & -> & _)|(c & wc & Hc & Hcr)]; [done|].
  destruct (config_translated_marshal _ _ _ _ Hc) as (d1 & Ht1 & Hc1).
  destruct Hcr as (_ & _ & [fs Ht] & Hif).
  set (ret := (gzh_node_client_create E c (heap wc) (engine wc)).1) in *.
  destruct (ret <? 0)%Z eqn:Hneg.
  { destruct (pending wc); destruct Hif as [? Hif]; subst out; [done|].
    by rewrite Hif in Hhost. }
  destruct Hif as [-> Hp]. destruct (pending w'); [done|].
  injection Hhost as <- <-.
  exists d1, c, (heap wc), ret, (map EvFree fs).
  split; [by rewrite Ht, Ht1, <- app_assoc|]. split.
  { pose proof (engine_calls_frees fs) as Hfs. unfold engine_calls in *.
    by rewrite filter_app, Hc1, Hfs. }
  split; [lia|]. split; [done|]. intros Hret rest w2.
  unfold DestroyClient, Number_New.
  cbn [length Nat.ltb Nat.leb orb negb IsNumber info_at nth Int32Value].
  rewrite to_int32_exact by lia. done.
Qed.

Lemma grown_refl a h : grown a h h.
Proof. by split. Qed.

Lemma grown_trans a h1 h2 h3 : grown a h1 h2 -> grown a h2 h3 -> grown a h1 h3.
Proof. intros [D1 K1] [D2 K2]. split; eauto. Qed.

Lemma grown_insert a a' c h : h !! a' = None -> grown a h (<[a' := c]> h).
Proof.
  intros Hf. split.
  - intros x Hx. by apply lookup_insert_None in Hx as [? _].
  - intros x s _ Hx. rewrite lookup_insert_ne; [done|]. congruence.
Qed.

Lemma grown_store a c h : grown a h (<[a := c]> h).
Proof.
  split.
  - intros x Hx. by apply lookup_insert_None in Hx as [? _].
  - intros x s Hne Hx. by rewrite lookup_insert_ne.
Qed.

Lemma scalar_step_grown a conv o k w n w' :
  scalar_step conv o k w n w' -> grown a (heap w) (heap w').
Proof. intros (_ & -> & _). apply grown_refl. Qed.

Lemma string_step_grown a o k w p w' :
  string_step o k w p w' -> grown a (heap w) (heap w').
Proof.
  intros H. apply string_step_heap in H as (Hu & c & ->).
  destruct p as [a'|]; [by apply grown_insert|apply grown_refl].
Qed.

Lemma stored_grown a c wm w' : stored a c wm w' -> grown a (heap wm) (heap w').
Proof. intros (-> & _). apply grown_store. Qed.

Lemma allocated_grown a c w w' : allocated a c w w' -> grown a (heap w) (heap w').
Proof. intros (_ & -> & _). apply grown_store. Qed.

Lemma delivered_grown o k p a h0 h1 m1 m2 :
  delivered o k p h1 m1 -> p <> Some a ->
  grown a h0 h1 -> grown a m1 m2 -> delivered o k p h0 m2.
Proof.
  intros [Hs Hn] Hne [Hd _] [_ Hk]. split; [|done].
  intros s Hg. destruct (Hs s Hg) as (a' & -> & Hf & Hr & Hr').
  exists a'. split; [done|]. split; [by apply Hd|]. cbn in *.
  destruct (m1 !! a') as [[s1|]|] eqn:Hl; try done.
  rewrite (Hk a' s1); [done|congruence|done].
Qed.

Ltac grown_chain :=
  repeat first
    [ eassumption | apply grown_refl | eapply grown_trans; [eassumption|] ].

Lemma config_steps_fields o w a cfg w' :
  config_steps o w a cfg w' -> pending w = None ->
  well_typed_config o = true ->
  timeout cfg = match get_property o "timeout" with
                | Some v => default 0 (int64_of v)
                | None => 0
                end /\
  retry_count cfg = match get_property o "retryCount" with
                    | Some v => default 0 (int32_of v)
                    | None => 0
                    end /\
  enable_plugins cfg = match get_property o "enablePlugins" with
                       | Some v => default 0 (flag_of v)
                       | None => 0
                       end /\
  delivered o "pluginDir" (plugin_dir cfg) (heap w) (heap w') /\
  delivered o "logLevel" (log_level cfg) (heap w) (heap w') /\
  delivered o "logFile" (log_file cfg) (heap w) (heap w').
Proof.
  intros Hsteps Hw Hty.
  destruct (config_steps_heap _ _ _ _ _ Hsteps)
    as (_ & _ & _ & _ & _ & _ & _ & _ & N1 & N2 & N3).
  destruct Hsteps
    as (_ & w0 & m1 & w1 & m2 & w2 & m3 & w3 & m4 & w4 & m5 & w5 & m6
        & Ha & S1 & T1 & S2 & T2 & S3 & T3 & S4 & T4 & S5 & T5 & S6 & T6).
  unfold well_typed_config in Hty.
  repeat (apply andb_prop in Hty as [Hty ?]).
  pose proof (allocated_grown _ _ _ _ Ha) as G0.
  pose proof (scalar_step_grown a _ _ _ _ _ _ S1) as G1.
  pose proof (stored_grown _ _ _ _ T1) as G1'.
  pose proof (scalar_step_grown a _ _ _ _ _ _ S2) as G2.
  pose proof (stored_grown _ _ _ _ T2) as G2'.
  pose proof (scalar_step_grown a _ _ _ _ _ _ S3) as G3.
  pose proof (stored_grown _ _ _ _ T3) as G3'.
  pose proof (string_step_grown a _ _ _ _ _ S4) as G4.
  pose proof (stored_grown _ _ _ _ T4) as G4'.
  pose proof (string_step_grown a _ _ _ _ _ S5) as G5.
  pose proof (stored_grown _ _ _ _ T5) as G5'.
  pose proof (string_step_grown a _ _ _ _ _ S6) as G6.
  pose proof (stored_grown _ _ _ _ T6) as G6'.
  destruct Ha as (_ & _ & P0 & _). rewrite Hw in P0.
  apply stored_pending in T1, T2, T3, T4, T5, T6.
  destruct (scalar_step_typed _ _ _ _ _ _ _ S1 P0 int64_of_typed)
    as (P1 & _ & V1); [done|]. rewrite <- T1 in P1.
  destruct (scalar_step_typed _ _ _ _ _ _ _ S2 P1 int32_of_typed)
    as (P2 & _ & V2); [done|]. rewrite <- T2 in P2.
  destruct (scalar_step_typed _ _ _ _ _ _ _ S3 P2 flag_of_typed)
    as (P3 & _ & V3); [done|]. rewrite <- T3 in P3.
  destruct (string_step_typed _ _ _ _ _ S4 P3) as (P4 & _ & D4); [done|].
  rewrite <- T4 in P4.
  destruct (string_step_typed _ _ _ _ _ S5 P4) as (P5 & _ & D5); [done|].
  rewrite <- T5 in P5.
  destruct (string_step_typed _ _ _ _ _ S6 P5) as (P6 & _ & D6); [done|].
  split_and!; try done.
  - eapply delivered_grown; [apply D4|done| |]; grown_chain.
  - eapply delivered_grown; [apply D5|done| |]; grown_chain.
  - eapply delivered_grown; [apply D6|done| |]; grown_chain.
Qed.

(** X16.  For a configuration whose present fields have the expected
    types, the record the engine's creation call receives carries
    [timeout] converted to a 64-bit integer, [retryCount] converted to a
    32-bit integer and [enablePlugins] as 1 or 0, and each present string
    ([pluginDir], [logLevel], [logFile]) as a fresh heap copy of its bytes
    up to the first NUL, readable at the time of the call. *)
Theorem config_fields_reach_engine o rest w out w' :
  pending w = None ->
  well_typed_config o = true ->
  CreateClient (VObject o :: rest) w = (out, w') ->
  exists d1 cfg mem ret d2,
    trace w' =
      (trace w ++ d1 ++ EvClientCreate (Some cfg) mem ret :: d2)%list /\
    engine_calls d1 = [] /\
    timeout cfg = match get_property o "timeout" with
                  | Some (VNumber m) => to_int64 m
                  | _ => 0
                  end /\
    retry_count cfg = match get_property o "retryCount" with
                      | Some (VNumber m) => to_int32 m
                      | _ => 0
                      end /\
    enable_plugins cfg = match get_property o "enablePlugins" with
                         | Some (VBoolean true) => 1
                         | _ => 0
                         end /\
    delivered o "pluginDir" (plugin_dir cfg) (heap w) mem /\
    delivered o "logLevel" (log_level cfg) (heap w) mem /\
    delivered o "logFile" (log_file cfg) (heap w) mem.
Proof.
  intros Hw Hty Hrun.
  pose proof (wp_run _ _ _ _ _
    (CreateClient_spec _ w (fun _ => Hw)) Hrun) as H. cbv beta in H.
  destruct H as [(o' & ps & e & [= <-] & _ & _ & _ & Hill)|(c & wc & Hc & Hcr)].
  { rewrite (Hill Hw) in Hty. done. }
  destruct (config_translated_marshal _ _ _ _ Hc) as (d1 & Ht1 & Hc1).
  destruct Hc as (a & cfg & -> & Hsteps).
  destruct Hcr as (_ & _ & [fs Ht] & _).
  destruct (config_steps_fields _ _ _ _ _ Hsteps Hw Hty)
    as (V1 & V2 & V3 & D1 & D2 & D3).
  eexists d1, cfg, (heap wc), _, _.
  split; [by rewrite Ht, Ht1, <- app_assoc|]. split; [done|].
  rewrite V1, V2, V3. split_and!; try done.
  - by destruct (get_property o "timeout") as [[]|].
  - by destruct (get_property o "retryCount") as [[]|].
  - by destruct (get_property o "enablePlugins") as [[| |[]| | | | |]|].
Qed.

(** X17.  In a build without C++ exceptions, a configuration with a field
    of the wrong type does not stop create session: the engine's creation
    call is still made, with the defaults in place of what could not be
    converted, and the record is freed; when the engine creates the
    session, the host gets the exception of the failed conversion and not
    the handle. *)
Theorem CreateClient_goes_on_after_conversion_error o rest w out w' :
  cpp_exceptions = false ->
  pending w = None ->
  well_typed_config o = false ->
  CreateClient (VObject o :: rest) w = (out, w') ->
  heap w' = heap w /\
  exists d1 cfg mem ret d2,
    trace w' =
      (trace w ++ d1 ++ EvClientCreate (Some cfg) mem ret :: d2)%list /\
    engine_calls d1 = [] /\
    (0 <= ret ->
     exists e, pending w' = Some e /\
       (host_call CreateClient (VObject o :: rest) w).1 = Raised e).
Proof.
  intros Hm Hw Hty Hrun.
  pose proof (wp_run _ _ _ _ _
    (CreateClient_spec _ w (fun _ => Hw)) Hrun) as H. cbv beta in H.
  destruct H as [(o' & ps & e & _ & _ & Hm' & _)|(c & wc & Hc & Hcr)];
    [congruence|].
  destruct (config_translated_marshal _ _ _ _ Hc) as (d1 & Ht1 & Hc1).
  destruct Hc as (a & cfg & -> & Hsteps).
  destruct Hcr as (Hh & _ & [fs Ht] & Hif). split; [done|].
  eexists d1, cfg, (heap wc), _, _.
  split; [by rewrite Ht, Ht1, <- app_assoc|]. split; [done|].
  intros Hret. apply Z.ltb_ge in Hret. rewrite Hret in Hif.
  destruct Hif as [-> Hp]. unfold host_call. rewrite Hrun.
  destruct (pending w') as [e|] eqn:Hp'; [by exists e|].
  destruct (config_steps_well_typed _ _ _ _ _ Hsteps); congruence.
Qed.

(** *** All six exports *)

(** X18.  Every export but [createClient] uses its handle argument only
    through its conversion to [int]: two numeric handles with the same
    conversion, such as 1, 1.5 and 4294967297, address the same session
    and give the same outcome and the same final state. *)
Theorem handles_are_converted_to_int name f n1 n2 rest w :
  In (name, f) Init -> name <> "createClient" ->
  to_int32 n1 = to_int32 n2 ->
  f (VNumber n1 :: rest) w = f (VNumber n2 :: rest) w.
Proof.
  intros Hin Hname Heq. cbn in Hin.
  destruct Hin as [[= <- <-]|[[= <- <-]|[[= <- <-]|[[= <- <-]|[[= <- <-]|
    [[= <- <-]|[]]]]]]]; [done|..];
    unfold DestroyClient, BulkClone, ListPlugins, ExecutePlugin, Health;
    cbn [length Nat.ltb Nat.leb orb negb IsNumber info_at nth Int32Value];
    by rewrite Heq.
Qed.

Ltac heap_kept_rejected Hw :=
  unfold DestroyClient, Health, ListPlugins, ExecutePlugin, BulkClone;
  cbn [length Nat.ltb Nat.leb orb negb IsNumber IsString IsObject info_at nth];
  eapply wp_mono; [apply reject|];
  let H := fresh in
  intros ? ? (_ & ? & _ & _ & H); by destruct (H Hw) as [-> _].

(** How a callback leaves the heap: as it found it, unless it is left by a
    C++ exception. *)
Lemma callbacks_keep_heap name f info w :
  In (name, f) Init -> pending w = None ->
  wp (f info)
     (fun out w' =>
        match out with
        | Thrown _ => cpp_exceptions = true
        | _ => heap w' = heap w
        end) w.
Proof.
  intros Hin Hw. cbn in Hin.
  destruct Hin as [[= <- <-]|[[= <- <-]|[[= <- <-]|[[= <- <-]|[[= <- <-]|
    [[= <- <-]|[]]]]]]].
  - eapply wp_mono; [by apply CreateClient_spec|].
    intros out w' [(o & ps & e & _ & -> & Hm & _)|(c & wc & _ & Hh & _ & _ & Hif)];
      [done|].
    destruct out as [v|e| |]; try done.
    destruct (_ <? _)%Z; [destruct (pending wc)|]; by destruct Hif.
  - destruct info as [|v rest]; [heap_kept_rejected Hw|].
    destruct v; try heap_kept_rejected Hw. done.
  - destruct (BulkClone_cases info w Hw) as [[_ H]|(n & o & rest & _ & H)];
      (eapply wp_mono; [apply H|]); intros out w'.
    + by intros (-> & _ & Hh & _).
    + intros [([e ->] & Hm & _)|(r & wc & w2 & Hc & Htr)]; [done|].
      destruct (cloned_trace _ _ _ _ _ _ _ _ Hc Htr) as [Hh _].
      destruct out; try done. by apply released_thrown in Htr.
  - destruct info as [|v rest]; [heap_kept_rejected Hw|].
    destruct v; try heap_kept_rejected Hw.
    eapply wp_mono; [by apply ListPlugins_valid; intros|].
    intros out w' H. pose proof (released_tail _ _ _ _ H) as [Hh _].
    destruct out; try done. by apply released_thrown in H.
  - destruct info as [|v0 [|v1 [|v2 [|v3 rest]]]]; try heap_kept_rejected Hw.
    destruct v0; try heap_kept_rejected Hw.
    destruct v1; try heap_kept_rejected Hw.
    destruct v2; try heap_kept_rejected Hw.
    destruct v3; try heap_kept_rejected Hw.
    destruct (timeout_argument rest) as [t|] eqn:Ht.
    + eapply wp_mono; [by apply ExecutePlugin_valid; intros|].
      intros out w' H. pose proof (released_tail _ _ _ _ H) as [Hh _].
      destruct out; try done. by apply released_thrown in H.
    + eapply wp_mono; [by apply ExecutePlugin_bad_timeout|].
      destruct cpp_exceptions eqn:Hm.
      * by intros out w' [-> ->].
      * intros out w' H. pose proof (released_tail _ _ _ _ H) as [Hh _].
        destruct out; try done.
        apply released_thrown in H. congruence.
  - destruct info as [|v rest]; [heap_kept_rejected Hw|].
    destruct v; try heap_kept_rejected Hw.
    eapply wp_mono; [by apply Health_valid; intros|].
    intros out w' H. pose proof (released_tail _ _ _ _ H) as [Hh _].
    destruct out; try done. by apply released_thrown in H.
Qed.

(** X19.  What every export leaves behind for the next call.  After a
    call that returns a value the bridge heap is as the call found it;
    after a call that raises an exception the same holds in a build
    without C++ exceptions; and in both cases no exception is left pending
    on the environment. *)
Theorem exports_keep_the_heap name f info w res w' :
  In (name, f) Init ->
  pending w = None ->
  host_call f info w = (res, w') ->
  match res with
  | Returned _ => heap w' = heap w /\ pending w' = None
  | Raised _ => pending w' = None /\ (cpp_exceptions = false -> heap w' = heap w)
  | _ => True
  end.
Proof.
  intros Hin Hw Hhost. unfold host_call in Hhost.
  destruct (f info w) as [out w1] eqn:Hrun.
  pose proof (wp_run _ _ _ _ _ (callbacks_keep_heap name f info w Hin Hw) Hrun)
    as H. cbv beta in H.
  destruct out as [v|e| |].
  - destruct (pending w1) eqn:Hp; injection Hhost as <- <-; by cbn.
  - injection Hhost as <- <-. split; [done|]. cbn. congruence.
  - by injection Hhost as <- <-.
  - by injection Hhost as <- <-.
Qed.

End Bridge.

Arguments pending {E} w.
Arguments heap {E} w.
Arguments trace {E} w.
Arguments engine {E} w.

(** ** Concrete runs *)

(** The length of a string of [n] letters. *)
Lemma strlen_repeated (n : N) : strlen (N.iter n (String "a") "") = n.
Proof.
  induction n as [|n IH] using N.peano_ind; [done|].
  rewrite N.iter_succ. cbn. by rewrite IH.
Qed.


(** The end-to-end scenario: a session is created with a timeout and a
    retry count, and a bulk clone on its handle returns the translated
    success envelope; the heap is empty again after both calls. *)
Example end_to_end_scenario :
  let E := fake_engine 0 (Some reply_cloned) in
  let w := initial_world E ∅ in
  let created :=
    host_call E (CreateClient true E)
      [VObject [("timeout", Number_New 5000); ("retryCount", Number_New 2)]]
      w in
  let cloned :=
    host_call E (BulkClone true kMaxLength_64bit E) [Number_New 0; VObject
        request_mirror]
      created.2 in
  created.1 = Returned (Number_New 0) /\
  cloned.1 =
    Returned
      (VObject [("success", VBoolean true); ("error", VNull);
                ("data", VString ("{" ++ quoted "cloned" ++ ":3}"))]) /\
  heap cloned.2 = ∅ /\
  releases (trace cloned.2) = envelopes (trace cloned.2).
Proof. by vm_compute. Qed.

(** Destroying a handle twice, and a handle that was never issued. *)
Example destroy_twice :
  let E := fake_engine 0 None in
  let w := initial_world E ∅ in
  let once := host_call E (DestroyClient false E) [Number_New 3] w in
  let twice := host_call E (DestroyClient false E) [Number_New 3] once.2 in
  once.1 = Returned VUndefined /\ twice.1 = Returned VUndefined /\
  trace twice.2 = [EvClientDestroy 3; EvClientDestroy 3].
Proof. by vm_compute. Qed.

(** A bulk clone against the fake engine: the envelope is received once
    and released once. *)
Lemma envelope_released_exactly_once_witness :
  let E := fake_engine 0 (Some reply_cloned) in
  let f := BulkClone true kMaxLength_64bit E in
  let w := initial_world E ∅ in
  let info := [Number_New 1; VObject request_mirror] in
  In f (envelope_operations true kMaxLength_64bit E) /\
  pending w = None /\
  (f info w).1 <> Undef /\
  (true = false -> forall e, (f info w).1 <> Thrown e) /\
  exists d, trace (f info w).2 = (trace w ++ d)%list /\
    (length (envelopes d) <= 1)%nat /\
    (releases d = [] \/ releases d = envelopes d) /\
    ((forall e, (f info w).1 <> Thrown e) ->
     releases d = envelopes d /\
     ((envelopes d = [] /\ releases d = []) \/
      exists d1 c p d2,
        d = (d1 ++ c :: d2 ++ [EvFreeResult p])%list /\
        envelope_of c = Some p /\
        envelopes (d1 ++ d2) = [] /\ releases (d1 ++ d2) = [])).
Proof.
  intros E f w info.
  assert (In f (envelope_operations true kMaxLength_64bit E)) as Hf
    by (cbn; tauto).
  assert ((f info w).1 <> Undef) as Hout by (vm_compute; discriminate).
  split; [exact Hf|]. split; [reflexivity|]. split; [exact Hout|].
  exact (envelope_released_exactly_once true kMaxLength_64bit E f info w
           (f info w).1 (f info w).2 Hf eq_refl
           (surjective_pairing (f info w)) Hout).
Defined.

(** C1 fails as stated: in a build with C++ exceptions the engine answers
    list plugins with an envelope whose payload is longer than the longest
    string V8 makes; [String::New] throws, and the call is left with the
    envelope received, never released and still in the engine's memory. *)
Lemma ListPlugins_leaks_oversized_envelope :
  let E := fake_engine 0 (Some reply_oversized) in
  let w := initial_world E ∅ in
  let f := ListPlugins true kMaxLength_64bit E in
  let run := f [VNumber (Finite (inject_Z 1))] w in
  strlen oversized_payload = (2 ^ 29)%N /\
  (kMaxLength_64bit < 2 ^ 29)%N /\
  In f (envelope_operations true kMaxLength_64bit E) /\
  pending w = None /\
  run.1 = Thrown (Error "Unknown failure") /\
  trace run.2 = [EvListPlugins 1 (Some 1%positive)] /\
  envelopes (trace run.2) = [Some 1%positive] /\
  releases (trace run.2) = [] /\
  eng_load E (engine run.2) 1%positive = Some reply_oversized.
Proof.
  pose proof strlen_repeated (2 ^ 29) as Hlen. revert Hlen.
  unfold reply_oversized, oversized_payload.
  generalize (N.iter (2 ^ 29) (String "a") ""). intros payload Hlen.
  set (r := {| success := 1; error_msg := None; data_json := Some payload |}).
  set (E := fake_engine 0 (Some r)). set (w := initial_world E ∅).
  set (f := ListPlugins true kMaxLength_64bit E).
  set (run := f [VNumber (Finite (inject_Z 1))] w).
  set (call := gzh_node_list_plugins E 1 (engine w)).
  assert (fits kMaxLength_64bit r = false) as Hfit.
  { unfold fits, string_fits. cbn [error_msg data_json andb r].
    by rewrite Hlen. }
  assert (translation_error kMaxLength_64bit r = Error "Unknown failure")
    as Herr.
  { unfold translation_error, string_failure, create_string_failure.
    cbn [error_msg data_json r]. by rewrite Hlen. }
  destruct (ListPlugins_oversized true kMaxLength_64bit E
              (Finite (inject_Z 1)) [] w call.1 call.2 r eq_refl eq_refl
              (surjective_pairing call) eq_refl Hfit)
    as (w' & Hrun & Ht & He & _).
  fold f in Hrun. fold run in Hrun. rewrite Hrun. cbn [fst snd].
  rewrite Ht, He, Herr.
  split; [done|]. split; [done|]. split; [cbn; tauto|]. done.
Qed.

(** C2 fails as stated: in a build with C++ exceptions the conversion of
    [outputDir: 5] throws after the string for [platforms] was duplicated;
    the call is left at once and the block at address 1 stays
    allocated. *)
Lemma BulkClone_leaks_when_conversion_throws :
  let E := fake_engine 0 (Some reply_cloned) in
  let w := initial_world E ∅ in
  let run := BulkClone true kMaxLength_64bit E
               [Number_New 1;
                VObject [("platforms", VString "[github]");
                         ("outputDir", Number_New 5)]] w in
  run.1 = Thrown (TypeError "A string was expected") /\
  allocations (trace run.2) = [1%positive] /\
  frees (trace run.2) = [] /\
  heap w !! 1%positive = None /\
  heap run.2 !! 1%positive = Some (CString "[github]").
Proof. by vm_compute. Qed.

(** The same request in a build without C++ exceptions, against an engine
    that reports a failure: both strings are freed. *)
Lemma BulkClone_frees_request_strings_witness :
  let E := fake_engine 0 (Some reply_failed) in
  let w := initial_world E ∅ in
  let run := BulkClone false kMaxLength_64bit E
               [Number_New 1;
                VObject [("platforms", VString "[github]");
                         ("outputDir", Number_New 5)]] w in
  pending w = None /\
  exists d1 clientID r mem ret tail,
    trace run.2 =
      (trace w ++ d1 ++ EvBulkClone clientID r mem ret
       :: map EvFree (request_pointers r) ++ tail)%list /\
    engine_calls d1 = [] /\ frees d1 = [] /\
    allocations d1 = request_pointers r /\
    NoDup (request_pointers r) /\
    Forall (fun a => heap w !! a = None /\ is_Some (mem !! a))
      (request_pointers r) /\
    (tail = [] \/ tail = [EvFreeResult ret]) /\ heap run.2 = heap w.
Proof.
  intros E w run. split; [reflexivity|].
  destruct (BulkClone_frees_request_strings false kMaxLength_64bit E _ w
              run.1 run.2 eq_refl (surjective_pairing run))
    as [(Hb & _)|[(Hm & _)|H]]; [discriminate Hb|discriminate Hm|exact H].
Defined.

(** A failure envelope at address 1 of the engine's memory translates to
    [{success: false, error: "no such client", data: null}]. *)
Lemma ResultToObject_fields_witness :
  let E := fake_engine 0 None in
  let w := initial_world E (<[1%positive := reply_failed]> ∅) in
  eng_load E (engine w) 1%positive = Some reply_failed /\
  pending w = None /\
  fits kMaxLength_64bit reply_failed = true /\
  exists e d,
    ResultToObject true kMaxLength_64bit E (Some 1%positive) w =
      (Ok (VObject [("success", VBoolean (success reply_failed =? 1)%Z);
                    ("error", e); ("data", d)]), w) /\
    (e = VNull <-> error_msg reply_failed = None) /\
    (forall s, error_msg reply_failed = Some s ->
       e = VString (utf8_decode (c_str s)) /\
       (ascii_only s = true -> has_nul s = false -> e = VString s)) /\
    (d = VNull <-> data_json reply_failed = None) /\
    (forall s, data_json reply_failed = Some s ->
       d = VString (utf8_decode (c_str s)) /\
       (ascii_only s = true -> has_nul s = false -> d = VString s)).
Proof.
  intros E w.
  assert (eng_load E (engine w) 1%positive = Some reply_failed) as Hl
    by reflexivity.
  assert (fits kMaxLength_64bit reply_failed = true) as Hfit by reflexivity.
  split; [exact Hl|]. split; [reflexivity|]. split; [exact Hfit|].
  exact (ResultToObject_fields true kMaxLength_64bit E 1%positive
           reply_failed w Hl eq_refl Hfit).
Defined.

(** C3 fails as stated: the payload of the single byte FF is not UTF-8;
    the host gets the string of the replacement character U+FFFD, whose
    UTF-8 form is the three bytes EF BF BD. *)
Lemma ResultToObject_replaces_ill_formed_bytes :
  let E := fake_engine 0 None in
  let w := initial_world E (<[1%positive := reply_ill_formed]> ∅) in
  let payload := String (ascii_of_N 255) "" in
  eng_load E (engine w) 1%positive = Some reply_ill_formed /\
  data_json reply_ill_formed = Some payload /\
  fits kMaxLength_64bit reply_ill_formed = true /\
  ResultToObject true kMaxLength_64bit E (Some 1%positive) w =
    (Ok (VObject [("success", VBoolean true); ("error", VNull);
                  ("data", VString replacement_character)]), w) /\
  ResultToObject false kMaxLength_64bit E (Some 1%positive) w =
    (Ok (VObject [("success", VBoolean true); ("error", VNull);
                  ("data", VString replacement_character)]), w) /\
  replacement_character <> payload.
Proof. by vm_compute. Qed.

(** Bulk clone with a handle and no request object. *)
Lemma BulkClone_rejects_before_allocation_witness :
  let E := fake_engine 0 (Some reply_cloned) in
  let w := initial_world E ∅ in
  let info := [Number_New 1] in
  pending w = None /\
  (IsNumber (info_at info 0) = false \/ IsObject (info_at info 1) = false) /\
  exists w',
    BulkClone true kMaxLength_64bit E info w = (Ok VNull, w') /\
    pending w' = Some (TypeError "Expected client ID and request object") /\
    heap w' = heap w /\ trace w' = trace w /\ engine w' = engine w /\
    (host_call E (BulkClone true kMaxLength_64bit E) info w).1 =
      Raised (TypeError "Expected client ID and request object").
Proof.
  intros E w info.
  assert (IsNumber (info_at info 0) = false \/
          IsObject (info_at info 1) = false) as Hbad by (right; reflexivity).
  split; [reflexivity|]. split; [exact Hbad|].
  exact (BulkClone_rejects_before_allocation true kMaxLength_64bit E info w
      eq_refl Hbad).
Defined.

(** C5 fails as stated: the JavaScript string of the three characters a,
    NUL, b reaches the engine as the C string "a". *)
Lemma request_string_truncated_at_NUL :
  let E := fake_engine 0 (Some reply_cloned) in
  let w := initial_world E ∅ in
  let input := String "a" (String zero "b") in
  let run := BulkClone true kMaxLength_64bit E
               [Number_New 1; VObject [("platforms", VString input)]] w in
  exists r mem ret d2,
    trace run.2 =
      ([EvGet "platforms"; EvAlloc 1%positive (CString "a")]
       ++ EvBulkClone 1 r mem ret :: d2)%list /\
    read_string mem (platforms_json r) = Some "a" /\
    "a" <> input.
Proof.
  intros E w input run. eexists _, _, _, _.
  split; [vm_compute; reflexivity|]. split; [by vm_compute|]. discriminate.
Qed.

(** The request of the end-to-end scenario. *)
Lemma request_strings_reach_engine_witness :
  let E := fake_engine 0 (Some reply_cloned) in
  let w := initial_world E ∅ in
  let run := BulkClone true kMaxLength_64bit E [Number_New 1; VObject
      request_mirror] w in
  pending w = None /\
  well_typed_request request_mirror = true /\
  exists d1 r mem ret d2,
    trace run.2 =
      (trace w ++ d1
       ++ EvBulkClone (to_int32 (Finite (inject_Z 1))) r mem ret :: d2)%list /\
    engine_calls d1 = [] /\
    delivered request_mirror "platforms" (platforms_json r) (heap w) mem /\
    delivered request_mirror "outputDir" (output_dir r) (heap w) mem /\
    delivered request_mirror "strategy" (strategy r) (heap w) mem /\
    delivered request_mirror "filters" (filters_json r) (heap w) mem.
Proof.
  intros E w run. split; [reflexivity|]. split; [reflexivity|].
  exact (request_strings_reach_engine true kMaxLength_64bit E (Finite
      (inject_Z 1))
           request_mirror [] w run.1 run.2 eq_refl eq_refl
           (surjective_pairing run)).
Defined.

(** C6 fails as stated: in a build without C++ exceptions the failed
    conversion of [timeout: "5000"] leaves a type error pending; the
    engine still creates session 7, and the host gets the type error
    instead of the handle. *)
Lemma CreateClient_handle_lost_after_conversion_error :
  let E := fake_engine 7 None in
  let w := initial_world E ∅ in
  let run := host_call E (CreateClient false E)
               [VObject [("timeout", VString "5000")]] w in
  run.1 = Raised (TypeError "A number was expected") /\
  exists c mem,
    trace run.2 =
      ([EvAlloc 1%positive (CConfig zero_config); EvGet "timeout"]
       ++ EvClientCreate c mem 7 :: [EvFree 1%positive])%list.
Proof.
  intros E w run. split; [by vm_compute|].
  eexists _, _. vm_compute. reflexivity.
Qed.

(** Session creation with the configuration of the end-to-end scenario,
    against an engine that cannot allocate a session. *)
Lemma CreateClient_result_witness :
  let E := fake_engine (-1) None in
  let w := initial_world E ∅ in
  let info := [VObject [("timeout", Number_New 5000);
                        ("retryCount", Number_New 2)]] in
  let run := host_call E (CreateClient true E) info w in
  pending w = None /\
  (forall o, info_at info 0 = VObject o -> well_typed_config o = true) /\
  exists c mem ret d1 d2,
    trace run.2 = (trace w ++ d1 ++ EvClientCreate c mem ret :: d2)%list /\
    engine_calls (d1 ++ d2) = [] /\
    envelopes (d1 ++ EvClientCreate c mem ret :: d2) = [] /\
    if (ret <? 0)%Z then run.1 = Raised (TypeError "Failed to create client")
    else run.1 = Returned (Number_New ret).
Proof.
  intros E w info run.
  assert (forall o, info_at info 0 = VObject o -> well_typed_config o = true)
    as Hty by (intros o [= <-]; reflexivity).
  split; [reflexivity|]. split; [exact Hty|].
  exact (CreateClient_result true E info w run.1 run.2 eq_refl Hty
           (surjective_pairing run)).
Defined.

(** C8 fails as stated: the explicit timeout 4294967297 reaches the engine
    as 1. *)
Lemma ExecutePlugin_timeout_wraps :
  let E := fake_engine 0 (Some reply_cloned) in
  let w := initial_world E ∅ in
  let run := ExecutePlugin true kMaxLength_64bit E
               [Number_New 1; VString "scan"; VString "run"; VString "{}";
                Number_New 4294967297] w in
  trace run.2 =
    [EvExecutePlugin 1 "scan" "run" "{}" 1 (Some 1%positive);
     EvFreeResult (Some 1%positive)] /\
  1 <> 4294967297.
Proof. by vm_compute. Qed.

(** Execute plugin with four arguments. *)
Lemma ExecutePlugin_timeout_witness :
  let E := fake_engine 0 (Some reply_cloned) in
  let w := initial_world E ∅ in
  let n := Finite (inject_Z 1) in
  let run := ExecutePlugin true kMaxLength_64bit E
               [VNumber n; VString "scan"; VString "run"; VString "{}"] w in
  let passes t :=
    exists ret d,
      trace run.2 =
        (trace w
         ++ EvExecutePlugin (to_int32 n) (c_str "scan") (c_str "run")
              (c_str "{}") t ret :: d)%list /\
      (d = [] \/ d = [EvFreeResult ret]) in
  pending w = None /\ passes 30.
Proof.
  intros E w n run passes. split; [reflexivity|].
  exact (proj1 (ExecutePlugin_timeout true kMaxLength_64bit E n "scan" "run"
      "{}" [] w
                  run.1 run.2 eq_refl (surjective_pairing run)) eq_refl).
Defined.

(** List plugins against an engine that answers the null pointer. *)
Lemma unchecked_envelope_pointer_witness :
  let E := fake_engine 0 None in
  let f := ListPlugins true kMaxLength_64bit E in
  let w := initial_world E ∅ in
  let info := [Number_New 1] in
  In f (envelope_operations true kMaxLength_64bit E) /\
  pending w = None /\
  (f info w).1 = Undef /\
  exists d, trace (f info w).2 = (trace w ++ d)%list /\
    (forall c, In c d -> envelope_of c = Some None -> (f info w).1 = Undef) /\
    ((f info w).1 = Undef ->
     exists c p, In c d /\ envelope_of c = Some p /\
       load_result E (engine (f info w).2) p = None).
Proof.
  intros E f w info.
  assert (In f (envelope_operations true kMaxLength_64bit E)) as Hf by (cbn;
      tauto).
  split; [exact Hf|]. split; [reflexivity|]. split; [by vm_compute|].
  exact (unchecked_envelope_pointer true kMaxLength_64bit E f info w (f info
      w).1 (f info w).2
           Hf eq_refl (surjective_pairing (f info w))).
Defined.

(** ** Concrete runs of the further properties *)

(** List plugins against an engine that reports a failure: the failure
    envelope comes back as a value. *)
Lemma ListPlugins_returns_translated_envelope_witness :
  let E := fake_engine 0 (Some reply_failed) in
  let w := initial_world E ∅ in
  let n := Finite (inject_Z 1) in
  let call := gzh_node_list_plugins E (to_int32 n) (engine w) in
  pending w = None /\
  load_result E call.2 call.1 = Some reply_failed /\
  fits kMaxLength_64bit reply_failed = true /\
  host_call E (ListPlugins true kMaxLength_64bit E) [VNumber n] w =
    (Returned (result_object reply_failed),
     {| pending := None; heap := heap w;
        trace := (trace w ++ [EvListPlugins (to_int32 n) call.1;
                              EvFreeResult call.1])%list;
        engine := gzh_node_free_result E call.1 call.2 |}).
Proof.
  intros E w n call.
  assert (load_result E call.2 call.1 = Some reply_failed) as Hl
    by (vm_compute; reflexivity).
  split; [reflexivity|]. split; [exact Hl|]. split; [reflexivity|].
  exact (proj2 (ListPlugins_returns_translated_envelope true
                  kMaxLength_64bit E n [] w call.1 call.2 reply_failed
                  eq_refl (surjective_pairing call) Hl eq_refl)).
Defined.

(** A health check with a spare argument. *)
Lemma Health_returns_translated_envelope_witness :
  let E := fake_engine 0 (Some reply_cloned) in
  let w := initial_world E ∅ in
  let n := Finite (inject_Z 1) in
  let call := gzh_node_health E (to_int32 n) (engine w) in
  pending w = None /\
  load_result E call.2 call.1 = Some reply_cloned /\
  fits kMaxLength_64bit reply_cloned = true /\
  host_call E (Health false kMaxLength_64bit E) [VNumber n; VNull] w =
    (Returned (result_object reply_cloned),
     {| pending := None; heap := heap w;
        trace := (trace w ++ [EvHealth (to_int32 n) call.1;
                              EvFreeResult call.1])%list;
        engine := gzh_node_free_result E call.1 call.2 |}).
Proof.
  intros E w n call.
  assert (load_result E call.2 call.1 = Some reply_cloned) as Hl
    by (vm_compute; reflexivity).
  split; [reflexivity|]. split; [exact Hl|]. split; [reflexivity|].
  exact (proj2 (Health_returns_translated_envelope false kMaxLength_64bit E
                  n [VNull] w call.1 call.2 reply_cloned eq_refl
                  (surjective_pairing call) Hl eq_refl)).
Defined.

(** Execute plugin with a method name that holds a NUL: the engine is
    called with the method "run". *)
Lemma ExecutePlugin_passes_c_strings_witness :
  let E := fake_engine 0 (Some reply_cloned) in
  let w := initial_world E ∅ in
  let n := Finite (inject_Z 1) in
  let method := String "r" (String "u" (String "n" (String zero "x"))) in
  let call :=
    gzh_node_execute_plugin E (to_int32 n) (c_str "scan") (c_str method)
      (c_str "{}") 30 (engine w) in
  pending w = None /\
  timeout_argument [] = Some 30 /\
  load_result E call.2 call.1 = Some reply_cloned /\
  fits kMaxLength_64bit reply_cloned = true /\
  c_str method = "run" /\
  ExecutePlugin true kMaxLength_64bit E
    [VNumber n; VString "scan"; VString method; VString "{}"] w =
    (Ok (result_object reply_cloned),
     {| pending := None; heap := heap w;
        trace := (trace w
                  ++ [EvExecutePlugin (to_int32 n) (c_str "scan")
                        (c_str method) (c_str "{}") 30 call.1;
                      EvFreeResult call.1])%list;
        engine := gzh_node_free_result E call.1 call.2 |}).
Proof.
  intros E w n method call.
  assert (load_result E call.2 call.1 = Some reply_cloned) as Hl
    by (vm_compute; reflexivity).
  split; [reflexivity|]. split; [reflexivity|]. split; [exact Hl|].
  split; [reflexivity|]. split; [reflexivity|].
  exact (proj1 (ExecutePlugin_passes_c_strings true kMaxLength_64bit E n
                  "scan" method "{}" [] 30 w call.1 call.2 reply_cloned
                  eq_refl eq_refl (surjective_pairing call) Hl eq_refl)).
Defined.

(** Execute plugin without its fourth argument. *)
Lemma ExecutePlugin_rejects_bad_arguments_witness :
  let E := fake_engine 0 (Some reply_cloned) in
  let w := initial_world E ∅ in
  let info := [Number_New 1; VString "scan"; VString "run"] in
  let e := TypeError "Expected client ID, plugin name, method, and args" in
  pending w = None /\
  IsNumber (info_at info 0) && IsString (info_at info 1)
  && IsString (info_at info 2) && IsString (info_at info 3) = false /\
  ExecutePlugin true kMaxLength_64bit E info w = (Ok VNull, with_pending E
      (Some e) w) /\
  host_call E (ExecutePlugin true kMaxLength_64bit E) info w = (Raised e, w).
Proof.
  intros E w info e. split; [reflexivity|]. split; [reflexivity|].
  exact (ExecutePlugin_rejects_bad_arguments true kMaxLength_64bit E info w
      eq_refl eq_refl).
Defined.

(** A health check whose handle is the string "1". *)
Lemma exports_check_the_handle_witness :
  let E := fake_engine 0 (Some reply_cloned) in
  let w := initial_world E ∅ in
  let f := Health true kMaxLength_64bit E in
  let info := [VString "1"] in
  In ("health", f) (Init true kMaxLength_64bit E) /\
  "health" <> "createClient" /\
  pending w = None /\
  IsNumber (info_at info 0) = false /\
  exists v message,
    String.prefix "Expected client ID" message = true /\
    f info w = (Ok v, with_pending E (Some (TypeError message)) w) /\
    host_call E f info w = (Raised (TypeError message), w).
Proof.
  intros E w f info.
  assert (In ("health", f) (Init true kMaxLength_64bit E)) as Hin by (cbn;
      tauto).
  assert ("health" <> "createClient") as Hname by discriminate.
  split; [exact Hin|]. split; [exact Hname|].
  split; [reflexivity|]. split; [reflexivity|].
  exact (exports_check_the_handle true kMaxLength_64bit E "health" f info w
      Hin Hname
           eq_refl eq_refl).
Defined.

(** Execute plugin with an explicit [undefined] timeout, in a build
    without C++ exceptions: the engine is called with the timeout 0 and
    the host gets the type error. *)
Lemma ExecutePlugin_non_numeric_timeout_witness :
  let E := fake_engine 0 (Some reply_cloned) in
  let w := initial_world E ∅ in
  let n := Finite (inject_Z 1) in
  let info := [VNumber n; VString "scan"; VString "run"; VString "{}";
               VUndefined] in
  let run := ExecutePlugin false kMaxLength_64bit E info w in
  let e := TypeError "A number was expected" in
  pending w = None /\
  IsNumber VUndefined = false /\
  (host_call E (ExecutePlugin false kMaxLength_64bit E) info w).1 = Raised e /\
  pending run.2 = Some e /\ heap run.2 = heap w /\
  exists p d,
    trace run.2 =
      (trace w
       ++ EvExecutePlugin (to_int32 n) (c_str "scan") (c_str "run")
            (c_str "{}") 0 p :: d)%list /\
    (d = [] \/ d = [EvFreeResult p]).
Proof.
  intros E w n info run e.
  assert (run.1 <> Undef) as Hout by (vm_compute; discriminate).
  destruct (ExecutePlugin_non_numeric_timeout false kMaxLength_64bit E n
      "scan" "run" "{}"
              VUndefined [] w run.1 run.2 eq_refl eq_refl
              (surjective_pairing run)) as [Hhost Hrest].
  split; [reflexivity|]. split; [reflexivity|].
  split; [exact (Hhost Hout)|]. exact Hrest.
Defined.

(** The request of the end-to-end scenario: concurrency 4 and
    includePrivate false. *)
Lemma BulkClone_scalars_reach_engine_witness :
  let E := fake_engine 0 (Some reply_cloned) in
  let w := initial_world E ∅ in
  let n := Finite (inject_Z 1) in
  let run := BulkClone true kMaxLength_64bit E [VNumber n; VObject
      request_mirror] w in
  pending w = None /\
  well_typed_request request_mirror = true /\
  exists d1 r mem ret d2,
    trace run.2 =
      (trace w ++ d1 ++ EvBulkClone (to_int32 n) r mem ret :: d2)%list /\
    engine_calls d1 = [] /\
    concurrency r = match get_property request_mirror "concurrency" with
                    | Some (VNumber m) => to_int32 m
                    | _ => 0
                    end /\
    include_private r = match get_property request_mirror "includePrivate" with
                        | Some (VBoolean true) => 1
                        | _ => 0
                        end.
Proof.
  intros E w n run. split; [reflexivity|]. split; [reflexivity|].
  exact (BulkClone_scalars_reach_engine true kMaxLength_64bit E n
      request_mirror [] w
           run.1 run.2 eq_refl eq_refl (surjective_pairing run)).
Defined.

(** The request of the end-to-end scenario against an engine that reports
    a failure. *)
Lemma BulkClone_returns_translated_envelope_witness :
  let E := fake_engine 0 (Some reply_failed) in
  let w := initial_world E ∅ in
  let n := Finite (inject_Z 1) in
  let info := [VNumber n; VObject request_mirror] in
  let run := BulkClone false kMaxLength_64bit E info w in
  pending w = None /\
  well_typed_request request_mirror = true /\
  exists d1 r mem tail,
    let call := gzh_node_bulk_clone E (to_int32 n) r mem (engine w) in
    trace run.2 =
      (trace w ++ d1
       ++ EvBulkClone (to_int32 n) r mem call.1
          :: map EvFree (request_pointers r) ++ tail)%list /\
    engine_calls d1 = [] /\
    heap run.2 = heap w /\
    match load_result E call.2 call.1 with
    | Some e =>
        fits kMaxLength_64bit e = true ->
        tail = [EvFreeResult call.1] /\
        engine run.2 = gzh_node_free_result E call.1 call.2 /\
        pending run.2 = None /\
        run.1 = Ok (result_object e) /\
        host_call E (BulkClone false kMaxLength_64bit E) info w
          = (Returned (result_object e), run.2)
    | None => tail = [] /\ run.1 = Undef /\ pending run.2 = None
    end.
Proof.
  intros E w n info run. split; [reflexivity|]. split; [reflexivity|].
  exact (BulkClone_returns_translated_envelope false kMaxLength_64bit E n
           request_mirror [] w run.1 run.2 eq_refl eq_refl
           (surjective_pairing run)).
Defined.

(** A request whose output directory is a number, in a build without C++
    exceptions. *)
Lemma BulkClone_ill_typed_request_witness :
  let E := fake_engine 0 (Some reply_cloned) in
  let w := initial_world E ∅ in
  let n := Finite (inject_Z 1) in
  let o := [("platforms", VString "[github]"); ("outputDir", Number_New 5)] in
  let run := BulkClone false kMaxLength_64bit E [VNumber n; VObject o] w in
  pending w = None /\
  well_typed_request o = false /\
  heap run.2 = heap w /\
  (exists d1 r mem p d2,
     trace run.2 =
       (trace w ++ d1 ++ EvBulkClone (to_int32 n) r mem p :: d2)%list /\
     engine_calls d1 = [] /\
     defaulted o "platforms" (platforms_json r) mem /\
     defaulted o "outputDir" (output_dir r) mem /\
     defaulted o "strategy" (strategy r) mem /\
     defaulted o "filters" (filters_json r) mem /\
     (field_is IsNumber o "concurrency" = false -> concurrency r = 0) /\
     (field_is IsBoolean o "includePrivate" = false ->
      include_private r = 0)) /\
  exists e,
    conversion_error e /\ pending run.2 = Some e /\
    (run.1 <> Undef ->
     (host_call E (BulkClone false kMaxLength_64bit E)
        [VNumber n; VObject o] w).1 = Raised e).
Proof.
  intros E w n o run. split; [reflexivity|]. split; [reflexivity|].
  exact (BulkClone_ill_typed_request false kMaxLength_64bit E n o [] w
           run.1 run.2 eq_refl eq_refl (surjective_pairing run)).
Defined.

(** The request of the end-to-end scenario, and the same request with its
    properties in another order, a property more and an argument more. *)
Lemma BulkClone_reads_six_properties_witness :
  let E := fake_engine 0 (Some reply_cloned) in
  let w := initial_world E ∅ in
  let o := (("verbose", VBoolean true) :: rev request_mirror)%list in
  (forall k, In k request_keys ->
     get_property request_mirror k = get_property o k) /\
  BulkClone true kMaxLength_64bit E [Number_New 1; VObject request_mirror] w =
  BulkClone true kMaxLength_64bit E [Number_New 1; VObject o; VNull] w.
Proof.
  intros E w o.
  assert (forall k, In k request_keys ->
            get_property request_mirror k = get_property o k) as Hsame.
  { intros k Hin. cbn in Hin.
    repeat (destruct Hin as [<-|Hin]; [reflexivity|]). destruct Hin. }
  split; [exact Hsame|].
  exact (BulkClone_reads_six_properties true kMaxLength_64bit E (Number_New 1)
      request_mirror
           o [] [VNull] w Hsame).
Defined.

(** A configuration, and the same configuration with a property more. *)
Lemma CreateClient_reads_six_properties_witness :
  let E := fake_engine 0 None in
  let w := initial_world E ∅ in
  let o1 := [("timeout", Number_New 5000); ("logLevel", VString "debug")] in
  let o2 := [("color", VString "red"); ("logLevel", VString "debug");
             ("timeout", Number_New 5000)] in
  (forall k, In k config_keys -> get_property o1 k = get_property o2 k) /\
  CreateClient true E [VObject o1] w = CreateClient true E [VObject o2; VNull] w.
Proof.
  intros E w o1 o2.
  assert (forall k, In k config_keys ->
            get_property o1 k = get_property o2 k) as Hsame.
  { intros k Hin. cbn in Hin.
    repeat (destruct Hin as [<-|Hin]; [reflexivity|]). destruct Hin. }
  split; [exact Hsame|].
  exact (CreateClient_reads_six_properties true E o1 o2 [] [VNull] w Hsame).
Defined.

(** A configuration with a timeout and two strings: three blocks are
    allocated, and the same three are freed. *)
Lemma FreeClientConfig_releases_translated_config_witness :
  let E := fake_engine 0 None in
  let w := initial_world E ∅ in
  let o := [("timeout", Number_New 5000); ("pluginDir", VString "/plugins");
            ("logLevel", VString "debug")] in
  let run := ObjectToClientConfig true E o w in
  run.1 = Ok 1%positive /\
  exists cfg d w2,
    heap run.2 !! 1%positive = Some (CConfig cfg) /\
    trace run.2 = (trace w ++ d)%list /\
    allocations d = 1%positive :: config_pointers cfg /\ frees d = [] /\
    FreeClientConfig E (Some 1%positive) run.2 = (Ok tt, w2) /\
    trace w2 =
      (trace run.2 ++ map EvFree (config_pointers cfg ++ [1%positive]))%list /\
    heap w2 = heap w /\ pending w2 = pending run.2 /\ engine w2 = engine w.
Proof.
  intros E w o run.
  assert (run.1 = Ok 1%positive) as Hok by (vm_compute; reflexivity).
  split; [exact Hok|].
  exact (FreeClientConfig_releases_translated_config true E o w 1%positive
           run.2
           (eq_trans (surjective_pairing run)
              (f_equal (fun x => (x, run.2)) Hok))).
Defined.

(** A configuration whose timeout is a string, in a build with C++
    exceptions. *)
Lemma CreateClient_ill_typed_config_witness :
  let E := fake_engine 7 None in
  let w := initial_world E ∅ in
  let o := [("timeout", VString "5000")] in
  let run := CreateClient true E [VObject o] w in
  pending w = None /\
  well_typed_config o = false /\
  (exists e, run.1 = Thrown e) /\ engine run.2 = engine w /\
  exists a d,
    heap w !! a = None /\ is_Some (heap run.2 !! a) /\
    trace run.2 = (trace w ++ EvAlloc a (CConfig zero_config) :: d)%list /\
    engine_calls d = [] /\ frees d = [].
Proof.
  intros E w o run. split; [reflexivity|]. split; [reflexivity|].
  exact (CreateClient_ill_typed_config true E o [] w run.1 run.2
           eq_refl eq_refl eq_refl (surjective_pairing run)).
Defined.

(** Session creation against an engine that cannot allocate a session:
    the record and its string are freed all the same. *)
Lemma CreateClient_restores_heap_witness :
  let E := fake_engine (-1) None in
  let w := initial_world E ∅ in
  let info := [VObject [("timeout", Number_New 5000);
                        ("logFile", VString "/tmp/gzh.log")]] in
  let run := CreateClient true E info w in
  pending w = None /\
  (forall e, run.1 <> Thrown e) /\
  heap run.2 = heap w /\
  exists d c mem ret,
    trace run.2 = (trace w ++ d)%list /\
    engine_calls d = [EvClientCreate c mem ret].
Proof.
  intros E w info run.
  assert (forall e, run.1 <> Thrown e) as Hout
    by (intros e; vm_compute; discriminate).
  destruct (CreateClient_restores_heap true E info w run.1 run.2 eq_refl
              (surjective_pairing run)) as (_ & _ & Hheap).
  split; [reflexivity|]. split; [exact Hout|]. exact (Hheap Hout).
Defined.

(** The handle 7 goes from create session to destroy session unchanged. *)
Lemma created_handle_reaches_destroy_witness :
  let E := fake_engine 7 None in
  let w := initial_world E ∅ in
  let run := host_call E (CreateClient true E) [] w in
  pending w = None /\
  run.1 = Returned (Number_New 7) /\
  exists d1 c mem ret d2,
    trace run.2 = (trace w ++ d1 ++ EvClientCreate c mem ret :: d2)%list /\
    engine_calls (d1 ++ d2) = [] /\
    0 <= ret /\ Number_New 7 = Number_New ret /\
    (ret < 2 ^ 31 ->
     forall rest w2,
       DestroyClient true E (Number_New 7 :: rest) w2 =
         (Ok VUndefined,
          log E (EvClientDestroy ret)
            (with_engine E
               (gzh_node_client_destroy E ret (engine w2)) w2))).
Proof.
  intros E w run.
  assert (run.1 = Returned (Number_New 7)) as Hret
    by (vm_compute; reflexivity).
  split; [reflexivity|]. split; [exact Hret|].
  exact (created_handle_reaches_destroy true E [] w (Number_New 7) run.2
           eq_refl
           (eq_trans (surjective_pairing run)
              (f_equal (fun x => (x, run.2)) Hret))).
Defined.

(** A configuration with a timeout, a flag and a log level. *)
Lemma config_fields_reach_engine_witness :
  let E := fake_engine 0 None in
  let w := initial_world E ∅ in
  let o := [("timeout", Number_New 5000); ("enablePlugins", VBoolean true);
            ("logLevel", VString "debug")] in
  let run := CreateClient true E [VObject o] w in
  pending w = None /\
  well_typed_config o = true /\
  exists d1 cfg mem ret d2,
    trace run.2 =
      (trace w ++ d1 ++ EvClientCreate (Some cfg) mem ret :: d2)%list /\
    engine_calls d1 = [] /\
    timeout cfg = match get_property o "timeout" with
                  | Some (VNumber m) => to_int64 m
                  | _ => 0
                  end /\
    retry_count cfg = match get_property o "retryCount" with
                      | Some (VNumber m) => to_int32 m
                      | _ => 0
                      end /\
    enable_plugins cfg = match get_property o "enablePlugins" with
                         | Some (VBoolean true) => 1
                         | _ => 0
                         end /\
    delivered o "pluginDir" (plugin_dir cfg) (heap w) mem /\
    delivered o "logLevel" (log_level cfg) (heap w) mem /\
    delivered o "logFile" (log_file cfg) (heap w) mem.
Proof.
  intros E w o run. split; [reflexivity|]. split; [reflexivity|].
  exact (config_fields_reach_engine true E o [] w run.1 run.2 eq_refl
           eq_refl (surjective_pairing run)).
Defined.

(** A configuration whose timeout is a string, in a build without C++
    exceptions, against an engine that creates session 7. *)
Lemma CreateClient_goes_on_after_conversion_error_witness :
  let E := fake_engine 7 None in
  let w := initial_world E ∅ in
  let o := [("timeout", VString "5000")] in
  let run := CreateClient false E [VObject o] w in
  pending w = None /\
  well_typed_config o = false /\
  heap run.2 = heap w /\
  exists d1 cfg mem ret d2,
    trace run.2 =
      (trace w ++ d1 ++ EvClientCreate (Some cfg) mem ret :: d2)%list /\
    engine_calls d1 = [] /\
    (0 <= ret ->
     exists e, pending run.2 = Some e /\
       (host_call E (CreateClient false E) [VObject o] w).1 = Raised e).
Proof.
  intros E w o run. split; [reflexivity|]. split; [reflexivity|].
  exact (CreateClient_goes_on_after_conversion_error false E o [] w
           run.1 run.2 eq_refl eq_refl eq_refl (surjective_pairing run)).
Defined.

(** The handles 1 and 4294967297 in list plugins. *)
Lemma handles_are_converted_to_int_witness :
  let E := fake_engine 0 (Some reply_cloned) in
  let w := initial_world E ∅ in
  let f := ListPlugins true kMaxLength_64bit E in
  In ("listPlugins", f) (Init true kMaxLength_64bit E) /\
  "listPlugins" <> "createClient" /\
  to_int32 (Finite (inject_Z 1)) = to_int32 (Finite (inject_Z 4294967297)) /\
  f [Number_New 1] w = f [Number_New 4294967297] w.
Proof.
  intros E w f.
  assert (In ("listPlugins", f) (Init true kMaxLength_64bit E)) as Hin by
      (cbn; tauto).
  assert ("listPlugins" <> "createClient") as Hname by discriminate.
  assert (to_int32 (Finite (inject_Z 1))
          = to_int32 (Finite (inject_Z 4294967297))) as Heq by reflexivity.
  split; [exact Hin|]. split; [exact Hname|]. split; [exact Heq|].
  exact (handles_are_converted_to_int true kMaxLength_64bit E "listPlugins" f
           (Finite (inject_Z 1)) (Finite (inject_Z 4294967297)) [] w
           Hin Hname Heq).
Defined.

(** A bulk clone whose output directory is a number, in a build without
    C++ exceptions: the host gets the exception, the heap is empty again
    and nothing is pending. *)
Lemma exports_keep_the_heap_witness :
  let E := fake_engine 0 (Some reply_cloned) in
  let w := initial_world E ∅ in
  let f := BulkClone false kMaxLength_64bit E in
  let info := [Number_New 1;
               VObject [("platforms", VString "[github]");
                        ("outputDir", Number_New 5)]] in
  let run := host_call E f info w in
  In ("bulkClone", f) (Init false kMaxLength_64bit E) /\
  pending w = None /\
  run.1 = Raised (TypeError "A string was expected") /\
  pending run.2 = None /\ heap run.2 = heap w.
Proof.
  intros E w f info run.
  assert (In ("bulkClone", f) (Init false kMaxLength_64bit E)) as Hin by (cbn;
      tauto).
  assert (run.1 = Raised (TypeError "A string was expected")) as Hres
    by (vm_compute; reflexivity).
  pose proof (exports_keep_the_heap false kMaxLength_64bit E "bulkClone" f
      info w run.1 run.2
                Hin eq_refl (surjective_pairing run)) as H.
  rewrite Hres in H. destruct H as [Hp Hh].
  split; [exact Hin|]. split; [reflexivity|]. split; [exact Hres|].
  split; [exact Hp|]. exact (Hh eq_refl).
Defined.
